(** * Session lifecycle and violation scoring of the study-session app

    A shallow embedding of [services/firebase.ts] (the session, violation
    and statistics functions) and of the end-of-session decision of
    [ActiveSessionScreen.tsx], with the properties the specification
    states about them.

    Conventions of the embedding:
    - JavaScript numbers that hold whole seconds, minutes and counters are
      [Z]; [totalHours] and the result of [Math.random()] are exact
      rationals [Q] (rounding of IEEE doubles is not modelled);
    - a Firestore collection is a [gmap] from document id to document; a
      query returns the matching documents in the order of [map_to_list];
    - an [async] function that reads or writes the store is a function
      from the store to either a thrown exception or a result and the
      store after it. *)

From Stdlib Require Import ZArith QArith Qcanon Qround Ascii Lqa.
From stdpp Require Import gmap strings list fin_maps pretty sorting.
From Equations Require Import Equations.

Set Default Proof Using "Type".
Local Open Scope Z_scope.

(** ** Type definitions *)

(** [ViolationCategory = "minor" | "medium" | "large" | "catastrophic"]. *)
Inductive ViolationCategory : Set :=
  | minor
  | medium
  | large
  | catastrophic.

(** [SessionOutcome = "successful" | "failed"]. *)
Inductive SessionOutcome : Set :=
  | successful
  | failed.

(** The [status] field of a session. *)
Inductive Status : Set :=
  | pending
  | active
  | ended.

#[global] Instance ViolationCategory_eq_dec : EqDecision ViolationCategory.
Proof. solve_decision. Defined.
#[global] Instance SessionOutcome_eq_dec : EqDecision SessionOutcome.
Proof. solve_decision. Defined.
#[global] Instance Status_eq_dec : EqDecision Status.
Proof. solve_decision. Defined.

(** [interface Violation]. *)
Record Violation : Set := mkViolation {
  userId : string;
  timestamp : string;
  type_ : string;
  durationSeconds : Z;
  category : ViolationCategory
}.

#[global] Instance Violation_eq_dec : EqDecision Violation.
Proof. solve_decision. Defined.

(** ** Violation classifier and outcome evaluator *)

Definition getViolationCategory (durationSeconds : Z) : ViolationCategory :=
  if durationSeconds <? 30 then minor
  else if durationSeconds <? 120 then medium
  else if durationSeconds <? 300 then large
  else catastrophic.

(** [violations.filter(v => v.userId === userId)
               .reduce((total, v) => total + v.durationSeconds, 0)]. *)
Definition getUserTotalViolationTime
    (violations : list Violation) (uid : string) : Z :=
  foldl (fun total v => total + durationSeconds v) 0
        (filter (fun v => userId v = uid) violations).

Definition MAX_VIOLATION_SECONDS : Z := 300.

(** The [for ... of] loop with its early [return false]. *)
Fixpoint isSessionSuccessful
    (violations : list Violation) (participants : list string) : bool :=
  match participants with
  | [] => true
  | participantId :: rest =>
      let totalTime := getUserTotalViolationTime violations participantId in
      if MAX_VIOLATION_SECONDS <=? totalTime then false
      else isSessionSuccessful violations rest
  end.

(** ** Documents *)

(** The fields of a document of the [sessions] collection
    ([interface Session] without its [id]).  Optional fields are
    [option]s; timestamps are server clock readings. *)
Record SessionData : Type := mkSessionData {
  hostId : string;
  participants : list string;
  status : Status;
  duration : Z;
  isMarathon : option bool;
  violations : list Violation;
  createdAt : option Z;
  startTime : option Z;
  endTime : option Z;
  roomCode : string;
  outcome : option SessionOutcome;
  failReason : option string;
  statsUpdatedFor : option (list string)
}.

(** [{ id: doc.id, ...doc.data() } as Session]. *)
Record Session : Type := mkSession {
  id : string;
  data : SessionData
}.

(** [interface UserProfile] without its [id]. *)
Module UserProfile.
Record t : Type := mk {
  username : string;
  email : string;
  totalHours : Qc;
  violations : Z;
  sessionsCompleted : Z;
  createdAt : Z
}.
End UserProfile.

(** ** The store and asynchronous functions *)

(** The two Firestore collections and the source of [Math.random()]:
    [random k] is the value of the [k]-th call still to come. *)
Record World : Type := mkWorld {
  sessions : gmap string SessionData;
  users : gmap string UserProfile.t;
  random : nat → Q
}.

Definition set_sessions (f : gmap string SessionData → gmap string SessionData)
    (w : World) : World :=
  {| sessions := f (sessions w); users := users w; random := random w |}.

Definition set_users (f : gmap string UserProfile.t → gmap string UserProfile.t)
    (w : World) : World :=
  {| sessions := sessions w; users := f (users w); random := random w |}.

(** What a [throw] carries: [new Error(message)] of the application, or an
    error of the Firestore client with its status code. *)
Inductive Exn : Type :=
  | JsError (message : string)
  | FirestoreError (code : string).

#[global] Instance Exn_eq_dec : EqDecision Exn.
Proof. solve_decision. Defined.

(** A [Promise<A>] run against the store: the exception or the value, and
    the store as the call leaves it (writes made before a [throw] stay). *)
Definition Async (A : Type) : Type := World → (Exn + A) * World.

Definition resolve {A} (a : A) : Async A := λ w, (inr a, w).
Definition throw {A} (e : Exn) : Async A := λ w, (inl e, w).
Definition await {A B} (m : Async A) (k : A → Async B) : Async B :=
  λ w, match m w with
       | (inl e, w') => (inl e, w')
       | (inr a, w') => k a w'
       end.

Notation "'let*' x ':=' m 'in' k" := (await m (λ x, k))
  (at level 10, x pattern, m at level 100, k at level 200).

(** *** Firestore primitives

    Behaviour of the Firestore client the code relies on: [getDoc] reads,
    [updateDoc] fails with [not-found] on a missing document, [deleteDoc]
    succeeds whether or not the document exists, [addDoc] writes under an
    automatically generated id (an input here), [arrayUnion] appends the
    elements the array does not hold yet, and a query yields the matching
    documents. *)

Definition getDoc_session (sid : string) : Async (option SessionData) :=
  λ w, (inr (sessions w !! sid), w).

Definition getDoc_user (uid : string) : Async (option UserProfile.t) :=
  λ w, (inr (users w !! uid), w).

Definition updateDoc_session (sid : string) (f : SessionData → SessionData)
    : Async unit :=
  λ w, match sessions w !! sid with
       | Some d => (inr (), set_sessions (insert sid (f d)) w)
       | None => (inl (FirestoreError "not-found"), w)
       end.

Definition updateDoc_user (uid : string) (f : UserProfile.t → UserProfile.t)
    : Async unit :=
  λ w, match users w !! uid with
       | Some u => (inr (), set_users (insert uid (f u)) w)
       | None => (inl (FirestoreError "not-found"), w)
       end.

Definition deleteDoc_session (sid : string) : Async unit :=
  λ w, (inr (), set_sessions (delete sid) w).

Definition addDoc_session (autoId : string) (d : SessionData) : Async string :=
  λ w, (inr autoId, set_sessions (insert autoId d) w).

Definition querySessions (where_ : SessionData → bool) (w : World)
    : list (string * SessionData) :=
  filter (λ kd, where_ kd.2 = true) (map_to_list (sessions w)).

Definition getDocs_sessions (where_ : SessionData → bool)
    : Async (list (string * SessionData)) :=
  λ w, (inr (querySessions where_ w), w).

Definition arrayUnion {A} `{EqDecision A} (x : A) (l : list A) : list A :=
  if decide (x ∈ l) then l else l ++ [x].

Definition Math_random : Async Q :=
  λ w, (inr (random w 0%nat),
        {| sessions := sessions w; users := users w;
           random := λ k, random w (S k) |}).

(** [x || 0] on numbers: a falsy (zero) left operand gives the right one. *)
Definition or0 (x : Z) : Z := if x =? 0 then 0 else x.
Definition or0_Qc (x : Qc) : Qc := if decide (x = Q2Qc 0) then Q2Qc 0 else x.

(** [x || []] on an optional array. *)
Definition orNil {A} (x : option (list A)) : list A := default [] x.

(** ** Session functions *)

(** [Math.floor(100000 + Math.random() * 900000).toString()] for the
    value [r] of [Math.random()]. *)
Definition roomCodeOf (r : Q) : string :=
  pretty (Qfloor (100000 + r * 900000)%Q).

(** [where("status", "in", ["pending", "active"])]. *)
Definition status_in_pending_active (d : SessionData) : bool :=
  bool_decide (status d = pending) || bool_decide (status d = active).

(** [where("roomCode", "==", code)] and the status filter together. *)
Definition roomCodeQuery (code : string) (d : SessionData) : bool :=
  bool_decide (roomCode d = code) && status_in_pending_active d.

Definition ERR_MAX_RETRIES : Exn :=
  JsError "Failed to generate unique room code after maximum retries".

(** [generateRoomCode(maxRetries = 10, attempt = 0)]; the recursion is
    on the attempts that remain. *)
Equations? generateRoomCode (maxRetries attempt : nat) (w : World)
    : (Exn + string) * World by wf (maxRetries - attempt)%nat lt :=
  generateRoomCode maxRetries attempt w with decide (maxRetries ≤ attempt)%nat := {
    | left _ => throw ERR_MAX_RETRIES w
    | right _ =>
        (let* r := Math_random in
         let code := roomCodeOf r in
         let* snapshot := getDocs_sessions (roomCodeQuery code) in
         λ w', match snapshot with
               | [] => resolve code w'
               | _ :: _ => generateRoomCode maxRetries (S attempt) w'
               end) w
  }.
Proof. lia. Qed.

(** A code is reserved when a [pending] or [active] session carries it. *)
Definition reserved (w : World) (code : string) : Prop :=
  ∃ sid d, sessions w !! sid = Some d ∧ roomCode d = code
           ∧ (status d = pending ∨ status d = active).

(** Six-digit numeric strings. *)
Definition isDigit (c : ascii) : bool :=
  bool_decide (c ∈ ["0"; "1"; "2"; "3"; "4"; "5"; "6"; "7"; "8"; "9"]%char).

Fixpoint allDigits (s : string) : bool :=
  match s with
  | EmptyString => true
  | String c s' => isDigit c && allDigits s'
  end.

Definition sixDigits (s : string) : Prop :=
  String.length s = 6%nat ∧ allDigits s = true.


(** Every value of [Math.random()] lies in [0, 1). *)
Definition draws_in_range (w : World) : Prop :=
  ∀ k, (0 <= random w k)%Q ∧ (random w k < 1)%Q.

(** [parseInt(duration.toString())] on a whole number of minutes. *)
Definition parseInt_toString (duration : Z) : Z := duration.

(** [createSession(hostId, participantIds, duration, isMarathon = false)];
    [autoId] is the id [addDoc] generates and [now] the server time. *)
Definition createSession (autoId : string) (now : Z)
    (hostId_ : string) (participantIds : list string) (duration_ : Z)
    (isMarathon_ : bool) : Async string :=
  let* roomCode_ := generateRoomCode 10 0 in
  addDoc_session autoId
    {| hostId := hostId_;
       participants := hostId_ :: participantIds;
       status := pending;
       duration := if isMarathon_ then 0 else parseInt_toString duration_;
       isMarathon := Some isMarathon_;
       violations := [];
       createdAt := Some now;
       startTime := None;
       endTime := None;
       roomCode := roomCode_;
       outcome := None;
       failReason := None;
       statsUpdatedFor := None |}.

(** The partial updates of a session document, one per written field set. *)
Definition set_started (now : Z) (d : SessionData) : SessionData :=
  {| hostId := hostId d; participants := participants d;
     status := active; duration := duration d; isMarathon := isMarathon d;
     violations := violations d; createdAt := createdAt d;
     startTime := Some now; endTime := endTime d; roomCode := roomCode d;
     outcome := outcome d; failReason := failReason d;
     statsUpdatedFor := statsUpdatedFor d |}.

Definition set_ended (now : Z) (o : SessionOutcome) (reason : option string)
    (d : SessionData) : SessionData :=
  {| hostId := hostId d; participants := participants d;
     status := ended; duration := duration d; isMarathon := isMarathon d;
     violations := violations d; createdAt := createdAt d;
     startTime := startTime d; endTime := Some now; roomCode := roomCode d;
     outcome := Some o; failReason := reason;
     statsUpdatedFor := statsUpdatedFor d |}.

Definition set_participants (ps : list string) (d : SessionData) : SessionData :=
  {| hostId := hostId d; participants := ps;
     status := status d; duration := duration d; isMarathon := isMarathon d;
     violations := violations d; createdAt := createdAt d;
     startTime := startTime d; endTime := endTime d; roomCode := roomCode d;
     outcome := outcome d; failReason := failReason d;
     statsUpdatedFor := statsUpdatedFor d |}.

Definition set_violations (vs : list Violation) (d : SessionData) : SessionData :=
  {| hostId := hostId d; participants := participants d;
     status := status d; duration := duration d; isMarathon := isMarathon d;
     violations := vs; createdAt := createdAt d;
     startTime := startTime d; endTime := endTime d; roomCode := roomCode d;
     outcome := outcome d; failReason := failReason d;
     statsUpdatedFor := statsUpdatedFor d |}.

Definition set_statsUpdatedFor (us : list string) (d : SessionData) : SessionData :=
  {| hostId := hostId d; participants := participants d;
     status := status d; duration := duration d; isMarathon := isMarathon d;
     violations := violations d; createdAt := createdAt d;
     startTime := startTime d; endTime := endTime d; roomCode := roomCode d;
     outcome := outcome d; failReason := failReason d;
     statsUpdatedFor := Some us |}.

(** [startSession(sessionId)]: writes [status] and [startTime]. *)
Definition startSession (now : Z) (sessionId : string) : Async unit :=
  updateDoc_session sessionId (set_started now).

(** [failReason || null]: an absent or empty reason is stored as [null]. *)
Definition orNull (failReason_ : option string) : option string :=
  match failReason_ with
  | Some EmptyString => None
  | Some s => Some s
  | None => None
  end.

(** [endSession(sessionId, outcome = "successful", failReason?)]. *)
Definition endSession (now : Z) (sessionId : string)
    (outcome_ : SessionOutcome) (failReason_ : option string) : Async unit :=
  updateDoc_session sessionId (set_ended now outcome_ (orNull failReason_)).

(** [terminateSession(sessionId, reason)]. *)
Definition terminateSession (now : Z) (sessionId : string) (reason : string)
    : Async unit :=
  updateDoc_session sessionId (set_ended now failed (Some reason)).

(** [addViolation(sessionId, userId, type, durationSeconds)]; [isoNow] is
    [new Date().toISOString()]. *)
Definition addViolation (isoNow : string) (sessionId uid type__ : string)
    (durationSeconds_ : Z) : Async (ViolationCategory * bool) :=
  let category_ := getViolationCategory durationSeconds_ in
  let* _ := updateDoc_session sessionId (λ d,
    set_violations
      (arrayUnion {| userId := uid; timestamp := isoNow; type_ := type__;
                     durationSeconds := durationSeconds_;
                     category := category_ |} (violations d)) d) in
  resolve (category_, bool_decide (category_ = catastrophic)).

(** [getSessionByRoomCode(roomCode)]: the first document of the query. *)
Definition getSessionByRoomCode (code : string) : Async (option Session) :=
  let* snapshot := getDocs_sessions (roomCodeQuery code) in
  match snapshot with
  | [] => resolve None
  | (docId, docData) :: _ => resolve (Some {| id := docId; data := docData |})
  end.

Definition ERR_NOT_FOUND : Exn :=
  JsError "Session not found. Please check the room code.".
Definition ERR_ALREADY_STARTED : Exn :=
  JsError "Session already started. Cannot join now.".
Definition ERR_ENDED : Exn :=
  JsError "Session has ended.".

(** [joinSessionByCode(roomCode, userId)]. *)
Definition joinSessionByCode (code uid : string) : Async string :=
  let* session := getSessionByRoomCode code in
  match session with
  | None => throw ERR_NOT_FOUND
  | Some session =>
      if decide (status (data session) = active) then throw ERR_ALREADY_STARTED
      else if decide (status (data session) = ended) then throw ERR_ENDED
      else if decide (uid ∈ participants (data session)) then
        resolve (id session)
      else
        let* _ := updateDoc_session (id session) (λ d,
                    set_participants (arrayUnion uid (participants d)) d) in
        resolve (id session)
  end.

(** [cancelSession(sessionId)]: deletes the document. *)
Definition cancelSession (sessionId : string) : Async unit :=
  deleteDoc_session sessionId.

(** [leaveSession(sessionId, userId)]. *)
Definition leaveSession (sessionId uid : string) : Async unit :=
  let* sessionSnap := getDoc_session sessionId in
  match sessionSnap with
  | None => resolve ()
  | Some sessionData =>
      let updatedParticipants :=
        filter (λ i, i ≠ uid) (participants sessionData) in
      updateDoc_session sessionId (set_participants updatedParticipants)
  end.

(** ** User statistics *)

(** [sessionData.duration / 60], in hours. *)
Definition hoursOf (minutes : Z) : Qc :=
  (Q2Qc (inject_Z minutes) / Q2Qc (inject_Z 60))%Qc.

(** The two partial updates of a user document in [updateUserStats]. *)
Definition stats_successful (currentData : UserProfile.t) (minutes : Z)
    (userViolationDuration : Z) (u : UserProfile.t) : UserProfile.t :=
  {| UserProfile.username := UserProfile.username u;
     UserProfile.email := UserProfile.email u;
     UserProfile.totalHours :=
       (or0_Qc (UserProfile.totalHours currentData) + hoursOf minutes)%Qc;
     UserProfile.violations :=
       or0 (UserProfile.violations currentData) + userViolationDuration;
     UserProfile.sessionsCompleted :=
       or0 (UserProfile.sessionsCompleted currentData) + 1;
     UserProfile.createdAt := UserProfile.createdAt u |}.

Definition stats_failed (currentData : UserProfile.t)
    (userViolationDuration : Z) (u : UserProfile.t) : UserProfile.t :=
  {| UserProfile.username := UserProfile.username u;
     UserProfile.email := UserProfile.email u;
     UserProfile.totalHours := UserProfile.totalHours u;
     UserProfile.violations :=
       or0 (UserProfile.violations currentData) + userViolationDuration;
     UserProfile.sessionsCompleted := UserProfile.sessionsCompleted u;
     UserProfile.createdAt := UserProfile.createdAt u |}.

(** [updateUserStats(userId, sessionData)].  The skip test reads the
    stored session; violations, outcome and duration are those of the
    [sessionData] passed in. *)
Definition updateUserStats (uid : string) (sessionData : Session) : Async unit :=
  let* sessionSnap := getDoc_session (id sessionData) in
  match sessionSnap with
  | None => resolve ()
  | Some currentSessionData =>
      let statsUpdatedFor_ := orNil (statsUpdatedFor currentSessionData) in
      if decide (uid ∈ statsUpdatedFor_) then resolve ()
      else
        let* userSnap := getDoc_user uid in
        match userSnap with
        | None => resolve ()
        | Some currentData =>
            let userViolationDuration :=
              getUserTotalViolationTime (violations (data sessionData)) uid in
            let isSuccessful :=
              bool_decide (outcome (data sessionData) = Some successful) in
            let* _ :=
              if isSuccessful then
                updateDoc_user uid
                  (stats_successful currentData (duration (data sessionData))
                     userViolationDuration)
              else
                updateDoc_user uid
                  (stats_failed currentData userViolationDuration) in
            updateDoc_session (id sessionData) (λ d,
              set_statsUpdatedFor (arrayUnion uid (orNil (statsUpdatedFor d))) d)
        end
  end.

(** ** Ending a session from the active-session screen *)

(** The state of [ActiveSessionScreen] that [handleEndSession] reads:
    the route parameter, the subscribed session, the elapsed seconds and
    the two latches. *)
Record ScreenState : Type := mkScreenState {
  sessionId : option string;
  session : option Session;
  timer : Z;
  isCompleting : bool;
  hasAutoCompleted : bool
}.

Definition set_latches (b : bool) (st : ScreenState) : ScreenState :=
  {| sessionId := sessionId st; session := session st; timer := timer st;
     isCompleting := b; hasAutoCompleted := b |}.

(** What the confirmation dialog shows and what its [onPress] closure
    captured. *)
Record EndDialog : Type := mkEndDialog {
  confirmMessage : string;
  dlg_isMarathon : bool;
  dlg_isCompletedDuration : bool;
  dlg_hasLowViolations : bool
}.

(** Truthiness of [session?.isMarathon]. *)
Definition truthy (b : option bool) : bool := default false b.

(** [Math.ceil(a / 60)] for a whole number [a]. *)
Definition ceil_div60 (a : Z) : Z := - ((- a) / 60).

(** [handleEndSession]: nothing when a latch is set, else the dialog. *)
Definition handleEndSession (st : ScreenState) : option EndDialog :=
  if hasAutoCompleted st || isCompleting st then None
  else
    let isMarathon_ := truthy (s ← session st; isMarathon (data s)) in
    let targetSeconds :=
      or0 (from_option (λ s, duration (data s)) 0 (session st)) * 60 in
    let isCompletedDuration := isMarathon_ || (targetSeconds <=? timer st) in
    let hasLowViolations :=
      isSessionSuccessful
        (from_option (λ s, violations (data s)) [] (session st))
        (from_option (λ s, participants (data s)) [] (session st)) in
    let message :=
      if negb isMarathon_ && negb isCompletedDuration then
        let remainingMins := ceil_div60 (targetSeconds - timer st) in
        "You still have " +:+ pretty remainingMins +:+
        " minute(s) left. Ending early will mark this session as FAILED. Continue?"
      else "Are you sure you want to end this study session?" in
    Some {| confirmMessage := message;
            dlg_isMarathon := isMarathon_;
            dlg_isCompletedDuration := isCompletedDuration;
            dlg_hasLowViolations := hasLowViolations |}.

(** The [onPress] of the dialog's "End Session" button, run at server
    time [now]: the call it makes to [endSession]. *)
Definition endCall (now : Z) (sid : string) (dlg : EndDialog) : Async unit :=
  if dlg_isMarathon dlg then endSession now sid successful None
  else if dlg_isCompletedDuration dlg && dlg_hasLowViolations dlg then
    endSession now sid successful None
  else
    let failReason_ :=
      if negb (dlg_isCompletedDuration dlg) then "Session ended early"
      else "Total violations exceeded 5 minute limit" in
    endSession now sid failed (Some failReason_).

Definition onPressEndSession (now : Z) (dlg : EndDialog) (st : ScreenState)
    (w : World) : ScreenState * World :=
  if hasAutoCompleted st || isCompleting st then (st, w)
  else
    let st' := set_latches true st in
    match sessionId st with
    | None | Some EmptyString => (st', w)
    | Some sid =>
        match endCall now sid dlg w with
        | (inr _, w') => (st', w')
        | (inl _, w') => (set_latches false st, w')
        end
    end.

(** The host presses "End Session" and confirms. *)
Definition endVoluntarily (now : Z) (st : ScreenState) (w : World)
    : ScreenState * World :=
  match handleEndSession st with
  | None => (st, w)
  | Some dlg => onPressEndSession now dlg st w
  end.

(** ** Histories of the store *)

(** One write to the store by a function of the service.  Writes that
    touch the [users] collection only (sign-up, statistics resets) are
    [step_users]. *)
Inductive step : World → World → Prop :=
  | step_create autoId now host ps dur mar w :
      step w (createSession autoId now host ps dur mar w).2
  | step_start now sid w :
      step w (startSession now sid w).2
  | step_end now sid o r w :
      step w (endSession now sid o r w).2
  | step_terminate now sid r w :
      step w (terminateSession now sid r w).2
  | step_violation iso sid uid ty d w :
      step w (addViolation iso sid uid ty d w).2
  | step_join code uid w :
      step w (joinSessionByCode code uid w).2
  | step_leave sid uid w :
      step w (leaveSession sid uid w).2
  | step_cancel sid w :
      step w (cancelSession sid w).2
  | step_stats uid sd w :
      step w (updateUserStats uid sd w).2
  | step_users f w :
      step w (set_users f w).

(** The stores the service can produce from an empty [sessions]
    collection. *)
Definition reachable (w : World) : Prop :=
  ∃ w0, sessions w0 = ∅ ∧ rtc step w0 w.

(** Marathon sessions are stored with duration [0]. *)
Definition marathon_zero (w : World) : Prop :=
  ∀ sid d, sessions w !! sid = Some d →
           isMarathon d = Some true → duration d = 0.

(** The outcome and reason [endCall] passes on, as the policy states it. *)
Definition voluntaryOutcome (s : Session) (elapsed : Z)
    : SessionOutcome * option string :=
  if bool_decide (isMarathon (data s) = Some true) then (successful, None)
  else if elapsed <? duration (data s) * 60 then
    (failed, Some "Session ended early")
  else if isSessionSuccessful (violations (data s)) (participants (data s))
  then (successful, None)
  else (failed, Some "Total violations exceeded 5 minute limit").

(** ** Sample data *)

(** A 25-minute session ended after 10 minutes with no violations. *)
Definition demo_session : SessionData :=
  {| hostId := "ana"; participants := ["ana"; "ben"]; status := active;
     duration := 25; isMarathon := Some false; violations := [];
     createdAt := Some 1000; startTime := Some 1060; endTime := None;
     roomCode := "482913"; outcome := None; failReason := None;
     statsUpdatedFor := None |}.

Definition demo_world : World :=
  {| sessions := {[ "s1" := demo_session ]}; users := ∅;
     random := λ _, 0%Q |}.

Definition demo_screen : ScreenState :=
  {| sessionId := Some "s1";
     session := Some {| id := "s1"; data := demo_session |};
     timer := 600; isCompleting := false; hasAutoCompleted := false |}.

(** The same session still in the lobby, and after it ended. *)
Definition lobby_session : SessionData :=
  {| hostId := "ana"; participants := ["ana"; "ben"]; status := pending;
     duration := 25; isMarathon := Some false; violations := [];
     createdAt := Some 1000; startTime := None; endTime := None;
     roomCode := "482913"; outcome := None; failReason := None;
     statsUpdatedFor := None |}.

Definition lobby_world : World :=
  {| sessions := {[ "s1" := lobby_session ]}; users := ∅;
     random := λ _, 0%Q |}.

Definition ended_session : SessionData :=
  set_ended 2560 successful None demo_session.

Definition ended_world : World :=
  {| sessions := {[ "s1" := ended_session ]}; users := ∅;
     random := λ _, 0%Q |}.

(** A store in which the code 100000 is taken, and draws [0, 1/2, ...]. *)
Definition taken_world : World :=
  {| sessions := {[ "s1" := set_participants ["ana"]
                              {| hostId := "ana"; participants := [];
                                 status := pending; duration := 0;
                                 isMarathon := Some true; violations := [];
                                 createdAt := Some 1000; startTime := None;
                                 endTime := None; roomCode := "100000";
                                 outcome := None; failReason := None;
                                 statsUpdatedFor := None |} ]};
     users := ∅;
     random := λ k, match k with
                    | O => 0%Q
                    | S _ => (1 # 2)%Q
                    end |}.

(** The ended session with the profile of one of its participants, who
    was away for 40 seconds. *)
Definition ana_profile : UserProfile.t :=
  {| UserProfile.username := "ana"; UserProfile.email := "ana@example.org";
     UserProfile.totalHours := Q2Qc 3; UserProfile.violations := 20;
     UserProfile.sessionsCompleted := 4; UserProfile.createdAt := 10 |}.

Definition stats_session : Session :=
  {| id := "s1";
     data := set_violations
               [{| userId := "ana"; timestamp := "2024-01-01T10:05:00.000Z";
                   type_ := "app-switch"; durationSeconds := 40;
                   category := medium |}] ended_session |}.

Definition stats_world : World :=
  {| sessions := {[ "s1" := data stats_session ]};
     users := {[ "ana" := ana_profile ]};
     random := λ _, 0%Q |}.

(** A marathon session created, started, interrupted once and ended. *)
Definition marathon_start : World :=
  {| sessions := ∅; users := {[ "ana" := ana_profile ]};
     random := λ _, (1 # 2)%Q |}.

Definition marathon_history : World :=
  let w1 := (createSession "m1" 1000 "ana" [] 45 true marathon_start).2 in
  let w2 := (startSession 1060 "m1" w1).2 in
  let w3 := (addViolation "2024-01-01T10:05:00.000Z" "m1" "ana"
               "app-switch" 40 w2).2 in
  (endSession 9000 "m1" successful None w3).2.

(** ** Further functions of the service *)

(** [where("participants", "array-contains", userId)] together with
    [where("status", "in", ["pending", "active"])]. *)
Definition activeSessionQuery (uid : string) (d : SessionData) : bool :=
  bool_decide (uid ∈ participants d) && status_in_pending_active d.

(** [getUserActiveSession(userId)]: the first document of the query. *)
Definition getUserActiveSession (uid : string) : Async (option Session) :=
  let* snapshot := getDocs_sessions (activeSessionQuery uid) in
  match snapshot with
  | [] => resolve None
  | (docId, docData) :: _ => resolve (Some {| id := docId; data := docData |})
  end.

(** Order of timestamps, [null] below every time. *)
Definition ts_leb (a b : option Z) : bool :=
  match a, b with
  | None, _ => true
  | Some _, None => false
  | Some x, Some y => x <=? y
  end.

(** [orderBy("createdAt", "desc")]: [a] may come before [b]. *)
Definition createdAt_desc (a b : string * SessionData) : Prop :=
  ts_leb (createdAt b.2) (createdAt a.2) = true.

#[global] Instance createdAt_desc_dec a b : Decision (createdAt_desc a b).
Proof. unfold createdAt_desc. apply _. Defined.

(** A query with [orderBy("createdAt", "desc")]. *)
Definition getDocs_sessions_newest_first (where_ : SessionData → bool)
    : Async (list (string * SessionData)) :=
  λ w, (inr (merge_sort createdAt_desc (querySessions where_ w)), w).

(** [getUserSessions(userId)]: every session of the user, newest first. *)
Definition getUserSessions (uid : string) : Async (list Session) :=
  let* snapshot := getDocs_sessions_newest_first
                     (λ d, bool_decide (uid ∈ participants d)) in
  resolve ((λ kd, {| id := kd.1; data := kd.2 |}) <$> snapshot).

(** The loop [for (const session of sessions) await deleteDoc(...)]. *)
Fixpoint deleteEach (l : list Session) : Async unit :=
  match l with
  | [] => resolve ()
  | s :: rest => let* _ := deleteDoc_session (id s) in deleteEach rest
  end.

Definition reset_stats (u : UserProfile.t) : UserProfile.t :=
  {| UserProfile.username := UserProfile.username u;
     UserProfile.email := UserProfile.email u;
     UserProfile.totalHours := Q2Qc 0;
     UserProfile.violations := 0;
     UserProfile.sessionsCompleted := 0;
     UserProfile.createdAt := UserProfile.createdAt u |}.

(** [wipeUserHistory(userId)]. *)
Definition wipeUserHistory (uid : string) : Async unit :=
  let* userSessions := getUserSessions uid in
  let* _ := deleteEach userSessions in
  updateDoc_user uid reset_stats.

(** [setDoc]: writes the document, replacing one that exists. *)
Definition setDoc_user (uid : string) (u : UserProfile.t) : Async unit :=
  λ w, (inr (), set_users (insert uid u) w).

(** What Firebase Auth returns about a signed-in user. *)
Record AuthUser : Type := mkAuthUser {
  auth_uid : string;
  displayName : option string;
  auth_email : option string
}.

(** [a || b] for an optional string [a]: [null], [undefined] and the
    empty string are falsy. *)
Definition strOr (a : option string) (b : string) : string :=
  match a with
  | Some (String c s) => String c s
  | _ => b
  end.

(** [email.split('@')[0]]. *)
Fixpoint beforeAt (s : string) : string :=
  match s with
  | EmptyString => EmptyString
  | String c s' => if Ascii.eqb c "@" then EmptyString
                   else String c (beforeAt s')
  end.

(** [displayName || email?.split('@')[0] || 'User']. *)
Definition googleUsername (user : AuthUser) : string :=
  strOr (displayName user) (strOr (beforeAt <$> auth_email user) "User").

(** [signInWithGoogle(idToken)]; [signedIn] is the outcome of
    [signInWithCredential] and [now] is [new Date()]. *)
Definition signInWithGoogle (signedIn : Exn + AuthUser) (now : Z)
    : Async AuthUser :=
  match signedIn with
  | inl e => throw e
  | inr user =>
      let* userDoc := getDoc_user (auth_uid user) in
      match userDoc with
      | Some _ => resolve user
      | None =>
          let* _ := setDoc_user (auth_uid user)
            {| UserProfile.username := googleUsername user;
               UserProfile.email := strOr (auth_email user) "";
               UserProfile.totalHours := Q2Qc 0;
               UserProfile.violations := 0;
               UserProfile.sessionsCompleted := 0;
               UserProfile.createdAt := now |} in
          resolve user
      end
  end.

(** ** The result screen *)

(** [loadSession] of [SessionSuccessScreen]: reads the session and
    reconciles the signed-in user's statistics; errors are logged and
    dropped.  The result is the session the screen shows. *)
Definition loadSession (sessionId_ : option string)
    (currentUser : option string) (w : World) : option Session * World :=
  match sessionId_ with
  | None | Some EmptyString => (None, w)
  | Some sid =>
      match sessions w !! sid with
      | None => (None, w)
      | Some d =>
          let sessionData := {| id := sid; data := d |} in
          match currentUser with
          | None => (Some sessionData, w)
          | Some uid => (Some sessionData, (updateUserStats uid sessionData w).2)
          end
      end
  end.

(** Room codes are unique among [pending] and [active] sessions. *)
Definition codes_unique (w : World) : Prop :=
  ∀ sid1 sid2 d1 d2,
    sessions w !! sid1 = Some d1 → sessions w !! sid2 = Some d2 →
    status_in_pending_active d1 = true → status_in_pending_active d2 = true →
    roomCode d1 = roomCode d2 → sid1 = sid2.

(** The profile [updateUserStats] writes for a user whose stored
    profile is [u] (and read as [u]). *)
Definition creditedProfile (sessionData : Session) (uid : string)
    (u : UserProfile.t) : UserProfile.t :=
  if bool_decide (outcome (data sessionData) = Some successful) then
    stats_successful u (duration (data sessionData))
      (getUserTotalViolationTime (violations (data sessionData)) uid) u
  else
    stats_failed u
      (getUserTotalViolationTime (violations (data sessionData)) uid) u.

(** Newest first, on sessions. *)
Definition newer_first (a b : Session) : Prop :=
  ts_leb (createdAt (data b)) (createdAt (data a)) = true.

(** ** The active-session screen: auto-complete and presence *)

(** The effect that completes a timed session when its duration is
    reached, run at server time [now]. *)
Definition autoComplete (now : Z) (st : ScreenState) (w : World)
    : ScreenState * World :=
  match session st, sessionId st with
  | None, _ | _, None | _, Some EmptyString => (st, w)
  | Some s, Some sid =>
      if hasAutoCompleted st || isCompleting st then (st, w)
      else if truthy (isMarathon (data s)) then (st, w)
      else
        let targetSeconds := duration (data s) * 60 in
        if (targetSeconds <=? timer st)
           && bool_decide (status (data s) = active) then
          let hasLowViolations :=
            isSessionSuccessful (violations (data s)) (participants (data s)) in
          let completeSession :=
            if hasLowViolations then endSession now sid successful None
            else endSession now sid failed
                   (Some "Total violations exceeded 5 minute limit") in
          match completeSession w with
          | (inr _, w') => (set_latches true st, w')
          | (inl _, w') => (set_latches false st, w')
          end
        else (st, w)
  end.

(** [AppStateStatus] of React Native. *)
Inductive AppStateStatus : Set :=
  | app_active
  | app_background
  | app_inactive
  | app_unknown
  | app_extension.

#[global] Instance AppStateStatus_eq_dec : EqDecision AppStateStatus.
Proof. solve_decision. Defined.

(** The two refs of the screen that follow the app state: the last
    state seen and the time (milliseconds) the app left the foreground. *)
Record Presence : Type := mkPresence {
  appState : AppStateStatus;
  backgroundTime : option Z
}.

Definition set_timer (t : Z) (st : ScreenState) : ScreenState :=
  {| sessionId := sessionId st; session := session st; timer := t;
     isCompleting := isCompleting st; hasAutoCompleted := hasAutoCompleted st |}.

(** The [try] block that reports an absence of [timeAwaySeconds]: the
    violation is added and, when it is catastrophic, the session is
    terminated; an error is logged and dropped. *)
Definition reportAbsence (serverNow : Z) (isoNow : string) (sid uid : string)
    (timeAwaySeconds : Z) (w : World) : World :=
  match addViolation isoNow sid uid "app-switch" timeAwaySeconds w with
  | (inl _, w') => w'
  | (inr (_, isCatastrophic), w') =>
      if isCatastrophic then
        (terminateSession serverNow sid
           ("Catastrophic violation by user ("
            +:+ pretty (timeAwaySeconds / 60) +:+ " minutes away)") w').2
      else w'
  end.

(** [handleAppStateChange(nextAppState)]; [dateNow] is [Date.now()] in
    milliseconds, [serverNow] and [isoNow] are the times the writes are
    stamped with, [currentUser] is the uid of [auth.currentUser]. *)
Definition handleAppStateChange (dateNow serverNow : Z) (isoNow : string)
    (currentUser : option string) (nextAppState : AppStateStatus)
    (p : Presence) (st : ScreenState) (w : World)
    : Presence * ScreenState * World :=
  let currentSession := session st in
  let isActive :=
    bool_decide (status <$> (data <$> currentSession) = Some active) in
  let left_ :=
    bool_decide (appState p = app_active)
    && (bool_decide (nextAppState = app_background)
        || bool_decide (nextAppState = app_inactive)) in
  let backgroundTime1 := if left_ then Some dateNow else backgroundTime p in
  let back :=
    (bool_decide (appState p = app_background)
     || bool_decide (appState p = app_inactive))
    && bool_decide (nextAppState = app_active) in
  if back then
    let st1 :=
      match currentSession with
      | Some s =>
          match startTime (data s) with
          | Some startDate =>
              if isActive then set_timer ((dateNow - startDate) / 1000) st
              else st
          | None => st
          end
      | None => st
      end in
    let w1 :=
      match backgroundTime1, currentUser, sessionId st with
      | Some t, Some uid, Some (String c sid') =>
          if negb (t =? 0) && isActive then
            let timeAwayMs := dateNow - t in
            let timeAwaySeconds := timeAwayMs / 1000 in
            if 5 <=? timeAwaySeconds then
              reportAbsence serverNow isoNow (String c sid') uid
                timeAwaySeconds w
            else w
          else w
      | _, _, _ => w
      end in
    ({| appState := nextAppState; backgroundTime := None |}, st1, w1)
  else
    ({| appState := nextAppState; backgroundTime := backgroundTime1 |}, st, w).

(** The demo session on screen when its 25 minutes are over, and the
    app in the background since the millisecond 1000000. *)
Definition done_screen : ScreenState :=
  {| sessionId := Some "s1";
     session := Some {| id := "s1"; data := demo_session |};
     timer := 1500; isCompleting := false; hasAutoCompleted := false |}.

Definition away_since : Presence :=
  {| appState := app_background; backgroundTime := Some 1000000 |}.

(** ** The join, home and lobby screens *)

(** [text.replace(/\D/g, '')]. *)
Fixpoint removeNonDigits (s : string) : string :=
  match s with
  | EmptyString => EmptyString
  | String c s' => if isDigit c then String c (removeNonDigits s')
                   else removeNonDigits s'
  end.

(** [s.slice(0, n)] and [s.slice(n)]. *)
Fixpoint sliceTo (n : nat) (s : string) : string :=
  match n, s with
  | S n', String c s' => String c (sliceTo n' s')
  | _, _ => EmptyString
  end.

Fixpoint sliceFrom (n : nat) (s : string) : string :=
  match n, s with
  | S n', String _ s' => sliceFrom n' s'
  | _, _ => s
  end.

(** [handleRoomCodeChange(text)]: the room code kept in the state. *)
Definition handleRoomCodeChange (text : string) : string :=
  sliceTo 6 (removeNonDigits text).

(** What [handleJoinSession] ends in: an alert, the dialog about the
    session the user is already in, or the lobby of the joined session. *)
Inductive JoinResult : Type :=
  | join_invalid_code
  | join_not_signed_in
  | join_already_in (existing : Session)
  | join_joined (sid : string)
  | join_error (e : Exn).

Definition handleJoinSession (roomCode_ : string) (currentUser : option string)
    (w : World) : JoinResult * World :=
  if negb (String.length roomCode_ =? 6)%nat then (join_invalid_code, w)
  else
    match currentUser with
    | None => (join_not_signed_in, w)
    | Some uid =>
        match getUserActiveSession uid w with
        | (inl e, w') => (join_error e, w')
        | (inr (Some existingSession), w') =>
            (join_already_in existingSession, w')
        | (inr None, w') =>
            match joinSessionByCode roomCode_ uid w' with
            | (inl e, w'') => (join_error e, w'')
            | (inr sid, w'') => (join_joined sid, w'')
            end
        end
    end.

(** The cancel-or-leave step that the "Cancel It" / "Leave It" button of
    the two dialogs performs first: the host of the existing session
    cancels it, anyone else leaves it.  The button then calls its handler
    again ([handleJoinSession], [handleStartPress]); that retry is not part
    of this step and is written as a second call where it matters. *)
Definition relinquish (uid : string) (existingSession : Session) : Async unit :=
  if decide (hostId (data existingSession) = uid) then
    cancelSession (id existingSession)
  else leaveSession (id existingSession) uid.

(** What the lobby does after its leave button: nothing, go to the home
    screen, or show the error alert. *)
Inductive LeaveResult : Type :=
  | leave_ignored
  | leave_home
  | leave_failed (e : Exn).

(** [handleLeaveLobby] of the lobby.  [isHost] is
    [auth.currentUser?.uid === session?.hostId], with the session as the
    screen holds it ([null] until the first snapshot arrives). *)
Definition handleLeaveLobby (sessionId : option string)
    (currentUser : option string) (session : option Session) (w : World)
    : LeaveResult * World :=
  match sessionId, currentUser with
  | Some (String c rest), Some uid =>
      let sid := String c rest in
      let isHost :=
        bool_decide (Some uid = hostId <$> (data <$> session)) in
      match (if isHost then cancelSession sid else leaveSession sid uid) w with
      | (inr _, w') => (leave_home, w')
      | (inl e, w') => (leave_failed e, w')
      end
  | _, _ => (leave_ignored, w)
  end.

Inductive SessionMode : Set :=
  | timed
  | marathon.

#[global] Instance SessionMode_eq_dec : EqDecision SessionMode.
Proof. solve_decision. Defined.

Inductive StartResult : Type :=
  | start_not_signed_in
  | start_already_in (existing : Session)
  | start_invalid_duration
  | start_created (sid : string)
  | start_error (e : Exn).

(** [handleStartPress] of the home screen, for the picked mode, hours
    and minutes. *)
Definition handleStartPress (autoId : string) (now : Z) (mode : SessionMode)
    (hours minutes : Z) (currentUser : option string) (w : World)
    : StartResult * World :=
  match currentUser with
  | None => (start_not_signed_in, w)
  | Some uid =>
      match getUserActiveSession uid w with
      | (inl e, w') => (start_error e, w')
      | (inr (Some existingSession), w') =>
          (start_already_in existingSession, w')
      | (inr None, w') =>
          let isMarathon_ := bool_decide (mode = marathon) in
          let totalDuration := hours * 60 + minutes in
          if negb isMarathon_ && (totalDuration <=? 0) then
            (start_invalid_duration, w')
          else
            match createSession autoId now uid [] totalDuration isMarathon_ w'
            with
            | (inl e, w'') => (start_error e, w'')
            | (inr sid, w'') => (start_created sid, w'')
            end
      end
  end.

(** The room code as the lobby shows it, e.g. ["482-913"]. *)
Definition formattedRoomCode (roomCode_ : option string) : string :=
  match roomCode_ with
  | Some (String c s) =>
      sliceTo 3 (String c s) +:+ "-" +:+ sliceFrom 3 (String c s)
  | _ => "------"
  end.

(** A user is in at most one [pending] or [active] session. *)
Definition single_live (w : World) (uid : string) : Prop :=
  ∀ sid1 sid2 d1 d2,
    sessions w !! sid1 = Some d1 → sessions w !! sid2 = Some d2 →
    activeSessionQuery uid d1 = true → activeSessionQuery uid d2 = true →
    sid1 = sid2.

(** * Properties *)

(** ** Outcome evaluator *)

Section Evaluator.
Implicit Types (vs : list Violation) (ps : list string) (p : string).

Lemma isSessionSuccessful_cons vs p ps :
  isSessionSuccessful vs (p :: ps) =
  bool_decide (getUserTotalViolationTime vs p < 300)
  && isSessionSuccessful vs ps.
Proof.
  simpl. unfold MAX_VIOLATION_SECONDS.
  destruct (Z.leb_spec 300 (getUserTotalViolationTime vs p)).
  - by rewrite bool_decide_eq_false_2 by lia.
  - by rewrite bool_decide_eq_true_2 by lia.
Qed.

Lemma isSessionSuccessful_Forall vs ps :
  isSessionSuccessful vs ps = true ↔
  Forall (λ p, getUserTotalViolationTime vs p < 300) ps.
Proof.
  induction ps as [|p ps IH].
  - split; [constructor | done].
  - rewrite isSessionSuccessful_cons, andb_true_iff, bool_decide_eq_true.
    rewrite Forall_cons. by rewrite IH.
Qed.

Lemma getUserTotalViolationTime_nil p : getUserTotalViolationTime [] p = 0.
Proof. done. Qed.

Lemma foldl_durations (a : Z) vs :
  foldl (λ total v, total + durationSeconds v) a vs
  = a + foldl (λ total v, total + durationSeconds v) 0 vs.
Proof.
  revert a. induction vs as [|v vs IH]; intros a; simpl; [lia|].
  rewrite (IH (a + _)), (IH (0 + _)). lia.
Qed.

(** The [reduce] of the source is the sum of the [durationSeconds] of the
    user's records. *)
Lemma getUserTotalViolationTime_sum vs p :
  getUserTotalViolationTime vs p
  = foldr Z.add 0 (durationSeconds <$> filter (λ v, userId v = p) vs).
Proof.
  unfold getUserTotalViolationTime.
  induction (filter (λ v, userId v = p) vs) as [|v l IH]; [done|].
  simpl. by rewrite foldl_durations, IH, Z.add_0_l.
Qed.

(** C1. [isSessionSuccessful violations participants] is [true] exactly
    when, for every participant, the [durationSeconds] of the violations
    whose [userId] is that participant add up to strictly less than 300
    (the sum [getUserTotalViolationTime] computes); it is [true] for no
    participants and for no violations, and [false] as soon as one
    participant's sum is exactly 300, in particular for two violations of
    one participant that are each below 300, hence not catastrophic, and
    add up to 300. *)
Theorem isSessionSuccessful_spec vs ps :
  (isSessionSuccessful vs ps = true ↔
     ∀ p, p ∈ ps →
          foldr Z.add 0
            (durationSeconds <$> filter (λ v, userId v = p) vs) < 300)
  ∧ (∀ p, getUserTotalViolationTime vs p
          = foldr Z.add 0
              (durationSeconds <$> filter (λ v, userId v = p) vs))
  ∧ isSessionSuccessful vs [] = true
  ∧ isSessionSuccessful [] ps = true
  ∧ (∀ p, p ∈ ps →
       foldr Z.add 0 (durationSeconds <$> filter (λ v, userId v = p) vs)
       = 300 →
       isSessionSuccessful vs ps = false)
  ∧ (∀ p t1 t2 ty1 ty2 a b,
       p ∈ ps → a < 300 → b < 300 → a + b = 300 →
       let v1 := {| userId := p; timestamp := t1; type_ := ty1;
                    durationSeconds := a;
                    category := getViolationCategory a |} in
       let v2 := {| userId := p; timestamp := t2; type_ := ty2;
                    durationSeconds := b;
                    category := getViolationCategory b |} in
       category v1 ≠ catastrophic ∧ category v2 ≠ catastrophic
       ∧ isSessionSuccessful [v1; v2] ps = false).
Proof.
  assert (∀ vs0 ps0,
            isSessionSuccessful vs0 ps0 = true ↔
            ∀ p, p ∈ ps0 →
                 foldr Z.add 0
                   (durationSeconds <$> filter (λ v, userId v = p) vs0) < 300)
    as Hiff.
  { intros vs0 ps0. rewrite isSessionSuccessful_Forall, Forall_forall.
    split; intros Hall p Hp; specialize (Hall p Hp);
      by rewrite getUserTotalViolationTime_sum in *. }
  split_and!.
  - apply Hiff.
  - apply getUserTotalViolationTime_sum.
  - done.
  - apply Hiff. intros p _. simpl. lia.
  - intros p Hp Hsum. apply not_true_is_false. rewrite Hiff. intros Hall.
    specialize (Hall p Hp). lia.
  - intros p t1 t2 ty1 ty2 a b Hp Ha Hb Hab v1 v2. split_and!.
    + simpl. unfold getViolationCategory.
      repeat (case_match; try done). lia.
    + simpl. unfold getViolationCategory.
      repeat (case_match; try done). lia.
    + apply not_true_is_false. rewrite Hiff. intros Hall.
      specialize (Hall p Hp). subst v1 v2.
      rewrite !filter_cons, !decide_True, filter_nil in Hall by done.
      simpl in Hall. lia.
Qed.

Lemma isSessionSuccessful_spec_witness :
  let v t := {| userId := "ana"; timestamp := t; type_ := "app-switch";
                durationSeconds := 150;
                category := getViolationCategory 150 |} in
  let other := {| userId := "ben"; timestamp := "2024-01-01T10:10:00.000Z";
                  type_ := "app-switch"; durationSeconds := 299;
                  category := getViolationCategory 299 |} in
  let vs := [v "2024-01-01T10:00:00.000Z"; other;
             v "2024-01-01T10:20:00.000Z"] in
  isSessionSuccessful vs ["ben"; "ana"] = false
  ∧ isSessionSuccessful vs ["ben"] = true
  ∧ getUserTotalViolationTime vs "ana" = 300
  ∧ getUserTotalViolationTime vs "ben" = 299.
Proof.
  intros v other vs.
  destruct (isSessionSuccessful_spec vs ["ben"; "ana"])
    as (_ & Hsum & _ & _ & Hfalse & _).
  destruct (isSessionSuccessful_spec vs ["ben"]) as (Htrue & _).
  split_and!.
  - apply (Hfalse "ana"); [by right; left | reflexivity].
  - apply Htrue. intros p Hp. apply list_elem_of_singleton in Hp as ->.
    vm_compute. reflexivity.
  - rewrite (Hsum "ana"). reflexivity.
  - rewrite (Hsum "ben"). reflexivity.
Defined.

(** Two absences of 150 seconds, each only [large], fail the session. *)
Example isSessionSuccessful_split_300 :
  let v t := {| userId := "ana"; timestamp := t; type_ := "app-switch";
                durationSeconds := 150;
                category := getViolationCategory 150 |} in
  let vs := [v "2024-01-01T10:00:00.000Z"; v "2024-01-01T10:20:00.000Z"] in
  Forall (λ x, category x = large) vs
  ∧ getUserTotalViolationTime vs "ana" = 300
  ∧ isSessionSuccessful vs ["ana"; "ben"] = false
  ∧ isSessionSuccessful vs ["ben"] = true.
Proof. split_and!; [by repeat constructor | done..]. Qed.
End Evaluator.

(** ** Violation classifier *)

(** C2. [getViolationCategory] is defined on every whole number of
    seconds (hence on all non-negative ones) and returns [minor] below 30,
    [medium] from 30 up to 119, [large] from 120 up to 299 and
    [catastrophic] from 300 on; the six boundary values are classified as
    the specification lists them. *)
Theorem getViolationCategory_spec (d : Z) :
  (getViolationCategory d = minor ↔ d < 30)
  ∧ (getViolationCategory d = medium ↔ 30 ≤ d < 120)
  ∧ (getViolationCategory d = large ↔ 120 ≤ d < 300)
  ∧ (getViolationCategory d = catastrophic ↔ 300 ≤ d)
  ∧ getViolationCategory 29 = minor
  ∧ getViolationCategory 30 = medium
  ∧ getViolationCategory 119 = medium
  ∧ getViolationCategory 120 = large
  ∧ getViolationCategory 299 = large
  ∧ getViolationCategory 300 = catastrophic.
Proof.
  unfold getViolationCategory.
  destruct (Z.ltb_spec d 30), (Z.ltb_spec d 120), (Z.ltb_spec d 300);
    split_and!; first [done | split; first [done | lia | intros; lia]].
Qed.

(** ** Ending a session voluntarily *)

Lemma or0_id (x : Z) : or0 x = x.
Proof. unfold or0. by destruct (Z.eqb_spec x 0) as [->|]. Qed.

Lemma or0_Qc_id (x : Qc) : or0_Qc x = x.
Proof. unfold or0_Qc. by case_decide; subst. Qed.

Lemma updateDoc_session_Some sid f w d :
  sessions w !! sid = Some d →
  updateDoc_session sid f w = (inr (), set_sessions (insert sid (f d)) w).
Proof. intros H. unfold updateDoc_session. by rewrite H. Qed.

Lemma updateDoc_session_None sid f w :
  sessions w !! sid = None →
  updateDoc_session sid f w = (inl (FirestoreError "not-found"), w).
Proof. intros H. unfold updateDoc_session. by rewrite H. Qed.

Lemma endSession_Some now sid o r w d :
  sessions w !! sid = Some d →
  endSession now sid o r w =
  (inr (), set_sessions (insert sid (set_ended now o (orNull r) d)) w).
Proof. apply updateDoc_session_Some. Qed.


Lemma endVoluntarily_run now st w sid s d :
  hasAutoCompleted st = false → isCompleting st = false →
  sessionId st = Some sid → sid ≠ "" → session st = Some s →
  sessions w !! sid = Some d →
  endVoluntarily now st w =
  (set_latches true st,
   set_sessions
     (insert sid (set_ended now (voluntaryOutcome s (timer st)).1
                                (voluntaryOutcome s (timer st)).2 d)) w).
Proof.
  intros Hauto Hcompl Hsid Hne Hs Hd.
  unfold endVoluntarily, handleEndSession, onPressEndSession, endCall,
    voluntaryOutcome.
  rewrite Hauto, Hcompl, Hsid, Hs. simpl. rewrite or0_id.
  destruct sid as [|c sid']; [done|]. set (sid := String c sid') in *.
  destruct (isMarathon (data s)) as [[]|] eqn:Hm; simpl;
    [by rewrite (endSession_Some _ _ _ _ _ d) by done|..].
  all: rewrite (Z.leb_antisym (timer st)).
  all: destruct (Z.ltb_spec (timer st) (duration (data s) * 60)); simpl.
  all: try destruct (isSessionSuccessful (violations (data s)) _); simpl.
  all: by rewrite (endSession_Some _ _ _ _ _ d) by done.
Qed.

(** C3. When the host ends a session from the screen and confirms (no
    latch set, a session id, the session document exists), the document
    is marked
    [ended] with: outcome [successful] for a marathon session; outcome
    [failed] and reason "Session ended early" for a timed session whose
    elapsed seconds are below [duration * 60], whatever the violations;
    and, for a timed session that reached its duration, [successful]
    exactly when [isSessionSuccessful] holds, otherwise [failed] with
    reason "Total violations exceeded 5 minute limit". *)
Theorem endVoluntarily_outcome now st w sid s d :
  hasAutoCompleted st = false → isCompleting st = false →
  sessionId st = Some sid → sid ≠ "" → session st = Some s →
  sessions w !! sid = Some d →
  ∃ o r,
    sessions (endVoluntarily now st w).2 !! sid = Some (set_ended now o r d)
    ∧ status (set_ended now o r d) = ended
    ∧ outcome (set_ended now o r d) = Some o
    ∧ failReason (set_ended now o r d) = r
    ∧ (isMarathon (data s) = Some true → o = successful ∧ r = None)
    ∧ (isMarathon (data s) ≠ Some true →
       timer st < duration (data s) * 60 →
       o = failed ∧ r = Some "Session ended early")
    ∧ (isMarathon (data s) ≠ Some true →
       duration (data s) * 60 ≤ timer st →
       (o = successful ↔
          isSessionSuccessful (violations (data s)) (participants (data s))
          = true)
       ∧ (o = successful → r = None)
       ∧ (o ≠ successful →
          o = failed ∧ r = Some "Total violations exceeded 5 minute limit")).
Proof.
  intros Hauto Hcompl Hsid Hne Hs Hd.
  rewrite (endVoluntarily_run now st w sid s d) by done.
  exists (voluntaryOutcome s (timer st)).1, (voluntaryOutcome s (timer st)).2.
  split; [simpl; by rewrite lookup_insert_eq|].
  do 3 (split; [done|]).
  unfold voluntaryOutcome. split_and!.
  - intros Hm. by rewrite bool_decide_eq_true_2.
  - intros Hm Hlt. rewrite bool_decide_eq_false_2 by done.
    by destruct (Z.ltb_spec (timer st) (duration (data s) * 60)); [|lia].
  - intros Hm Hge. rewrite bool_decide_eq_false_2 by done.
    destruct (Z.ltb_spec (timer st) (duration (data s) * 60)); [lia|].
    destruct (isSessionSuccessful _ _); simpl; naive_solver.
Qed.


Lemma endVoluntarily_outcome_witness :
  ∃ o r,
    sessions (endVoluntarily 2000 demo_screen demo_world).2 !! "s1"
    = Some (set_ended 2000 o r demo_session)
    ∧ o = failed ∧ r = Some "Session ended early".
Proof.
  destruct (endVoluntarily_outcome 2000 demo_screen demo_world "s1"
              {| id := "s1"; data := demo_session |} demo_session)
    as (o & r & Hw & _ & _ & _ & _ & Hearly & _);
    [reflexivity | reflexivity | reflexivity | discriminate
    | reflexivity | reflexivity |].
  exists o, r. split; [exact Hw|].
  apply Hearly; [discriminate | reflexivity].
Defined.

(** ** Lifecycle transitions *)

Lemma set_sessions_id w : set_sessions (λ m, m) w = w.
Proof. by destruct w. Qed.

Lemma cancelSession_missing sid w :
  sessions w !! sid = None → cancelSession sid w = (inr (), w).
Proof.
  intros H. unfold cancelSession, deleteDoc_session, set_sessions.
  rewrite delete_id by done. by destruct w.
Qed.

(** C4, as the code has it.  No transition looks at the status of the
    session.  On an existing document, whatever its status, [startSession]
    writes [active] and a new [startTime], [endSession] and
    [terminateSession] write [ended] with the outcome and reason given,
    and [cancelSession] deletes the document.  On a missing document the
    three updates fail with the store's [not-found] and change nothing,
    and [cancelSession] succeeds and changes nothing. *)
Theorem lifecycle_transitions_unguarded now sid w :
  (∀ d, sessions w !! sid = Some d →
     startSession now sid w
       = (inr (), set_sessions (insert sid (set_started now d)) w)
     ∧ (∀ o r, endSession now sid o r w
          = (inr (), set_sessions (insert sid (set_ended now o (orNull r) d)) w))
     ∧ (∀ reason, terminateSession now sid reason w
          = (inr (),
             set_sessions (insert sid (set_ended now failed (Some reason) d)) w))
     ∧ cancelSession sid w = (inr (), set_sessions (delete sid) w)
     ∧ sessions (cancelSession sid w).2 !! sid = None)
  ∧ (sessions w !! sid = None →
     startSession now sid w = (inl (FirestoreError "not-found"), w)
     ∧ (∀ o r, endSession now sid o r w
          = (inl (FirestoreError "not-found"), w))
     ∧ (∀ reason, terminateSession now sid reason w
          = (inl (FirestoreError "not-found"), w))
     ∧ cancelSession sid w = (inr (), w)).
Proof.
  split.
  - intros d Hd. split_and!.
    + by apply updateDoc_session_Some.
    + intros o r. by apply updateDoc_session_Some.
    + intros reason. by apply updateDoc_session_Some.
    + done.
    + simpl. apply lookup_delete_eq.
  - intros Hd. split_and!.
    + by apply updateDoc_session_None.
    + intros o r. by apply updateDoc_session_None.
    + intros reason. by apply updateDoc_session_None.
    + by apply cancelSession_missing.
Qed.

(** C4 as stated fails: an [active] session is started again and is
    cancelled, and a [pending] session is ended and terminated, each
    without an error. *)
Lemma lifecycle_guards_counterexample :
  status demo_session = active
  ∧ sessions demo_world !! "s1" = Some demo_session
  ∧ (startSession 5000 "s1" demo_world).1 = inr ()
  ∧ sessions (startSession 5000 "s1" demo_world).2 !! "s1"
    = Some (set_started 5000 demo_session)
  ∧ set_started 5000 demo_session ≠ demo_session
  ∧ (cancelSession "s1" demo_world).1 = inr ()
  ∧ sessions (cancelSession "s1" demo_world).2 !! "s1" = None
  ∧ status lobby_session = pending
  ∧ sessions lobby_world !! "s1" = Some lobby_session
  ∧ (endSession 5000 "s1" successful None lobby_world).1 = inr ()
  ∧ status <$> sessions (endSession 5000 "s1" successful None lobby_world).2
                 !! "s1" = Some ended
  ∧ (terminateSession 5000 "s1" "away" lobby_world).1 = inr ()
  ∧ status <$> sessions (terminateSession 5000 "s1" "away" lobby_world).2
                 !! "s1" = Some ended.
Proof. split_and!; by vm_compute. Qed.

(** ** Joining by room code *)

Section Join.
Implicit Types (w : World) (code uid sid : string) (d : SessionData).

Lemma filter_head_split {A} (P : A → Prop) `{∀ x, Decision (P x)}
    (l : list A) x r :
  filter P l = x :: r →
  ∃ l1 l2, l = l1 ++ x :: l2 ∧ Forall (λ y, ¬ P y) l1 ∧ P x
           ∧ r = filter P l2.
Proof.
  induction l as [|y l IH]; [done|].
  rewrite filter_cons. case_decide as Hy.
  - intros [= -> <-]. by exists [], l.
  - intros (l1 & l2 & -> & Hl1 & Hx & ->)%IH.
    exists (y :: l1), l2. split_and!; [done | by constructor | done..].
Qed.

Lemma roomCodeQuery_true code d :
  roomCodeQuery code d = true ↔
  roomCode d = code ∧ (status d = pending ∨ status d = active).
Proof.
  unfold roomCodeQuery, status_in_pending_active.
  rewrite andb_true_iff, orb_true_iff, !bool_decide_eq_true. done.
Qed.

Lemma querySessions_elem where_ w sid d :
  (sid, d) ∈ querySessions where_ w ↔
  sessions w !! sid = Some d ∧ where_ d = true.
Proof.
  unfold querySessions. rewrite list_elem_of_filter, elem_of_map_to_list.
  simpl. tauto.
Qed.

Lemma querySessions_update where_ w sid d d' r :
  querySessions where_ w = (sid, d) :: r →
  where_ d' = true →
  querySessions where_ (set_sessions (insert sid d') w) = (sid, d') :: r.
Proof.
  unfold querySessions. intros Hq Hd'.
  apply filter_head_split in Hq as (l1 & l2 & Hl & Hl1 & _ & ->).
  assert (map_to_list (sessions w) !! length l1 = Some (sid, d)) as Hj.
  { rewrite Hl. by apply list_lookup_middle. }
  simpl. rewrite (map_to_list_update _ _ _ _ d' Hj), Hl.
  rewrite <-(Nat.add_0_r (length l1)), insert_app_r. simpl.
  rewrite filter_app, filter_cons_True by done.
  replace (filter _ l1) with (@nil (string * SessionData)); [done|].
  symmetry. clear -Hl1. induction Hl1 as [|y l1 Hy _ IH]; [done|].
  by rewrite filter_cons_False.
Qed.

Lemma getSessionByRoomCode_eq code w :
  getSessionByRoomCode code w =
  (inr match querySessions (roomCodeQuery code) w with
       | [] => None
       | (docId, docData) :: _ => Some {| id := docId; data := docData |}
       end, w).
Proof.
  unfold getSessionByRoomCode, await, getDocs_sessions.
  by destruct (querySessions _ w) as [|[]].
Qed.

Lemma getSessionByRoomCode_found code w s w' :
  getSessionByRoomCode code w = (inr (Some s), w') →
  w' = w ∧ sessions w !! id s = Some (data s) ∧ roomCode (data s) = code
  ∧ (status (data s) = pending ∨ status (data s) = active).
Proof.
  rewrite getSessionByRoomCode_eq.
  destruct (querySessions _ w) as [|[i d] r] eqn:Hq; intros [= <- <-].
  assert ((i, d) ∈ querySessions (roomCodeQuery code) w) as Hin.
  { rewrite Hq. constructor. }
  apply querySessions_elem in Hin as [Hd Hw].
  apply roomCodeQuery_true in Hw as [Hc Hs]. by simpl.
Qed.

Lemma getSessionByRoomCode_none code w :
  (∀ sid d, sessions w !! sid = Some d → roomCode d = code →
            status d = ended) →
  getSessionByRoomCode code w = (inr None, w).
Proof.
  intros Hnone. rewrite getSessionByRoomCode_eq.
  destruct (querySessions _ w) as [|[i d] r] eqn:Hq; [done|].
  assert ((i, d) ∈ querySessions (roomCodeQuery code) w) as Hin.
  { rewrite Hq. constructor. }
  apply querySessions_elem in Hin as [Hd [Hc Hs]%roomCodeQuery_true].
  specialize (Hnone i d Hd Hc). destruct Hs; congruence.
Qed.

Lemma getSessionByRoomCode_update code w s f :
  getSessionByRoomCode code w = (inr (Some s), w) →
  roomCodeQuery code (f (data s)) = true →
  getSessionByRoomCode code (set_sessions (insert (id s) (f (data s))) w)
  = (inr (Some {| id := id s; data := f (data s) |}),
     set_sessions (insert (id s) (f (data s))) w).
Proof.
  rewrite !getSessionByRoomCode_eq.
  destruct (querySessions _ w) as [|[i d] r] eqn:Hq; intros [= <-] Hf.
  simpl in *. by rewrite (querySessions_update _ _ _ _ _ _ Hq Hf).
Qed.

Lemma arrayUnion_new {A} `{EqDecision A} (x : A) l :
  x ∉ l → arrayUnion x l = l ++ [x].
Proof. intros. unfold arrayUnion. by case_decide. Qed.

Lemma arrayUnion_old {A} `{EqDecision A} (x : A) l :
  x ∈ l → arrayUnion x l = l.
Proof. intros. unfold arrayUnion. by case_decide. Qed.

Lemma elem_of_arrayUnion {A} `{EqDecision A} (x : A) l : x ∈ arrayUnion x l.
Proof. unfold arrayUnion. case_decide; set_solver. Qed.

(** What [joinSessionByCode] does once the lookup found [s]. *)
Lemma joinSessionByCode_found code uid w s :
  getSessionByRoomCode code w = (inr (Some s), w) →
  joinSessionByCode code uid w =
  if decide (status (data s) = active) then (inl ERR_ALREADY_STARTED, w)
  else if decide (uid ∈ participants (data s)) then (inr (id s), w)
  else (inr (id s),
        set_sessions
          (insert (id s)
             (set_participants (participants (data s) ++ [uid]) (data s))) w).
Proof.
  intros Hget.
  destruct (getSessionByRoomCode_found _ _ _ _ Hget) as (_ & Hd & _ & Hst).
  unfold joinSessionByCode, await. rewrite Hget.
  case_decide; [done|]. case_decide; [destruct Hst; congruence|].
  case_decide; [done|].
  rewrite (updateDoc_session_Some _ _ _ _ Hd).
  by rewrite arrayUnion_new.
Qed.

Lemma joinSessionByCode_again code uid w sid w1 :
  joinSessionByCode code uid w = (inr sid, w1) →
  joinSessionByCode code uid w1 = (inr sid, w1).
Proof.
  intros Hjoin.
  destruct (getSessionByRoomCode code w) as [[e|[s|]] w'] eqn:Hget;
    try (unfold joinSessionByCode, await in Hjoin; rewrite Hget in Hjoin;
         by inversion Hjoin).
  destruct (getSessionByRoomCode_found _ _ _ _ Hget) as (-> & Hd & Hc & Hst).
  rewrite (joinSessionByCode_found _ _ _ _ Hget) in Hjoin.
  case_decide as Hact; [done|]. destruct Hst as [Hst|]; [|done].
  case_decide as Hin.
  - injection Hjoin as <- <-.
    rewrite (joinSessionByCode_found _ _ _ _ Hget).
    by rewrite decide_False, decide_True.
  - injection Hjoin as <- <-.
    set (f := set_participants (participants (data s) ++ [uid])).
    assert (roomCodeQuery code (f (data s)) = true) as Hq.
    { apply roomCodeQuery_true. simpl. auto. }
    rewrite (joinSessionByCode_found _ _ _ _
               (getSessionByRoomCode_update _ _ _ f Hget Hq)).
    simpl. rewrite decide_False by congruence.
    rewrite decide_True by set_solver. done.
Qed.
End Join.

Lemma getSessionByRoomCode_reserved code w :
  reserved w code →
  ∃ s, getSessionByRoomCode code w = (inr (Some s), w).
Proof.
  intros (sid & d & Hd & Hc & Hs). rewrite getSessionByRoomCode_eq.
  destruct (querySessions (roomCodeQuery code) w) as [|[i d'] r] eqn:Hq;
    [|by eexists].
  assert ((sid, d) ∈ querySessions (roomCodeQuery code) w) as Hin.
  { apply querySessions_elem. split; [done|]. by apply roomCodeQuery_true. }
  rewrite Hq in Hin. by apply elem_of_nil in Hin.
Qed.

(** C5, as the code has it.  [joinSessionByCode] fails with the
    not-found error when no [pending] or [active] session of the store
    carries the code (so also when every session with that code has
    ended).  When some [pending] or [active] session carries the code,
    the call acts on one of them: it fails with the already-started error
    when that session is [active]; when it is [pending] it returns its
    id, without any write if the user is already a participant and after
    appending the user otherwise.  When the code is carried by one live
    session only, that is the session acted on.  The call never fails
    with the has-ended error, because the lookup returns only [pending]
    and [active] sessions.  A second call with the same arguments returns
    the same id and writes nothing.  The three error values are pairwise
    distinct. *)
Theorem joinSessionByCode_spec code uid w :
  ((∀ sid d, sessions w !! sid = Some d → roomCode d = code →
             status d = ended) →
   joinSessionByCode code uid w = (inl ERR_NOT_FOUND, w))
  ∧ (reserved w code →
     ∃ sid d,
       sessions w !! sid = Some d ∧ roomCode d = code
       ∧ (status d = pending ∨ status d = active)
       ∧ getSessionByRoomCode code w
         = (inr (Some {| id := sid; data := d |}), w)
       ∧ joinSessionByCode code uid w
         = if decide (status d = active) then (inl ERR_ALREADY_STARTED, w)
           else if decide (uid ∈ participants d) then (inr sid, w)
           else (inr sid,
                 set_sessions
                   (insert sid
                      (set_participants (participants d ++ [uid]) d)) w))
  ∧ (∀ sid d,
       sessions w !! sid = Some d → roomCode d = code →
       (∀ sid' d', sessions w !! sid' = Some d' → roomCode d' = code →
                   status d' ≠ ended → sid' = sid) →
       (status d = ended →
        joinSessionByCode code uid w = (inl ERR_NOT_FOUND, w))
       ∧ (status d = active →
          joinSessionByCode code uid w = (inl ERR_ALREADY_STARTED, w))
       ∧ (status d = pending → uid ∈ participants d →
          joinSessionByCode code uid w = (inr sid, w))
       ∧ (status d = pending → uid ∉ participants d →
          joinSessionByCode code uid w =
          (inr sid,
           set_sessions
             (insert sid (set_participants (participants d ++ [uid]) d))
             w)))
  ∧ (∀ s, getSessionByRoomCode code w = (inr (Some s), w) →
       sessions w !! id s = Some (data s)
       ∧ (status (data s) = active →
          joinSessionByCode code uid w = (inl ERR_ALREADY_STARTED, w))
       ∧ (status (data s) = pending → uid ∈ participants (data s) →
          joinSessionByCode code uid w = (inr (id s), w))
       ∧ (status (data s) = pending → uid ∉ participants (data s) →
          joinSessionByCode code uid w =
          (inr (id s),
           set_sessions
             (insert (id s)
                (set_participants (participants (data s) ++ [uid]) (data s)))
             w)))
  ∧ (joinSessionByCode code uid w).1 ≠ inl ERR_ENDED
  ∧ (∀ sid w1, joinSessionByCode code uid w = (inr sid, w1) →
       joinSessionByCode code uid w1 = (inr sid, w1)
       ∧ ∃ d1, sessions w1 !! sid = Some d1 ∧ uid ∈ participants d1)
  ∧ ERR_NOT_FOUND ≠ ERR_ALREADY_STARTED
  ∧ ERR_NOT_FOUND ≠ ERR_ENDED
  ∧ ERR_ALREADY_STARTED ≠ ERR_ENDED.
Proof.
  assert (∀ s, getSessionByRoomCode code w = (inr (Some s), w) →
            sessions w !! id s = Some (data s)
            ∧ (status (data s) = active →
               joinSessionByCode code uid w = (inl ERR_ALREADY_STARTED, w))
            ∧ (status (data s) = pending → uid ∈ participants (data s) →
               joinSessionByCode code uid w = (inr (id s), w))
            ∧ (status (data s) = pending → uid ∉ participants (data s) →
               joinSessionByCode code uid w =
               (inr (id s),
                set_sessions
                  (insert (id s)
                     (set_participants (participants (data s) ++ [uid])
                        (data s))) w))) as Hfound.
  { intros s Hget.
    destruct (getSessionByRoomCode_found _ _ _ _ Hget) as (_ & Hd & _ & _).
    rewrite (joinSessionByCode_found _ _ _ _ Hget).
    split_and!; [done|..].
    + intros Hs. by rewrite decide_True.
    + intros Hs Hin. rewrite decide_False by congruence.
      by rewrite decide_True.
    + intros Hs Hin. rewrite decide_False by congruence.
      by rewrite decide_False. }
  assert ((∀ sid d, sessions w !! sid = Some d → roomCode d = code →
                    status d = ended) →
          joinSessionByCode code uid w = (inl ERR_NOT_FOUND, w)) as Hnot.
  { intros Hnone. unfold joinSessionByCode, await.
    by rewrite getSessionByRoomCode_none. }
  split_and!; try done.
  - intros Hres.
    destruct (getSessionByRoomCode_reserved _ _ Hres) as [s Hget].
    destruct (getSessionByRoomCode_found _ _ _ _ Hget) as (_ & Hd & Hc & Hs).
    exists (id s), (data s). split_and!; [done..| |].
    + by destruct s.
    + apply (joinSessionByCode_found _ _ _ _ Hget).
  - intros sid d Hd Hc Huniq.
    destruct (decide (status d = ended)) as [Hended|Hlive].
    + split_and!; try (intros Hs; congruence).
      intros _. apply Hnot. intros sid' d' Hd' Hc'.
      destruct (decide (status d' = ended)) as [|Hs']; [done|].
      rewrite (Huniq sid' d' Hd' Hc' Hs') in Hd'. congruence.
    + assert (reserved w code) as Hres.
      { exists sid, d. split_and!; [done..|]. by destruct (status d); auto. }
      destruct (getSessionByRoomCode_reserved _ _ Hres) as [s Hget].
      destruct (getSessionByRoomCode_found _ _ _ _ Hget)
        as (_ & Hd' & Hc' & Hs').
      assert (id s = sid) as Hid.
      { apply (Huniq _ _ Hd' Hc'). destruct Hs'; congruence. }
      assert (data s = d) as Hdata by congruence.
      destruct (Hfound s Hget) as (_ & Hact & Hin & Hnin).
      rewrite Hid, Hdata in *. by split_and!.
  - destruct (getSessionByRoomCode code w) as [[e|[s|]] w'] eqn:Hget.
    + rewrite getSessionByRoomCode_eq in Hget. by inversion Hget.
    + destruct (getSessionByRoomCode_found _ _ _ _ Hget) as (-> & _).
      rewrite (joinSessionByCode_found _ _ _ _ Hget).
      by repeat case_decide.
    + unfold joinSessionByCode, await. by rewrite Hget.
  - intros sid w1 Hjoin. split; [by eapply joinSessionByCode_again|].
    destruct (getSessionByRoomCode code w) as [[e|[s|]] w'] eqn:Hget;
      try (unfold joinSessionByCode, await in Hjoin; rewrite Hget in Hjoin;
           by inversion Hjoin).
    destruct (getSessionByRoomCode_found _ _ _ _ Hget) as (-> & Hd & _ & _).
    rewrite (joinSessionByCode_found _ _ _ _ Hget) in Hjoin.
    repeat case_decide; try done; injection Hjoin as <- <-.
    + by exists (data s).
    + eexists. simpl. rewrite lookup_insert_eq. split; [done|]. simpl.
      rewrite elem_of_app, list_elem_of_singleton. by right.
Qed.

(** The lobby of the sample store admits a third participant by its
    code, and refuses once the same session is active. *)
Lemma joinSessionByCode_spec_witness :
  joinSessionByCode "482913" "cy" lobby_world
  = (inr "s1",
     set_sessions
       (insert "s1" (set_participants ["ana"; "ben"; "cy"] lobby_session))
       lobby_world)
  ∧ joinSessionByCode "482913" "ben" lobby_world = (inr "s1", lobby_world)
  ∧ joinSessionByCode "482913" "cy" demo_world
    = (inl ERR_ALREADY_STARTED, demo_world).
Proof.
  assert (∀ d0 sid' d',
            ({[ "s1" := d0 ]} : gmap string SessionData) !! sid' = Some d' →
            roomCode d' = "482913" → status d' ≠ ended → sid' = "s1")
    as Hone.
  { intros d0 sid' d' Hd' _ _. by apply lookup_singleton_Some in Hd' as [<- _]. }
  destruct (joinSessionByCode_spec "482913" "cy" lobby_world)
    as (_ & _ & Hcy & _).
  destruct (Hcy "s1" lobby_session) as (_ & _ & _ & Hnew);
    [reflexivity | reflexivity | apply Hone |].
  destruct (joinSessionByCode_spec "482913" "ben" lobby_world)
    as (_ & _ & Hben & _).
  destruct (Hben "s1" lobby_session) as (_ & _ & Hold & _);
    [reflexivity | reflexivity | apply Hone |].
  destruct (joinSessionByCode_spec "482913" "cy" demo_world)
    as (_ & _ & Hdemo & _).
  destruct (Hdemo "s1" demo_session) as (_ & Hact & _ & _);
    [reflexivity | reflexivity | apply Hone |].
  split_and!.
  - apply Hnew; [reflexivity|].
    intros Hin. simpl in Hin.
    apply elem_of_cons in Hin as [[=]|Hin].
    apply elem_of_cons in Hin as [[=]|Hin].
    by apply elem_of_nil in Hin.
  - apply Hold; [reflexivity|]. by right; left.
  - by apply Hact.
Defined.

(** C5 as stated fails: the only session with code 482913 has ended, and
    joining by that code reports "not found", not "has ended". *)
Lemma joinSessionByCode_ended_counterexample :
  sessions ended_world !! "s1" = Some ended_session
  ∧ roomCode ended_session = "482913"
  ∧ status ended_session = ended
  ∧ joinSessionByCode "482913" "cy" ended_world = (inl ERR_NOT_FOUND, ended_world)
  ∧ (joinSessionByCode "482913" "cy" ended_world).1 ≠ inl ERR_ENDED.
Proof. split_and!; by vm_compute. Qed.

(** Joining the lobby twice: one new participant entry. *)
Example joinSessionByCode_twice :
  let r1 := joinSessionByCode "482913" "cy" lobby_world in
  let r2 := joinSessionByCode "482913" "cy" r1.2 in
  r1.1 = inr "s1" ∧ r2.1 = inr "s1"
  ∧ participants <$> sessions r2.2 !! "s1" = Some ["ana"; "ben"; "cy"].
Proof. by vm_compute. Qed.

(** ** Room codes *)






Lemma roomCodeOf_range (r : Q) :
  (0 <= r)%Q → (r < 1)%Q →
  100000 ≤ Qfloor (100000 + r * 900000)%Q ≤ 999999.
Proof.
  intros H0 H1. split.
  - assert (Qfloor (inject_Z 100000) ≤ Qfloor (100000 + r * 900000)%Q) as Hle.
    { apply Qfloor_resp_le. change (inject_Z 100000) with 100000%Q. lra. }
    by rewrite Qfloor_Z in Hle.
  - cut (Qfloor (100000 + r * 900000)%Q < 1000000); [lia|].
    rewrite Zlt_Qlt. eapply Qle_lt_trans; [apply Qfloor_le|].
    change (inject_Z 1000000) with 1000000%Q. lra.
Qed.


Section Generate.
Implicit Types (w : World) (code : string) (maxRetries attempt : nat).

Lemma querySessions_nil_iff code w :
  querySessions (roomCodeQuery code) w = [] ↔ ¬ reserved w code.
Proof.
  split.
  - intros Hnil (sid & d & Hd & Hc & Hs).
    assert ((sid, d) ∈ querySessions (roomCodeQuery code) w) as Hin.
    { apply querySessions_elem. split; [done|]. by apply roomCodeQuery_true. }
    rewrite Hnil in Hin. by apply elem_of_nil in Hin.
  - intros Hfree.
    destruct (querySessions _ w) as [|[sid d] r] eqn:Hq; [done|].
    assert ((sid, d) ∈ querySessions (roomCodeQuery code) w) as Hin.
    { rewrite Hq. constructor. }
    apply querySessions_elem in Hin as [Hd Hw].
    apply roomCodeQuery_true in Hw as [Hc Hs].
    destruct Hfree. by exists sid, d.
Qed.

Lemma querySessions_cons_reserved code w x r :
  querySessions (roomCodeQuery code) w = x :: r → reserved w code.
Proof.
  intros Hq. destruct x as [sid d].
  assert ((sid, d) ∈ querySessions (roomCodeQuery code) w) as Hin.
  { rewrite Hq. constructor. }
  apply querySessions_elem in Hin as [Hd Hw].
  apply roomCodeQuery_true in Hw as [Hc Hs]. by exists sid, d.
Qed.

Lemma generateRoomCode_step maxRetries attempt w :
  generateRoomCode maxRetries attempt w =
  if decide (maxRetries ≤ attempt)%nat then (inl ERR_MAX_RETRIES, w)
  else
    let code := roomCodeOf (random w 0%nat) in
    let w' := (Math_random w).2 in
    match querySessions (roomCodeQuery code) w' with
    | [] => (inr code, w')
    | _ :: _ => generateRoomCode maxRetries (S attempt) w'
    end.
Proof.
  simp generateRoomCode. destruct (decide (maxRetries ≤ attempt)%nat); [done|].
  simpl. unfold await, getDocs_sessions. simpl.
  by destruct (querySessions _ _).
Qed.

(** The outcome of a run: the first draw that is not reserved, found
    within the attempts that remain, or the error after they all
    collided. *)
Lemma generateRoomCode_run (n : nat) : ∀ maxRetries attempt w,
  (maxRetries - attempt = n)%nat →
  let res := generateRoomCode maxRetries attempt w in
  sessions res.2 = sessions w ∧ users res.2 = users w
  ∧ ((∃ k, (attempt + k < maxRetries)%nat
           ∧ res.1 = inr (roomCodeOf (random w k))
           ∧ ¬ reserved w (roomCodeOf (random w k))
           ∧ (∀ j, (j < k)%nat → reserved w (roomCodeOf (random w j)))
           ∧ ∀ i, random res.2 i = random w (S k + i)%nat)
     ∨ (res.1 = inl ERR_MAX_RETRIES
        ∧ (∀ j, (attempt + j < maxRetries)%nat →
                reserved w (roomCodeOf (random w j)))
        ∧ ∀ i, random res.2 i = random w (n + i)%nat)).
Proof.
  induction n as [|n IH]; intros maxRetries attempt w Hn res; subst res;
    rewrite generateRoomCode_step.
  - rewrite decide_True by lia. simpl. split_and!; [done..|].
    right. split_and!; [done| |done]. intros j Hj. lia.
  - rewrite decide_False by lia. cbv zeta.
    set (w' := (Math_random w).2).
    assert (∀ c, reserved w' c ↔ reserved w c) as Hres by done.
    destruct (querySessions _ w') as [|x r] eqn:Hq.
    + apply querySessions_nil_iff in Hq. rewrite Hres in Hq.
      split_and!; [done..|]. left. exists 0%nat.
      split_and!; [lia|done|done| |done]. intros j Hj. lia.
    + assert (reserved w (roomCodeOf (random w 0%nat))) as Hfirst.
      { apply Hres. by eapply querySessions_cons_reserved. }
      destruct (IH maxRetries (S attempt) w' ltac:(lia))
        as (Hs & Hu & [(k & Hk & Hr & Hfree & Hprev & Hrnd)
                      |(Hr & Hall & Hrnd)]).
      * split_and!; [done..|]. left. exists (S k).
        split_and!; [lia|done|intros Hx; apply Hfree; by apply Hres| |done].
        intros [|j] Hj; [done|]. apply Hres, Hprev. lia.
      * split_and!; [done..|]. right. split_and!; [done| |done].
        intros [|j] Hj; [done|]. apply Hres, Hall. lia.
Qed.
End Generate.

(** C7. [generateRoomCode maxRetries] never returns a reserved code (one
    carried by a [pending] or [active] session).  It returns the first of
    the first [maxRetries] draws that is not reserved, having retried on
    every collision before it; when all [maxRetries] draws collide it
    throws the maximum-retries error after exactly [maxRetries] draws.
    In particular it throws, and does not loop, when every code from
    100000 to 999999 is reserved.  The store's collections are left as
    they were.  [createSession] calls it with [maxRetries = 10]. *)
Theorem generateRoomCode_unique maxRetries w :
  sessions (generateRoomCode maxRetries 0 w).2 = sessions w
  ∧ users (generateRoomCode maxRetries 0 w).2 = users w
  ∧ (∀ code, (generateRoomCode maxRetries 0 w).1 = inr code →
       ¬ reserved w code
       ∧ ∃ k, (k < maxRetries)%nat
              ∧ code = roomCodeOf (random w k)
              ∧ (∀ j, (j < k)%nat → reserved w (roomCodeOf (random w j)))
              ∧ ∀ i, random (generateRoomCode maxRetries 0 w).2 i
                     = random w (S k + i)%nat)
  ∧ (∀ e, (generateRoomCode maxRetries 0 w).1 = inl e →
       e = ERR_MAX_RETRIES
       ∧ (∀ j, (j < maxRetries)%nat → reserved w (roomCodeOf (random w j)))
       ∧ ∀ i, random (generateRoomCode maxRetries 0 w).2 i
              = random w (maxRetries + i)%nat)
  ∧ ((∀ j, (j < maxRetries)%nat → reserved w (roomCodeOf (random w j))) →
     (generateRoomCode maxRetries 0 w).1 = inl ERR_MAX_RETRIES)
  ∧ (draws_in_range w →
     (∀ n, 100000 ≤ n ≤ 999999 → reserved w (pretty n)) →
     (generateRoomCode maxRetries 0 w).1 = inl ERR_MAX_RETRIES).
Proof.
  destruct (generateRoomCode_run maxRetries maxRetries 0 w ltac:(lia))
    as (Hs & Hu & Hcases).
  assert ((∀ j, (j < maxRetries)%nat → reserved w (roomCodeOf (random w j))) →
          (generateRoomCode maxRetries 0 w).1 = inl ERR_MAX_RETRIES) as Hall.
  { intros Hall.
    destruct Hcases as [(k & Hk & _ & Hfree & _)|(Hr & _)]; [|done].
    destruct Hfree. apply Hall. lia. }
  split_and!; [done..| | | |].
  - intros code Hcode.
    destruct Hcases as [(k & Hk & Hr & Hfree & Hprev & Hrnd)|(Hr & _)];
      [|congruence].
    rewrite Hr in Hcode. injection Hcode as <-.
    split; [done|]. exists k. split_and!; [lia|done..].
  - intros e He.
    destruct Hcases as [(k & _ & Hr & _)|(Hr & Hres & Hrnd)]; [congruence|].
    rewrite Hr in He. injection He as <-. split_and!; [done| |done].
    intros j Hj. apply Hres. lia.
  - done.
  - intros Hrange Hfull. apply Hall. intros j _.
    apply Hfull, roomCodeOf_range; apply Hrange.
Qed.

(** One collision, then a free code; and a store whose only draw value
    is taken, where three attempts end in the error. *)
Example generateRoomCode_retry :
  reserved taken_world "100000"
  ∧ generateRoomCode 10 0 taken_world
    = (inr "550000",
       {| sessions := sessions taken_world; users := users taken_world;
          random := λ k, random taken_world (S (S k)) |})
  ∧ (generateRoomCode 3 0
       {| sessions := sessions taken_world; users := ∅;
          random := λ _, 0%Q |}).1
    = inl ERR_MAX_RETRIES.
Proof.
  split_and!; [|done..].
  eexists "s1", _. split_and!; [by vm_compute|done|by left].
Qed.




(** ** Statistics reconciliation *)

Section Reconcile.
Implicit Types (w : World) (uid : string) (sd : Session) (u : UserProfile.t).

Lemma updateUserStats_skip uid sd w cur :
  sessions w !! id sd = Some cur →
  uid ∈ orNil (statsUpdatedFor cur) →
  updateUserStats uid sd w = (inr (), w).
Proof.
  intros Hcur Hin. unfold updateUserStats, await, getDoc_session.
  rewrite Hcur. by rewrite decide_True.
Qed.

Lemma updateUserStats_missing uid sd w :
  sessions w !! id sd = None → updateUserStats uid sd w = (inr (), w).
Proof.
  intros Hcur. unfold updateUserStats, await, getDoc_session. by rewrite Hcur.
Qed.

Lemma updateUserStats_no_profile uid sd w :
  users w !! uid = None → updateUserStats uid sd w = (inr (), w).
Proof.
  intros Hu. unfold updateUserStats, await, getDoc_session, getDoc_user.
  destruct (sessions w !! id sd); [|done]. case_decide; [done|].
  by rewrite Hu.
Qed.

(** The run that does update: the profile write, then the mark. *)
Lemma updateUserStats_run uid sd w cur u :
  sessions w !! id sd = Some cur →
  uid ∉ orNil (statsUpdatedFor cur) →
  users w !! uid = Some u →
  updateUserStats uid sd w =
  (inr (),
   set_sessions
     (insert (id sd)
        (set_statsUpdatedFor (orNil (statsUpdatedFor cur) ++ [uid]) cur))
     (set_users
        (insert uid
           (if bool_decide (outcome (data sd) = Some successful) then
              stats_successful u (duration (data sd))
                (getUserTotalViolationTime (violations (data sd)) uid) u
            else
              stats_failed u
                (getUserTotalViolationTime (violations (data sd)) uid) u))
        w)).
Proof.
  intros Hcur Hnin Hu.
  unfold updateUserStats, await, getDoc_session, getDoc_user.
  rewrite Hcur, decide_False, Hu by done.
  destruct (bool_decide _); unfold updateDoc_user; rewrite Hu;
    (rewrite (updateDoc_session_Some _ _ _ cur) by done);
    by rewrite arrayUnion_new.
Qed.



(** C9. [updateUserStats] changes nothing when the user is already in
    the stored session's [statsUpdatedFor]; and whatever the store, a
    second call with the same user and session changes nothing: the
    profile after the second call is the profile after the first. *)
Theorem updateUserStats_idempotent uid sd w :
  (∀ cur, sessions w !! id sd = Some cur →
          uid ∈ orNil (statsUpdatedFor cur) →
          updateUserStats uid sd w = (inr (), w))
  ∧ updateUserStats uid sd (updateUserStats uid sd w).2
    = (inr (), (updateUserStats uid sd w).2)
  ∧ users (updateUserStats uid sd (updateUserStats uid sd w).2).2 !! uid
    = users (updateUserStats uid sd w).2 !! uid.
Proof.
  assert (updateUserStats uid sd (updateUserStats uid sd w).2
          = (inr (), (updateUserStats uid sd w).2)) as Htwice.
  { destruct (sessions w !! id sd) as [cur|] eqn:Hcur.
    - destruct (decide (uid ∈ orNil (statsUpdatedFor cur))) as [Hin|Hnin].
      + rewrite (updateUserStats_skip _ _ _ _ Hcur Hin). simpl.
        by apply (updateUserStats_skip _ _ _ cur).
      + destruct (users w !! uid) as [u|] eqn:Hu.
        * rewrite (updateUserStats_run _ _ _ _ _ Hcur Hnin Hu). simpl.
          eapply updateUserStats_skip; [apply lookup_insert_eq|].
          simpl. set_solver.
        * rewrite (updateUserStats_no_profile _ _ _ Hu). simpl.
          by apply updateUserStats_no_profile.
    - rewrite (updateUserStats_missing _ _ _ Hcur). simpl.
      by apply updateUserStats_missing. }
  split_and!.
  - intros cur. apply updateUserStats_skip.
  - done.
  - by rewrite Htwice.
Qed.

(** Reconciling twice: the second call leaves the 60 seconds, 5 sessions
    of the first. *)
Example updateUserStats_twice :
  let w1 := (updateUserStats "ana" stats_session stats_world).2 in
  let w2 := (updateUserStats "ana" stats_session w1).2 in
  UserProfile.violations <$> users w1 !! "ana" = Some 60
  ∧ UserProfile.violations <$> users w2 !! "ana" = Some 60
  ∧ UserProfile.sessionsCompleted <$> users w2 !! "ana" = Some 5
  ∧ statsUpdatedFor <$> sessions w2 !! "s1" = Some (Some ["ana"]).
Proof. by vm_compute. Qed.
End Reconcile.

(** ** Marathon sessions *)

Section Marathon.
Implicit Types (w : World) (sid uid : string) (d : SessionData).

Lemma hoursOf_0 : hoursOf 0 = Q2Qc 0.
Proof. by apply Qc_is_canon. Qed.

Lemma marathon_zero_sessions w w' :
  sessions w' = sessions w → marathon_zero w → marathon_zero w'.
Proof. unfold marathon_zero. by intros ->. Qed.

Lemma marathon_zero_insert w sid d :
  (isMarathon d = Some true → duration d = 0) →
  marathon_zero w → marathon_zero (set_sessions (insert sid d) w).
Proof.
  intros Hd Hw sid' d'. simpl. rewrite lookup_insert.
  case_decide; [by intros [= <-]|]. apply (Hw sid').
Qed.

Lemma marathon_zero_delete w sid :
  marathon_zero w → marathon_zero (set_sessions (delete sid) w).
Proof.
  intros Hw sid' d'. simpl. rewrite lookup_delete.
  case_decide; [done|]. apply (Hw sid').
Qed.

Lemma marathon_zero_updateDoc w sid (f : SessionData → SessionData) :
  (∀ d, isMarathon (f d) = isMarathon d ∧ duration (f d) = duration d) →
  marathon_zero w → marathon_zero (updateDoc_session sid f w).2.
Proof.
  intros Hf Hw. unfold updateDoc_session.
  destruct (sessions w !! sid) as [d|] eqn:Hd; [|done].
  apply marathon_zero_insert; [|done].
  destruct (Hf d) as [-> ->]. by apply (Hw sid).
Qed.

Lemma await_resolve_snd {A B} (m : Async A) (f : A → B) w :
  (await m (λ a, resolve (f a)) w).2 = (m w).2.
Proof. unfold await. by destruct (m w) as [[?|?] ?]. Qed.

Lemma createSession_run autoId now host ps dur mar w :
  let gen := generateRoomCode 10 0 w in
  createSession autoId now host ps dur mar w =
  match gen.1 with
  | inl e => (inl e, gen.2)
  | inr code =>
      (inr autoId,
       set_sessions
         (insert autoId
            {| hostId := host; participants := host :: ps;
               status := pending;
               duration := if mar then 0 else parseInt_toString dur;
               isMarathon := Some mar; violations := [];
               createdAt := Some now; startTime := None; endTime := None;
               roomCode := code; outcome := None; failReason := None;
               statsUpdatedFor := None |}) gen.2)
  end.
Proof.
  unfold createSession, await.
  by destruct (generateRoomCode 10 0 w) as [[e|code] w1].
Qed.

Lemma step_marathon_zero w w' :
  step w w' → marathon_zero w → marathon_zero w'.
Proof.
  intros Hstep Hw. destruct Hstep.
  - rewrite createSession_run. cbv zeta.
    destruct (generateRoomCode_run _ 10 0 w eq_refl) as (Hs & _).
    apply (marathon_zero_sessions _ _ Hs) in Hw.
    destruct (generateRoomCode 10 0 w).1; [done|]. simpl.
    apply marathon_zero_insert; [|done]. simpl. by intros [= ->].
  - by apply marathon_zero_updateDoc.
  - by apply marathon_zero_updateDoc.
  - by apply marathon_zero_updateDoc.
  - unfold addViolation. rewrite await_resolve_snd.
    by apply marathon_zero_updateDoc.
  - unfold joinSessionByCode, await. rewrite getSessionByRoomCode_eq.
    destruct (querySessions _ w) as [|[i d] r]; [done|].
    repeat case_decide; try done.
    change (marathon_zero
              (await (updateDoc_session i (λ d0,
                        set_participants (arrayUnion uid (participants d0)) d0))
                     (λ _, resolve i) w).2).
    rewrite await_resolve_snd. by apply marathon_zero_updateDoc.
  - unfold leaveSession, await, getDoc_session.
    destruct (sessions w !! sid); [|done].
    by apply marathon_zero_updateDoc.
  - by apply marathon_zero_delete.
  - unfold updateUserStats, await, getDoc_session, getDoc_user.
    destruct (sessions w !! id sd); [|done]. case_decide; [done|].
    destruct (users w !! uid) as [u|] eqn:Hu; [|done].
    destruct (bool_decide _); unfold updateDoc_user; rewrite Hu;
      by apply marathon_zero_updateDoc.
  - done.
Qed.

Lemma reachable_marathon_zero w : reachable w → marathon_zero w.
Proof.
  intros (w0 & Hempty & Hsteps).
  assert (marathon_zero w0) as Hw0.
  { intros sid d. by rewrite Hempty, lookup_empty. }
  clear Hempty. induction Hsteps as [|w1 w2 w3 Hstep _ IH]; [done|].
  apply IH. by eapply step_marathon_zero.
Qed.

Lemma createSession_free autoId now host ps dur mar w :
  (∃ j, (j < 10)%nat ∧ ¬ reserved w (roomCodeOf (random w j))) →
  ∃ code w0,
    createSession autoId now host ps dur mar w
    = (inr autoId,
       set_sessions
         (insert autoId
            {| hostId := host; participants := host :: ps;
               status := pending;
               duration := if mar then 0 else parseInt_toString dur;
               isMarathon := Some mar; violations := [];
               createdAt := Some now; startTime := None; endTime := None;
               roomCode := code; outcome := None; failReason := None;
               statsUpdatedFor := None |}) w0)
    ∧ sessions w0 = sessions w ∧ users w0 = users w.
Proof.
  intros (j & Hj & Hfree). rewrite createSession_run. cbv zeta.
  destruct (generateRoomCode_run _ 10 0 w eq_refl) as (Hs & Hu & Hcases).
  destruct Hcases as [(k & _ & Hr & _)|(_ & Hall & _)].
  - rewrite Hr. by eexists _, _.
  - destruct Hfree. apply Hall. simpl. lia.
Qed.

(** C10. [createSession] stores a marathon session with duration [0],
    and it does store one whenever one of its ten draws is a free code;
    ending a marathon session voluntarily writes outcome [successful],
    whatever the elapsed time and the violations; and reconciling a
    stored marathon session, in any store the service can reach, leaves
    every profile's [totalHours] as it was, while a successful one adds 1
    to [sessionsCompleted] and the user's violation seconds to
    [violations].  End to end: a marathon session created, started,
    interrupted by an absence of [a] seconds and ended by the host
    credits the host with one more session and [a] more violation
    seconds, and with no hours. *)
Theorem marathon_adds_no_hours :
  (∀ autoId now host ps dur w,
     (∃ j, (j < 10)%nat ∧ ¬ reserved w (roomCodeOf (random w j))) →
     ∃ d,
       (createSession autoId now host ps dur true w).1 = inr autoId
       ∧ sessions (createSession autoId now host ps dur true w).2 !! autoId
         = Some d
       ∧ isMarathon d = Some true ∧ duration d = 0 ∧ status d = pending)
  ∧ (∀ autoId now host ps dur w sid w',
       createSession autoId now host ps dur true w = (inr sid, w') →
       ∃ d, sessions w' !! sid = Some d ∧ isMarathon d = Some true
            ∧ duration d = 0 ∧ status d = pending)
  ∧ (∀ now st w sid s d,
       hasAutoCompleted st = false → isCompleting st = false →
       sessionId st = Some sid → sid ≠ "" → session st = Some s →
       sessions w !! sid = Some d →
       isMarathon (data s) = Some true →
       ∃ d', sessions (endVoluntarily now st w).2 !! sid = Some d'
             ∧ d' = set_ended now successful None d
             ∧ status d' = ended ∧ outcome d' = Some successful
             ∧ failReason d' = None
             ∧ duration d' = duration d ∧ isMarathon d' = isMarathon d)
  ∧ (∀ w uid sd,
       reachable w →
       sessions w !! id sd = Some (data sd) →
       isMarathon (data sd) = Some true →
       duration (data sd) = 0
       ∧ (∀ uid', UserProfile.totalHours
                    <$> users (updateUserStats uid sd w).2 !! uid'
                  = UserProfile.totalHours <$> users w !! uid')
       ∧ (∀ u, outcome (data sd) = Some successful →
               uid ∉ orNil (statsUpdatedFor (data sd)) →
               users w !! uid = Some u →
               ∃ u', users (updateUserStats uid sd w).2 !! uid = Some u'
                     ∧ UserProfile.totalHours u' = UserProfile.totalHours u
                     ∧ UserProfile.sessionsCompleted u'
                       = UserProfile.sessionsCompleted u + 1
                     ∧ UserProfile.violations u'
                       = UserProfile.violations u
                         + getUserTotalViolationTime
                             (violations (data sd)) uid))
  ∧ (∀ autoId now1 now2 now3 iso ty host ps dur a t w u,
       autoId ≠ "" → users w !! host = Some u →
       (∃ j, (j < 10)%nat ∧ ¬ reserved w (roomCodeOf (random w j))) →
       let w1 := (createSession autoId now1 host ps dur true w).2 in
       let w2 := (startSession now2 autoId w1).2 in
       let w3 := (addViolation iso autoId host ty a w2).2 in
       ∃ d3 d4 u',
         sessions w3 !! autoId = Some d3
         ∧ status d3 = active ∧ isMarathon d3 = Some true
         ∧ sessions
             (endVoluntarily now3
                {| sessionId := Some autoId;
                   session := Some {| id := autoId; data := d3 |};
                   timer := t; isCompleting := false;
                   hasAutoCompleted := false |} w3).2 !! autoId
           = Some d4
         ∧ status d4 = ended ∧ outcome d4 = Some successful
         ∧ isMarathon d4 = Some true ∧ duration d4 = 0
         ∧ users
             (updateUserStats host {| id := autoId; data := d4 |}
                (endVoluntarily now3
                   {| sessionId := Some autoId;
                      session := Some {| id := autoId; data := d3 |};
                      timer := t; isCompleting := false;
                      hasAutoCompleted := false |} w3).2).2 !! host
           = Some u'
         ∧ UserProfile.totalHours u' = UserProfile.totalHours u
         ∧ UserProfile.sessionsCompleted u'
           = UserProfile.sessionsCompleted u + 1
         ∧ UserProfile.violations u' = UserProfile.violations u + a).
Proof.
  split_and!.
  - intros autoId now host ps dur w Hfree.
    destruct (createSession_free autoId now host ps dur true w Hfree)
      as (code & w0 & -> & _). eexists. simpl.
    by rewrite lookup_insert_eq.
  - intros autoId now host ps dur w sid w'. rewrite createSession_run.
    cbv zeta. destruct (generateRoomCode 10 0 w).1; [done|].
    intros [= <- <-]. eexists. simpl. by rewrite lookup_insert_eq.
  - intros now st w sid s d Hauto Hcompl Hsid Hne Hs Hd Hm.
    rewrite (endVoluntarily_run now st w sid s d) by done.
    unfold voluntaryOutcome. rewrite bool_decide_eq_true_2 by done.
    simpl. rewrite lookup_insert_eq. by eexists.
  - intros w uid sd Hreach Hcur Hm.
    assert (duration (data sd) = 0) as Hdur.
    { by eapply (reachable_marathon_zero w Hreach). }
    assert (∀ u, (or0_Qc (UserProfile.totalHours u)
                  + hoursOf (duration (data sd)))%Qc
                 = UserProfile.totalHours u) as Hsame.
    { intros u. rewrite Hdur, hoursOf_0, or0_Qc_id. apply Qcplus_0_r. }
    split_and!; [done| |].
    + intros uid'.
      destruct (decide (uid ∈ orNil (statsUpdatedFor (data sd)))) as [Hin|Hnin].
      { by rewrite (updateUserStats_skip _ _ _ _ Hcur Hin). }
      destruct (users w !! uid) as [u|] eqn:Hu.
      2: { by rewrite (updateUserStats_no_profile _ _ _ Hu). }
      rewrite (updateUserStats_run _ _ _ _ _ Hcur Hnin Hu). simpl.
      rewrite lookup_insert. case_decide as Heq; [|done]. subst uid'.
      rewrite Hu. simpl. destruct (bool_decide _); simpl; [|done].
      by rewrite Hsame.
    + intros u Hok Hnin Hu.
      rewrite (updateUserStats_run _ _ _ _ _ Hcur Hnin Hu). simpl.
      rewrite lookup_insert_eq, bool_decide_eq_true_2 by done.
      eexists. split; [done|]. simpl. by rewrite Hsame, !or0_id.
  - intros autoId now1 now2 now3 iso ty host ps dur a t w u Hne Hu Hfree
      w1 w2 w3.
    destruct (createSession_free autoId now1 host ps dur true w Hfree)
      as (code & w0 & Hcreate & _ & Hu0).
    subst w3 w2 w1. rewrite Hcreate. simpl.
    unfold startSession.
    rewrite (updateDoc_session_Some _ _ _ _ (lookup_insert_eq _ _ _)).
    simpl. unfold addViolation. rewrite await_resolve_snd.
    rewrite (updateDoc_session_Some _ _ _ _ (lookup_insert_eq _ _ _)).
    simpl. rewrite arrayUnion_new by apply not_elem_of_nil. simpl.
    eexists _, _, _. split; [apply lookup_insert_eq|].
    split; [done|]. split; [done|].
    erewrite (endVoluntarily_run now3 _ _ autoId);
      [|reflexivity|reflexivity|reflexivity|exact Hne|reflexivity
       |apply lookup_insert_eq].
    simpl. split; [apply lookup_insert_eq|]. simpl.
    split_and!; [done..| | | |].
    + erewrite updateUserStats_run;
        [|apply lookup_insert_eq|apply not_elem_of_nil|simpl; by rewrite Hu0].
      simpl. apply lookup_insert_eq.
    + simpl. rewrite hoursOf_0, or0_Qc_id. apply Qcplus_0_r.
    + simpl. by rewrite or0_id.
    + simpl. rewrite or0_id. f_equal.
      unfold getUserTotalViolationTime. rewrite filter_cons, decide_True by done.
      simpl. lia.
Qed.

(** The sample history: a profile of three hours, 20 violation seconds
    and 4 sessions stays at three hours after a marathon session that
    ran for more than two hours with one absence of 40 seconds. *)
Lemma marathon_adds_no_hours_witness :
  reachable marathon_history
  ∧ ∃ d u',
      sessions marathon_history !! "m1" = Some d
      ∧ isMarathon d = Some true ∧ outcome d = Some successful
      ∧ duration d = 0
      ∧ users (updateUserStats "ana" {| id := "m1"; data := d |}
                 marathon_history).2 !! "ana" = Some u'
      ∧ Qcanon.this (UserProfile.totalHours u') = 3%Q
      ∧ UserProfile.sessionsCompleted u' = 5
      ∧ UserProfile.violations u' = 60.
Proof.
  assert (reachable marathon_history) as Hreach.
  { exists marathon_start. split; [done|]. unfold marathon_history.
    eapply rtc_l; [apply step_create|].
    eapply rtc_l; [apply step_start|].
    eapply rtc_l; [apply step_violation|].
    eapply rtc_l; [apply step_end|]. done. }
  split; [exact Hreach|].
  destruct (sessions marathon_history !! "m1") as [d|] eqn:Hd;
    [|by vm_compute in Hd].
  destruct marathon_adds_no_hours as (_ & _ & _ & Hstats & _).
  destruct (Hstats marathon_history "ana" {| id := "m1"; data := d |} Hreach Hd)
    as (Hdur & _ & Hcredit).
  { vm_compute in Hd. by injection Hd as <-. }
  destruct (Hcredit ana_profile) as (u' & Hu' & Hh & Hc & Hv).
  { vm_compute in Hd. by injection Hd as <-. }
  { vm_compute in Hd. injection Hd as <-. apply not_elem_of_nil. }
  { reflexivity. }
  exists d, u'. split_and!; [done| | |done|done| | |].
  - vm_compute in Hd. by injection Hd as <-.
  - vm_compute in Hd. by injection Hd as <-.
  - by rewrite Hh.
  - by rewrite Hc.
  - rewrite Hv. vm_compute in Hd. by injection Hd as <-.
Defined.

(** A three-hour profile stays at three hours after a marathon session
    of two hours and a bit. *)
Example marathon_history_hours :
  reachable marathon_history
  ∧ (λ d, (isMarathon d, duration d, outcome d))
      <$> sessions marathon_history !! "m1"
    = Some (Some true, 0, Some successful)
  ∧ ∀ d, sessions marathon_history !! "m1" = Some d →
      let w := (updateUserStats "ana" {| id := "m1"; data := d |}
                  marathon_history).2 in
      (λ u, (Qcanon.this (UserProfile.totalHours u),
             UserProfile.sessionsCompleted u, UserProfile.violations u))
        <$> users w !! "ana"
      = Some (3%Q, 5, 60).
Proof.
  split_and!.
  - exists marathon_start. split; [done|]. unfold marathon_history.
    eapply rtc_l; [apply step_create|].
    eapply rtc_l; [apply step_start|].
    eapply rtc_l; [apply step_violation|].
    eapply rtc_l; [apply step_end|]. done.
  - by vm_compute.
  - intros d Hd. vm_compute in Hd. injection Hd as <-. by vm_compute.
Qed.
End Marathon.

(** * Further properties *)

(** ** Totals and reordering *)

Section Totals.
Implicit Types (vs : list Violation) (ps : list string) (u : string).

Lemma getUserTotalViolationTime_cons v vs u :
  getUserTotalViolationTime (v :: vs) u
  = (if decide (userId v = u) then durationSeconds v else 0)
    + getUserTotalViolationTime vs u.
Proof.
  unfold getUserTotalViolationTime. rewrite filter_cons.
  case_decide; simpl; [|lia]. by rewrite foldl_durations.
Qed.

Lemma getUserTotalViolationTime_app vs1 vs2 u :
  getUserTotalViolationTime (vs1 ++ vs2) u
  = getUserTotalViolationTime vs1 u + getUserTotalViolationTime vs2 u.
Proof.
  induction vs1 as [|v vs1 IH]; simpl; [done|].
  rewrite !getUserTotalViolationTime_cons, IH. lia.
Qed.

Lemma getUserTotalViolationTime_perm vs vs' u :
  vs ≡ₚ vs' →
  getUserTotalViolationTime vs u = getUserTotalViolationTime vs' u.
Proof.
  induction 1 as [|v vs vs' _ IH|v1 v2 vs|vs1 vs2 vs3 _ IH1 _ IH2];
    rewrite ?getUserTotalViolationTime_cons; [done|lia|lia|congruence].
Qed.

Lemma getUserTotalViolationTime_nonneg vs u :
  Forall (λ v, 0 ≤ durationSeconds v) vs →
  0 ≤ getUserTotalViolationTime vs u.
Proof.
  induction 1 as [|v vs Hv _ IH]; [done|].
  rewrite getUserTotalViolationTime_cons. case_decide; lia.
Qed.

(** X1. A user's total is additive over concatenated violation lists,
    does not depend on the order of the records, and ignores the records
    of other users. *)
Theorem getUserTotalViolationTime_additive vs1 vs2 u :
  getUserTotalViolationTime (vs1 ++ vs2) u
  = getUserTotalViolationTime vs1 u + getUserTotalViolationTime vs2 u
  ∧ (∀ vs', vs1 ≡ₚ vs' →
       getUserTotalViolationTime vs' u = getUserTotalViolationTime vs1 u)
  ∧ getUserTotalViolationTime (filter (λ v, userId v = u) vs1) u
    = getUserTotalViolationTime vs1 u
  ∧ getUserTotalViolationTime (filter (λ v, userId v ≠ u) vs1) u = 0.
Proof.
  split_and!.
  - apply getUserTotalViolationTime_app.
  - intros vs' Hp. symmetry. by apply getUserTotalViolationTime_perm.
  - induction vs1 as [|v vs1 IH]; [done|].
    rewrite filter_cons. case_decide as Hv.
    + rewrite !getUserTotalViolationTime_cons, IH. done.
    + rewrite getUserTotalViolationTime_cons, IH. case_decide; [done|lia].
  - induction vs1 as [|v vs1 IH]; [done|].
    rewrite filter_cons. case_decide as Hv; [|done].
    rewrite getUserTotalViolationTime_cons, IH. case_decide; [done|lia].
Qed.

(** X2. The verdict depends only on which users participate, not on
    their order or repetition; dropping participants keeps a success; and
    further violations of non-negative length never turn a failure into a
    success. *)
Theorem isSessionSuccessful_monotone vs vs' ps ps' :
  ps' ⊆ ps →
  Forall (λ v, 0 ≤ durationSeconds v) vs' →
  (isSessionSuccessful vs ps = true → isSessionSuccessful vs ps' = true)
  ∧ (isSessionSuccessful (vs ++ vs') ps = true →
     isSessionSuccessful vs ps = true)
  ∧ (ps ⊆ ps' → isSessionSuccessful vs ps = isSessionSuccessful vs ps').
Proof.
  intros Hsub Hpos.
  assert (∀ qs qs', qs' ⊆ qs → isSessionSuccessful vs qs = true →
                    isSessionSuccessful vs qs' = true) as Hdrop.
  { intros qs qs' Hq. rewrite !isSessionSuccessful_Forall, !Forall_forall.
    intros Hall p Hp. apply Hall, Hq, Hp. }
  split_and!.
  - by apply Hdrop.
  - rewrite !isSessionSuccessful_Forall, !Forall_forall.
    intros Hall p Hp. specialize (Hall p Hp).
    rewrite getUserTotalViolationTime_app in Hall.
    pose proof (getUserTotalViolationTime_nonneg vs' p Hpos). lia.
  - intros Hsup.
    destruct (isSessionSuccessful vs ps) eqn:H1.
    + symmetry. by apply (Hdrop ps).
    + destruct (isSessionSuccessful vs ps') eqn:H2; [|done].
      apply (Hdrop ps' ps Hsup) in H2. congruence.
Qed.

Lemma isSessionSuccessful_monotone_witness :
  isSessionSuccessful (violations (data stats_session)) ["ana"; "ben"]
  = isSessionSuccessful (violations (data stats_session)) ["ben"; "ana"; "ben"].
Proof.
  apply (isSessionSuccessful_monotone (violations (data stats_session)) []
           ["ana"; "ben"] ["ben"; "ana"; "ben"]).
  - intros x. rewrite !elem_of_cons. tauto.
  - constructor.
  - intros x. rewrite !elem_of_cons. tauto.
Defined.
End Totals.

(** ** Recording violations, leaving, looking up the active session *)

Section Membership.
Implicit Types (w : World) (sid uid code : string) (d : SessionData).

Lemma set_sessions_insert_id w sid d :
  sessions w !! sid = Some d → set_sessions (insert sid d) w = w.
Proof.
  intros Hd. unfold set_sessions. rewrite insert_id by done. by destruct w.
Qed.

Lemma set_sessions_insert_insert w sid d1 d2 :
  set_sessions (insert sid d2) (set_sessions (insert sid d1) w)
  = set_sessions (insert sid d2) w.
Proof. unfold set_sessions. simpl. by rewrite insert_insert_eq. Qed.

Lemma set_violations_same d : set_violations (violations d) d = d.
Proof. by destruct d. Qed.

Lemma set_participants_same d : set_participants (participants d) d = d.
Proof. by destruct d. Qed.

Lemma set_participants_twice ps ps' d :
  set_participants ps (set_participants ps' d) = set_participants ps d.
Proof. done. Qed.

Lemma filter_all {A} (P : A → Prop) `{∀ x, Decision (P x)} (l : list A) :
  Forall P l → filter P l = l.
Proof.
  induction 1 as [|x l Hx _ IH]; [done|].
  by rewrite filter_cons_True, IH.
Qed.

Lemma filter_ne_app_singleton (uid : string) (ps : list string) :
  uid ∉ ps → filter (λ i, i ≠ uid) (ps ++ [uid]) = ps.
Proof.
  intros Hnin. rewrite filter_app, filter_cons_False, filter_nil, app_nil_r
    by (intros Hne; by apply Hne).
  apply filter_all, Forall_forall. intros p Hp ->. done.
Qed.

Lemma addViolation_run iso sid uid ty dur w cur :
  sessions w !! sid = Some cur →
  addViolation iso sid uid ty dur w =
  (inr (getViolationCategory dur,
        bool_decide (getViolationCategory dur = catastrophic)),
   set_sessions
     (insert sid
        (set_violations
           (arrayUnion {| userId := uid; timestamp := iso; type_ := ty;
                          durationSeconds := dur;
                          category := getViolationCategory dur |}
                       (violations cur)) cur)) w).
Proof.
  intros Hcur. unfold addViolation, await.
  by rewrite (updateDoc_session_Some _ _ _ cur).
Qed.

Lemma getViolationCategory_catastrophic dur :
  getViolationCategory dur = catastrophic ↔ 300 ≤ dur.
Proof.
  unfold getViolationCategory.
  destruct (Z.ltb_spec dur 30), (Z.ltb_spec dur 120), (Z.ltb_spec dur 300);
    split; first [done | lia].
Qed.

Lemma catastrophic_iff dur :
  bool_decide (getViolationCategory dur = catastrophic) = bool_decide (300 ≤ dur).
Proof.
  apply bool_decide_ext. unfold getViolationCategory.
  destruct (Z.ltb_spec dur 30), (Z.ltb_spec dur 120), (Z.ltb_spec dur 300);
    split; first [done | lia].
Qed.

(** X3. On an existing session, [addViolation] appends one record for a
    violation not yet recorded, returns its category and whether the
    absence lasted 300 seconds or more, raises that user's total by the
    duration and nobody else's, and leaves status, participants and
    outcome alone: it never ends the session itself. *)
Theorem addViolation_records iso sid uid ty dur w cur :
  sessions w !! sid = Some cur →
  {| userId := uid; timestamp := iso; type_ := ty; durationSeconds := dur;
     category := getViolationCategory dur |} ∉ violations cur →
  ∃ cur',
    addViolation iso sid uid ty dur w
    = (inr (getViolationCategory dur, bool_decide (300 ≤ dur)),
       set_sessions (insert sid cur') w)
    ∧ violations cur'
      = violations cur
        ++ [{| userId := uid; timestamp := iso; type_ := ty;
               durationSeconds := dur;
               category := getViolationCategory dur |}]
    ∧ getUserTotalViolationTime (violations cur') uid
      = getUserTotalViolationTime (violations cur) uid + dur
    ∧ (∀ u, u ≠ uid →
         getUserTotalViolationTime (violations cur') u
         = getUserTotalViolationTime (violations cur) u)
    ∧ status cur' = status cur
    ∧ participants cur' = participants cur
    ∧ outcome cur' = outcome cur.
Proof.
  intros Hcur Hnew. eexists.
  rewrite (addViolation_run _ _ _ _ _ _ _ Hcur), catastrophic_iff.
  split; [done|]. simpl. rewrite arrayUnion_new by done.
  split_and!; try done.
  - rewrite getUserTotalViolationTime_app, getUserTotalViolationTime_cons.
    simpl. rewrite decide_True by done.
    by rewrite getUserTotalViolationTime_nil, Z.add_0_r.
  - intros u Hu.
    rewrite getUserTotalViolationTime_app, getUserTotalViolationTime_cons.
    simpl. rewrite decide_False by done.
    rewrite getUserTotalViolationTime_nil. lia.
Qed.

Lemma addViolation_records_witness :
  ∃ cur',
    (addViolation "2024-01-01T10:07:00.000Z" "s1" "ben" "app-switch" 310
       demo_world).1 = inr (catastrophic, true)
    ∧ sessions (addViolation "2024-01-01T10:07:00.000Z" "s1" "ben"
                  "app-switch" 310 demo_world).2 !! "s1" = Some cur'
    ∧ getUserTotalViolationTime (violations cur') "ben" = 310
    ∧ status cur' = active.
Proof.
  destruct (addViolation_records "2024-01-01T10:07:00.000Z" "s1" "ben"
              "app-switch" 310 demo_world demo_session)
    as (cur' & Hrun & _ & Htot & _ & Hst & _);
    [reflexivity | apply not_elem_of_nil |].
  exists cur'. rewrite Hrun. split_and!; [reflexivity| |exact Htot|exact Hst].
  simpl. apply lookup_insert_eq.
Defined.

(** X4. [addViolation] on a missing session fails with the store's
    [not-found] and writes nothing; and recording the very same violation
    again (same user, instant, type and duration) changes nothing, since
    [arrayUnion] keeps one copy. *)
Theorem addViolation_edge iso sid uid ty dur w :
  (sessions w !! sid = None →
   addViolation iso sid uid ty dur w = (inl (FirestoreError "not-found"), w))
  ∧ addViolation iso sid uid ty dur (addViolation iso sid uid ty dur w).2
    = addViolation iso sid uid ty dur w.
Proof.
  assert (sessions w !! sid = None →
          addViolation iso sid uid ty dur w
          = (inl (FirestoreError "not-found"), w)) as Hmiss.
  { intros Hnone. unfold addViolation, await.
    by rewrite updateDoc_session_None. }
  split; [done|].
  destruct (sessions w !! sid) as [cur|] eqn:Hcur.
  - rewrite (addViolation_run _ _ _ _ _ _ _ Hcur). simpl.
    erewrite addViolation_run by (simpl; apply lookup_insert_eq).
    f_equal. rewrite set_sessions_insert_insert. simpl.
    by rewrite (arrayUnion_old _ (arrayUnion _ _)) by apply elem_of_arrayUnion.
  - rewrite (Hmiss eq_refl). simpl. by apply Hmiss.
Qed.

Lemma leaveSession_run sid uid w d :
  sessions w !! sid = Some d →
  leaveSession sid uid w =
  (inr (), set_sessions
             (insert sid
                (set_participants (filter (λ i, i ≠ uid) (participants d)) d))
             w).
Proof.
  intros Hd. unfold leaveSession, await, getDoc_session. rewrite Hd.
  by apply updateDoc_session_Some.
Qed.

(** X5. [leaveSession] removes every entry of the user from the
    participants, keeps the other participants in their order, and
    touches nothing else: status, host and violations stay, whatever the
    status and even when the host leaves or nobody remains.  On a missing
    session, or for a user who is not a participant, nothing changes; and
    leaving twice is leaving once. *)
Theorem leaveSession_spec sid uid w :
  (∀ d, sessions w !! sid = Some d →
     ∃ d', leaveSession sid uid w = (inr (), set_sessions (insert sid d') w)
           ∧ (uid ∉ participants d')
           ∧ (∀ p, p ≠ uid → (p ∈ participants d' ↔ p ∈ participants d))
           ∧ (participants d') `sublist_of` (participants d)
           ∧ status d' = status d ∧ hostId d' = hostId d
           ∧ violations d' = violations d ∧ roomCode d' = roomCode d
           ∧ (uid ∉ participants d → leaveSession sid uid w = (inr (), w)))
  ∧ (sessions w !! sid = None → leaveSession sid uid w = (inr (), w))
  ∧ leaveSession sid uid (leaveSession sid uid w).2
    = (inr (), (leaveSession sid uid w).2).
Proof.
  assert (sessions w !! sid = None → leaveSession sid uid w = (inr (), w))
    as Hmiss.
  { intros Hnone. unfold leaveSession, await, getDoc_session.
    by rewrite Hnone. }
  split_and!; [|done|].
  - intros d Hd. eexists. split; [by apply leaveSession_run|]. simpl.
    split_and!; try done.
    + intros [Hne _]%list_elem_of_filter. by apply Hne.
    + intros p Hp. rewrite list_elem_of_filter. tauto.
    + apply sublist_filter.
    + intros Hnin. rewrite (leaveSession_run _ _ _ _ Hd).
      rewrite filter_all, set_participants_same, set_sessions_insert_id;
        [done..|].
      apply Forall_forall. by intros p Hp ->.
  - destruct (sessions w !! sid) as [d|] eqn:Hd.
    + rewrite (leaveSession_run _ _ _ _ Hd). simpl.
      erewrite leaveSession_run by (simpl; apply lookup_insert_eq).
      rewrite set_sessions_insert_insert. simpl.
      rewrite list_filter_filter, set_participants_twice.
      by rewrite (list_filter_iff _ (λ i, i ≠ uid)) by tauto.
    + rewrite (Hmiss eq_refl). by apply Hmiss.
Qed.

(** X6. Joining a lobby and leaving it again restores the store: for a
    pending session found by its code and a user who was not a
    participant, [leaveSession] after [joinSessionByCode] gives back the
    store as it was. *)
Theorem joinSessionByCode_leaveSession code uid w s :
  getSessionByRoomCode code w = (inr (Some s), w) →
  status (data s) = pending →
  uid ∉ participants (data s) →
  (joinSessionByCode code uid w).1 = inr (id s)
  ∧ leaveSession (id s) uid (joinSessionByCode code uid w).2 = (inr (), w).
Proof.
  intros Hget Hst Hnin.
  destruct (getSessionByRoomCode_found _ _ _ _ Hget) as (_ & Hd & _ & _).
  rewrite (joinSessionByCode_found _ _ _ _ Hget).
  rewrite decide_False, decide_False by (done || congruence).
  split; [done|]. simpl.
  erewrite leaveSession_run by (simpl; apply lookup_insert_eq).
  rewrite set_sessions_insert_insert. simpl.
  rewrite filter_ne_app_singleton, set_participants_twice by done.
  by rewrite set_participants_same, set_sessions_insert_id.
Qed.

Lemma joinSessionByCode_leaveSession_witness :
  leaveSession "s1" "cy" (joinSessionByCode "482913" "cy" lobby_world).2
  = (inr (), lobby_world).
Proof.
  apply (joinSessionByCode_leaveSession "482913" "cy" lobby_world
           {| id := "s1"; data := lobby_session |}).
  - reflexivity.
  - reflexivity.
  - simpl. rewrite !elem_of_cons, elem_of_nil. intros [[=]|[[=]|[]]].
Defined.

Lemma activeSessionQuery_true uid d :
  activeSessionQuery uid d = true ↔
  uid ∈ participants d ∧ (status d = pending ∨ status d = active).
Proof.
  unfold activeSessionQuery, status_in_pending_active.
  rewrite andb_true_iff, orb_true_iff, !bool_decide_eq_true. done.
Qed.

Lemma getUserActiveSession_eq uid w :
  getUserActiveSession uid w =
  (inr match querySessions (activeSessionQuery uid) w with
       | [] => None
       | (docId, docData) :: _ => Some {| id := docId; data := docData |}
       end, w).
Proof.
  unfold getUserActiveSession, await, getDocs_sessions.
  by destruct (querySessions _ w) as [|[]].
Qed.

(** X7. [getUserActiveSession] never throws and never writes.  It
    returns a stored session in which the user participates and whose
    status is [pending] or [active], and it returns [null] exactly when
    every session the user participates in has ended. *)
Theorem getUserActiveSession_spec uid w :
  (∃ r, getUserActiveSession uid w = (inr r, w))
  ∧ (∀ s, (getUserActiveSession uid w).1 = inr (Some s) →
       sessions w !! id s = Some (data s)
       ∧ uid ∈ participants (data s)
       ∧ (status (data s) = pending ∨ status (data s) = active))
  ∧ ((getUserActiveSession uid w).1 = inr None ↔
     ∀ sid d, sessions w !! sid = Some d → uid ∈ participants d →
              status d = ended).
Proof.
  rewrite getUserActiveSession_eq. simpl. split_and!.
  - by eexists.
  - intros s Hs. destruct (querySessions _ w) as [|[i d] r] eqn:Hq; [done|].
    injection Hs as <-. simpl.
    assert ((i, d) ∈ querySessions (activeSessionQuery uid) w) as Hin.
    { rewrite Hq. constructor. }
    apply querySessions_elem in Hin as [Hd Hw].
    apply activeSessionQuery_true in Hw as [Hp Hs]. done.
  - split.
    + intros Hnone sid d Hd Hp.
      destruct (querySessions _ w) as [|[i d0] r] eqn:Hq; [|done].
      destruct (status d) eqn:Hs; [| |done].
      * assert ((sid, d) ∈ querySessions (activeSessionQuery uid) w) as Hin.
        { apply querySessions_elem. split; [done|].
          apply activeSessionQuery_true. auto. }
        rewrite Hq in Hin. by apply elem_of_nil in Hin.
      * assert ((sid, d) ∈ querySessions (activeSessionQuery uid) w) as Hin.
        { apply querySessions_elem. split; [done|].
          apply activeSessionQuery_true. auto. }
        rewrite Hq in Hin. by apply elem_of_nil in Hin.
    + intros Hall. destruct (querySessions _ w) as [|[i d] r] eqn:Hq; [done|].
      assert ((i, d) ∈ querySessions (activeSessionQuery uid) w) as Hin.
      { rewrite Hq. constructor. }
      apply querySessions_elem in Hin as [Hd Hw].
      apply activeSessionQuery_true in Hw as [Hp Hs].
      specialize (Hall i d Hd Hp). destruct Hs; congruence.
Qed.
End Membership.

(** ** Creating sessions *)

Section Create.
Implicit Types (w : World) (sid uid host : string) (d : SessionData).

Lemma status_in_pending_active_true d :
  status_in_pending_active d = true ↔ status d = pending ∨ status d = active.
Proof.
  unfold status_in_pending_active.
  by rewrite orb_true_iff, !bool_decide_eq_true.
Qed.

Lemma createSession_ok autoId now host ps dur mar w sid w' :
  createSession autoId now host ps dur mar w = (inr sid, w') →
  ∃ code,
    (generateRoomCode 10 0 w).1 = inr code ∧ ¬ reserved w code
    ∧ sid = autoId
    ∧ w' = set_sessions
             (insert autoId
                {| hostId := host; participants := host :: ps;
                   status := pending;
                   duration := if mar then 0 else parseInt_toString dur;
                   isMarathon := Some mar; violations := [];
                   createdAt := Some now; startTime := None; endTime := None;
                   roomCode := code; outcome := None; failReason := None;
                   statsUpdatedFor := None |}) (generateRoomCode 10 0 w).2
    ∧ sessions (generateRoomCode 10 0 w).2 = sessions w
    ∧ users (generateRoomCode 10 0 w).2 = users w.
Proof.
  rewrite createSession_run. cbv zeta.
  destruct (generateRoomCode_run _ 10 0 w eq_refl) as (Hs & Hu & Hcases).
  destruct (generateRoomCode 10 0 w).1 as [e|code] eqn:Hgen; [done|].
  intros [= <- <-]. exists code.
  destruct Hcases as [(k & _ & [= ->] & Hfree & _)|([=] & _)].
  by split_and!.
Qed.

(** X8. When [createSession] succeeds it returns the id the store
    generated; the new session is [pending], has the host as first
    participant, no violations and no outcome, and carries a room code
    that no [pending] or [active] session carried; every other document
    is untouched.  If room codes were unique among [pending] and [active]
    sessions they still are, and [getUserActiveSession] then finds a
    session for the host. *)
Theorem createSession_spec autoId now host ps dur mar w sid w' :
  createSession autoId now host ps dur mar w = (inr sid, w') →
  sid = autoId
  ∧ (∃ d, sessions w' !! sid = Some d
          ∧ status d = pending ∧ hostId d = host
          ∧ participants d = host :: ps ∧ violations d = []
          ∧ outcome d = None ∧ startTime d = None
          ∧ isMarathon d = Some mar
          ∧ ¬ reserved w (roomCode d))
  ∧ (∀ sid', sid' ≠ sid → sessions w' !! sid' = sessions w !! sid')
  ∧ users w' = users w
  ∧ (codes_unique w → codes_unique w')
  ∧ ∃ s, getUserActiveSession host w' = (inr (Some s), w').
Proof.
  intros (code & Hgen & Hfree & -> & -> & Hs & Hu)%createSession_ok.
  split_and!.
  - done.
  - eexists. simpl. rewrite lookup_insert_eq. by split_and!.
  - intros sid' Hne. simpl. by rewrite lookup_insert_ne, Hs.
  - done.
  - intros Huniq sid1 sid2 d1 d2. simpl. rewrite !lookup_insert, Hs.
    assert (∀ sid0 d0, sessions w !! sid0 = Some d0 →
              status_in_pending_active d0 = true → roomCode d0 ≠ code)
      as Hother.
    { intros sid0 d0 Hd0 Hlive%status_in_pending_active_true Hc.
      apply Hfree. by exists sid0, d0. }
    repeat case_decide; subst.
    + done.
    + intros [= <-] Hd2 _ Hl2 Hc. simpl in Hc.
      by destruct (Hother _ _ Hd2 Hl2).
    + intros Hd1 [= <-] Hl1 _ Hc. simpl in Hc.
      by destruct (Hother _ _ Hd1 Hl1).
    + apply Huniq.
  - rewrite getUserActiveSession_eq.
    match goal with
    | |- context [querySessions ?q ?w0] =>
        destruct (querySessions q w0) as [|[i d] r] eqn:Hq
    end; [|by eexists].
    exfalso.
    match type of Hq with
    | querySessions _ ?w0 = _ =>
        assert (∃ d, (autoId, d) ∈ querySessions (activeSessionQuery host) w0)
          as [d Hin]
    end.
    { eexists. apply querySessions_elem. simpl.
      split; [apply lookup_insert_eq|].
      apply activeSessionQuery_true. simpl. split; [left|by left]. }
    rewrite Hq in Hin. by apply elem_of_nil in Hin.
Qed.

Lemma createSession_spec_witness :
  ∃ d, sessions (createSession "m1" 1000 "ana" [] 45 true marathon_start).2
         !! "m1" = Some d
       ∧ status d = pending ∧ participants d = ["ana"].
Proof.
  destruct (createSession_spec "m1" 1000 "ana" [] 45 true marathon_start "m1"
              (createSession "m1" 1000 "ana" [] 45 true marathon_start).2
              eq_refl)
    as (_ & (d & Hd & Hst & _ & Hps & _) & _).
  by exists d.
Defined.

(** X9. [createSession] fails only with the maximum-retries error of
    the code generator, exactly when the first ten draws are all
    reserved, and then it has written no document. *)
Theorem createSession_failure autoId now host ps dur mar w :
  (∀ e, (createSession autoId now host ps dur mar w).1 = inl e →
        e = ERR_MAX_RETRIES
        ∧ sessions (createSession autoId now host ps dur mar w).2 = sessions w
        ∧ users (createSession autoId now host ps dur mar w).2 = users w)
  ∧ ((∃ e, (createSession autoId now host ps dur mar w).1 = inl e) ↔
     ∀ j, (j < 10)%nat → reserved w (roomCodeOf (random w j))).
Proof.
  rewrite createSession_run. cbv zeta.
  destruct (generateRoomCode_run _ 10 0 w eq_refl) as (Hs & Hu & Hcases).
  destruct Hcases as [(k & Hk & Hr & Hfree & _)|(Hr & Hall & _)];
    rewrite Hr; simpl.
  - split; [done|]. split; [by intros [e ?]|].
    intros Hall. destruct Hfree. apply Hall. lia.
  - split; [by intros e [= <-]|]. split; [|by eexists].
    intros _ j Hj. apply Hall. lia.
Qed.
End Create.

(** ** Session history *)

Section History.
Implicit Types (w : World) (sid uid : string) (d : SessionData).

Lemma ts_leb_total a b : ts_leb a b = true ∨ ts_leb b a = true.
Proof. destruct a, b; simpl; auto. rewrite !Z.leb_le. lia. Qed.

Lemma ts_leb_trans a b c :
  ts_leb a b = true → ts_leb b c = true → ts_leb a c = true.
Proof. destruct a, b, c; simpl; auto; [|done]. rewrite !Z.leb_le. lia. Qed.

#[local] Instance createdAt_desc_total : Total createdAt_desc.
Proof. intros a b. unfold createdAt_desc. apply ts_leb_total. Qed.

#[local] Instance createdAt_desc_trans : Transitive createdAt_desc.
Proof. intros a b c Hab Hbc. eapply ts_leb_trans; [exact Hbc|exact Hab]. Qed.

Lemma getUserSessions_eq uid w :
  getUserSessions uid w =
  (inr ((λ kd, {| id := kd.1; data := kd.2 |})
          <$> merge_sort createdAt_desc
                (querySessions (λ d, bool_decide (uid ∈ participants d)) w)),
   w).
Proof. done. Qed.

Lemma getUserSessions_elem uid w s :
  s ∈ ((λ kd : string * SessionData, {| id := kd.1; data := kd.2 |})
         <$> merge_sort createdAt_desc
               (querySessions (λ d, bool_decide (uid ∈ participants d)) w))
  ↔ sessions w !! id s = Some (data s) ∧ uid ∈ participants (data s).
Proof.
  rewrite list_elem_of_fmap. split.
  - intros ([i d] & -> & Hin). rewrite merge_sort_Permutation in Hin.
    apply querySessions_elem in Hin as [Hd Hp].
    by apply bool_decide_eq_true in Hp.
  - intros [Hd Hp]. exists (id s, data s). split; [by destruct s|].
    rewrite merge_sort_Permutation. apply querySessions_elem.
    split; [done|]. by apply bool_decide_eq_true.
Qed.

Lemma querySessions_NoDup where_ w : NoDup (querySessions where_ w).*1.
Proof.
  unfold querySessions.
  eapply sublist_NoDup; [apply (NoDup_fst_map_to_list (sessions w))|].
  apply fmap_sublist, sublist_filter.
Qed.

(** X10. [getUserSessions] never throws and never writes.  It returns
    exactly the stored sessions in which the user participates, whatever
    their status, each once, ordered by [createdAt] from newest to
    oldest. *)
Theorem getUserSessions_spec uid w :
  ∃ l, getUserSessions uid w = (inr l, w)
       ∧ (∀ s, s ∈ l ↔ sessions w !! id s = Some (data s)
                        ∧ uid ∈ participants (data s))
       ∧ NoDup (id <$> l)
       ∧ StronglySorted newer_first l.
Proof.
  eexists. split; [apply getUserSessions_eq|]. split_and!.
  - apply getUserSessions_elem.
  - rewrite <-list_fmap_compose.
    change (id ∘ _) with (fst : string * SessionData → string).
    rewrite merge_sort_Permutation. apply querySessions_NoDup.
  - apply (StronglySorted_fmap _ createdAt_desc newer_first).
    + by intros [i1 d1] [i2 d2].
    + apply StronglySorted_merge_sort; apply _.
Qed.

Lemma deleteEach_run (l : list Session) w :
  (deleteEach l w).1 = inr ()
  ∧ users (deleteEach l w).2 = users w
  ∧ random (deleteEach l w).2 = random w
  ∧ ∀ sid, sessions (deleteEach l w).2 !! sid
           = if decide (sid ∈ id <$> l) then None else sessions w !! sid.
Proof.
  revert w. induction l as [|s l IH]; intros w.
  - split_and!; [done..|]. intros sid.
    case_decide as Hin; [by apply elem_of_nil in Hin|done].
  - simpl. unfold await, deleteDoc_session.
    destruct (IH (set_sessions (delete (id s)) w)) as (Hr & Hu & Hrnd & Hs).
    split_and!; [done..|]. intros sid. rewrite Hs. simpl.
    rewrite lookup_delete.
    destruct (decide (sid ∈ id <$> l)) as [Hin|Hnin].
    + by rewrite decide_True by (by right).
    + destruct (decide (id s = sid)) as [<-|Hne].
      * by rewrite decide_True by left.
      * rewrite decide_False; [done|].
        intros [->|Hin]%elem_of_cons; [by apply Hne|by apply Hnin].
Qed.

(** X11. [wipeUserHistory] deletes every session in which the user
    participates, including sessions hosted by others and sessions that
    are still pending or active, and leaves the other sessions alone.
    With a profile it then resets hours, violation seconds and completed
    sessions to 0, keeping name, email and sign-up time; without a
    profile it throws the store's [not-found] after the sessions are
    already gone. *)
Theorem wipeUserHistory_spec uid w :
  (∀ sid, sessions (wipeUserHistory uid w).2 !! sid
          = d ← sessions w !! sid;
            if decide (uid ∈ participants d) then None else Some d)
  ∧ (∀ u, users w !! uid = Some u →
       (wipeUserHistory uid w).1 = inr ()
       ∧ users (wipeUserHistory uid w).2 = <[uid := reset_stats u]> (users w))
  ∧ (users w !! uid = None →
       (wipeUserHistory uid w).1 = inl (FirestoreError "not-found")
       ∧ users (wipeUserHistory uid w).2 = users w).
Proof.
  unfold wipeUserHistory, await. rewrite getUserSessions_eq.
  set (l := (λ kd : string * SessionData, {| id := kd.1; data := kd.2 |})
              <$> merge_sort createdAt_desc _).
  destruct (deleteEach_run l w) as (Hr & Hu & _ & Hs).
  destruct (deleteEach l w) as [[e|[]] w1] eqn:Hdel; [done|]. simpl in *.
  assert (∀ sid, sessions w1 !! sid
                 = d ← sessions w !! sid;
                   if decide (uid ∈ participants d) then None else Some d)
    as Hsess.
  { intros sid. rewrite Hs.
    destruct (sessions w !! sid) as [d|] eqn:Hd; simpl.
    - destruct (decide (uid ∈ participants d)) as [Hp|Hp].
      + rewrite decide_True; [done|]. apply list_elem_of_fmap.
        exists {| id := sid; data := d |}. split; [done|].
        by apply getUserSessions_elem.
      + rewrite decide_False; [done|].
        intros (s & -> & [Hd' Hp']%getUserSessions_elem)%list_elem_of_fmap.
        congruence.
    - by case_decide. }
  unfold updateDoc_user. rewrite Hu.
  split_and!.
  - intros sid. by destruct (users w !! uid).
  - intros u ->. simpl. by rewrite Hu.
  - by intros ->.
Qed.

(** One session of ana and ben, one of ben alone: wiping ben's history
    removes both, and ben has no profile to reset. *)
Example wipeUserHistory_shared :
  let w := {| sessions := {[ "s1" := demo_session;
                             "s2" := set_participants ["ben"] lobby_session;
                             "s3" := set_participants ["ana"] lobby_session ]};
              users := {[ "ana" := ana_profile ]};
              random := λ _, 0%Q |} in
  dom (sessions (wipeUserHistory "ben" w).2) = {[ "s3" ]}
  ∧ (wipeUserHistory "ben" w).1 = inl (FirestoreError "not-found")
  ∧ dom (sessions (wipeUserHistory "ana" w).2) = {[ "s2" ]}
  ∧ (λ u, (UserProfile.violations u, UserProfile.sessionsCompleted u))
      <$> users (wipeUserHistory "ana" w).2 !! "ana" = Some (0, 0).
Proof. by vm_compute. Qed.
End History.

(** ** Profiles *)

Section Profiles.
Implicit Types (w : World) (uid : string) (sd : Session) (u : UserProfile.t).

Lemma strOr_nonempty a b : b ≠ "" → strOr a b ≠ "".
Proof. by destruct a as [[|c s]|]. Qed.

Lemma strOr_cases a b : strOr a b = b ∨ (a = Some (strOr a b) ∧ strOr a b ≠ "").
Proof. destruct a as [[|c s]|]; simpl; auto. Qed.

(** X12. [signInWithGoogle] rethrows a failed sign-in without touching
    the store, and leaves the profile of a returning user exactly as it
    is.  For a user without a profile it creates one with zero hours,
    violations and completed sessions, whose username is never empty: the
    display name, else the part of the email before ["@"], else "User". *)
Theorem signInWithGoogle_profile signedIn now w :
  (∀ e, signedIn = inl e → signInWithGoogle signedIn now w = (inl e, w))
  ∧ (∀ user u, signedIn = inr user → users w !! auth_uid user = Some u →
       signInWithGoogle signedIn now w = (inr user, w))
  ∧ (∀ user, signedIn = inr user → users w !! auth_uid user = None →
       ∃ u, signInWithGoogle signedIn now w
            = (inr user, set_users (insert (auth_uid user) u) w)
            ∧ UserProfile.username u ≠ ""
            ∧ (displayName user = Some (UserProfile.username u)
               ∨ (strOr (displayName user) "" = ""
                  ∧ beforeAt <$> auth_email user
                    = Some (UserProfile.username u))
               ∨ (strOr (displayName user) "" = ""
                  ∧ strOr (beforeAt <$> auth_email user) "" = ""
                  ∧ UserProfile.username u = "User"))
            ∧ UserProfile.totalHours u = Q2Qc 0
            ∧ UserProfile.violations u = 0
            ∧ UserProfile.sessionsCompleted u = 0).
Proof.
  split_and!.
  - by intros e ->.
  - intros user u -> Hu. unfold signInWithGoogle, await, getDoc_user.
    by rewrite Hu.
  - intros user -> Hu. unfold signInWithGoogle, await, getDoc_user.
    rewrite Hu. eexists. split; [done|]. simpl.
    split; [by repeat apply strOr_nonempty|].
    split; [|done]. unfold googleUsername.
    destruct (displayName user) as [[|c s]|]; simpl; [|by left|];
      (destruct (beforeAt <$> auth_email user) as [[|c' s']|]; simpl;
       [by right; right|by right; left|by right; right]).
Qed.

(** Names chosen for three Google accounts. *)
Example googleUsername_fallbacks :
  googleUsername {| auth_uid := "u1"; displayName := Some "Ana B";
                    auth_email := Some "ana@example.org" |} = "Ana B"
  ∧ googleUsername {| auth_uid := "u2"; displayName := Some "";
                      auth_email := Some "ben.k@example.org" |} = "ben.k"
  ∧ googleUsername {| auth_uid := "u3"; displayName := None;
                      auth_email := Some "@example.org" |} = "User".
Proof. done. Qed.

Lemma updateUserStats_effect uid sd w :
  updateUserStats uid sd w =
  match sessions w !! id sd, users w !! uid with
  | Some cur, Some u =>
      if decide (uid ∈ orNil (statsUpdatedFor cur)) then (inr (), w)
      else (inr (),
            set_sessions
              (insert (id sd)
                 (set_statsUpdatedFor
                    (orNil (statsUpdatedFor cur) ++ [uid]) cur))
              (set_users (insert uid (creditedProfile sd uid u)) w))
  | _, _ => (inr (), w)
  end.
Proof.
  destruct (sessions w !! id sd) as [cur|] eqn:Hcur;
    [|by apply updateUserStats_missing].
  destruct (users w !! uid) as [u|] eqn:Hu;
    [|by apply updateUserStats_no_profile].
  case_decide as Hin; [by eapply updateUserStats_skip|].
  by apply updateUserStats_run.
Qed.

(** X13. Reconciling two different users against the same session
    gives the same profiles in either order; only the order of the two
    names in [statsUpdatedFor] can differ. *)
Theorem updateUserStats_commute uid1 uid2 sd w :
  uid1 ≠ uid2 →
  users (updateUserStats uid2 sd (updateUserStats uid1 sd w).2).2
  = users (updateUserStats uid1 sd (updateUserStats uid2 sd w).2).2
  ∧ ∀ sid d12 d21,
      sessions (updateUserStats uid2 sd (updateUserStats uid1 sd w).2).2 !! sid
      = Some d12 →
      sessions (updateUserStats uid1 sd (updateUserStats uid2 sd w).2).2 !! sid
      = Some d21 →
      orNil (statsUpdatedFor d12) ≡ₚ orNil (statsUpdatedFor d21)
      ∧ set_statsUpdatedFor [] d12 = set_statsUpdatedFor [] d21.
Proof.
  intros Hne.
  rewrite (updateUserStats_effect uid1 sd w),
          (updateUserStats_effect uid2 sd w).
  destruct (sessions w !! id sd) as [cur|] eqn:Hcur.
  2: { simpl. rewrite !updateUserStats_effect, Hcur. simpl.
       split; [done|]. intros sid d12 d21 H1 H2.
       rewrite H1 in H2. by injection H2 as ->. }
  assert (∀ (a b : string) l, a ≠ b → a ∈ l ++ [b] ↔ a ∈ l) as Happ.
  { intros a b l Hab. rewrite elem_of_app, list_elem_of_singleton. tauto. }
  assert (∀ sid (d12 d21 : SessionData),
            sessions w !! sid = Some d12 → sessions w !! sid = Some d21 →
            orNil (statsUpdatedFor d12) ≡ₚ orNil (statsUpdatedFor d21)
            ∧ set_statsUpdatedFor [] d12 = set_statsUpdatedFor [] d21) as Hsame.
  { intros sid d12 d21 H1 H2. rewrite H1 in H2. by injection H2 as ->. }
  destruct (users w !! uid1) as [u1|] eqn:Hu1,
           (users w !! uid2) as [u2|] eqn:Hu2;
    repeat case_decide; simpl;
    rewrite !updateUserStats_effect; simpl.
  all: rewrite ?lookup_insert_eq, ?Hcur, ?Hu1, ?Hu2.
  all: try rewrite !lookup_insert_ne by done.
  all: rewrite ?Hcur, ?Hu1, ?Hu2; simpl.
  all: repeat case_decide; simpl.
  all: try (exfalso; rewrite ?Happ in * by done; done).
  all: split; [first [done | by apply insert_insert_ne]|].
  all: try done.
  all: intros sid d12 d21; rewrite ?lookup_insert; repeat case_decide.
  all: try apply Hsame.
  all: intros [= <-] [= <-]; simpl; split; try done.
  all: rewrite <-!(assoc_L (++)); apply Permutation_app_head, Permutation_swap.
Qed.

Lemma updateUserStats_commute_witness :
  users (updateUserStats "ben" stats_session
           (updateUserStats "ana" stats_session stats_world).2).2
  = users (updateUserStats "ana" stats_session
             (updateUserStats "ben" stats_session stats_world).2).2.
Proof.
  apply (updateUserStats_commute "ana" "ben" stats_session stats_world).
  discriminate.
Defined.

Lemma loadSession_eq sid uid w :
  sid ≠ "" →
  (loadSession (Some sid) (Some uid) w).2
  = match sessions w !! sid with
    | Some d => (updateUserStats uid {| id := sid; data := d |} w).2
    | None => w
    end.
Proof.
  intros Hne. unfold loadSession. destruct sid as [|c sid']; [done|].
  by destruct (sessions w !! _).
Qed.

(** X14. Opening the result screen reconciles the signed-in user
    against the session as the store holds it, and opening it again, any
    number of times, changes nothing more: hours, violation seconds and
    completed sessions are credited once. *)
Theorem loadSession_once sid uid w (n : nat) :
  Nat.iter n (λ w', (loadSession (Some sid) (Some uid) w').2)
    (loadSession (Some sid) (Some uid) w).2
  = (loadSession (Some sid) (Some uid) w).2
  ∧ (∀ d u, sid ≠ "" → sessions w !! sid = Some d →
       uid ∉ orNil (statsUpdatedFor d) → users w !! uid = Some u →
       users (loadSession (Some sid) (Some uid) w).2 !! uid
       = Some (creditedProfile {| id := sid; data := d |} uid u)
       ∧ ∃ d', sessions (loadSession (Some sid) (Some uid) w).2 !! sid
               = Some d'
               ∧ uid ∈ orNil (statsUpdatedFor d')).
Proof.
  split.
  - assert ((loadSession (Some sid) (Some uid)
               (loadSession (Some sid) (Some uid) w).2).2
            = (loadSession (Some sid) (Some uid) w).2) as Hfix.
    { destruct (decide (sid = "")) as [->|Hne]; [done|].
      rewrite (loadSession_eq sid uid w) by done.
      destruct (sessions w !! sid) as [d|] eqn:Hd.
      2: { rewrite loadSession_eq by done. by rewrite Hd. }
      rewrite loadSession_eq by done.
      rewrite (updateUserStats_effect uid _ w). simpl. rewrite Hd.
      destruct (users w !! uid) as [u|] eqn:Hu.
      2: { simpl. rewrite Hd, updateUserStats_effect. simpl.
           by rewrite Hd, Hu. }
      case_decide as Hin.
      - simpl. rewrite Hd, updateUserStats_effect. simpl.
        by rewrite Hd, Hu, decide_True.
      - simpl. rewrite lookup_insert_eq, updateUserStats_effect. simpl.
        rewrite !lookup_insert_eq. rewrite decide_True; [done|].
        simpl. apply elem_of_app. right. constructor. }
    induction n as [|n IH]; [done|]. by rewrite Nat.iter_succ, IH, Hfix.
  - intros d u Hne Hd Hnin Hu. rewrite loadSession_eq, Hd by done.
    rewrite updateUserStats_effect. simpl. rewrite Hd, Hu, decide_False by done.
    simpl. rewrite !lookup_insert_eq. split; [done|].
    eexists. split; [done|]. simpl. apply elem_of_app. right. constructor.
Qed.
End Profiles.

(** ** Auto-complete and the manual end *)

Section AutoComplete.
Implicit Types (w : World) (st : ScreenState) (s : Session) (sid : string).

Lemma truthy_false b : b ≠ Some true → truthy b = false.
Proof. by destruct b as [[]|]. Qed.

Lemma endSession_None now sid o r w :
  sessions w !! sid = None →
  endSession now sid o r w = (inl (FirestoreError "not-found"), w).
Proof. apply updateDoc_session_None. Qed.

Lemma endCall_None now sid dlg w :
  sessions w !! sid = None →
  endCall now sid dlg w = (inl (FirestoreError "not-found"), w).
Proof.
  intros Hnone. unfold endCall.
  repeat case_match; by apply endSession_None.
Qed.

(** X15. Once a timed, active session has reached its duration, the
    automatic completion and the host's confirmed "End Session" do the
    same thing: the same outcome and reason are written and the screen is
    left in the same state, whatever the store holds. *)
Theorem autoComplete_endVoluntarily now st w s sid :
  session st = Some s → sessionId st = Some sid → sid ≠ "" →
  isMarathon (data s) ≠ Some true →
  status (data s) = active →
  duration (data s) * 60 ≤ timer st →
  autoComplete now st w = endVoluntarily now st w.
Proof.
  intros Hs Hsid Hne Hm Hact Hreach.
  unfold autoComplete, endVoluntarily, handleEndSession, onPressEndSession,
    endCall.
  rewrite Hs, Hsid. destruct sid as [|c sid']; [done|].
  destruct (hasAutoCompleted st || isCompleting st) eqn:Hlatch; [done|].
  simpl. rewrite or0_id, (truthy_false _ Hm). simpl.
  rewrite (proj2 (Z.leb_le _ _) Hreach), bool_decide_eq_true_2 by done.
  simpl. by destruct (isSessionSuccessful _ _).
Qed.

Lemma autoComplete_endVoluntarily_witness :
  autoComplete 2560 done_screen demo_world
  = endVoluntarily 2560 done_screen demo_world.
Proof.
  apply (autoComplete_endVoluntarily 2560 done_screen demo_world
           {| id := "s1"; data := demo_session |} "s1");
    [reflexivity | reflexivity | discriminate | discriminate | reflexivity
    | simpl; lia].
Defined.

(** X16. The automatic completion writes nothing and leaves the screen
    as it is unless no latch is set, the session on screen is a timed one
    with status [active], and the elapsed seconds have reached
    [duration * 60]: it never ends a marathon session, never fires early
    and never fires for a session that is not active. *)
Theorem autoComplete_fires_only now st w :
  autoComplete now st w = (st, w)
  ∨ ∃ s sid,
      session st = Some s ∧ sessionId st = Some sid ∧ sid ≠ ""
      ∧ hasAutoCompleted st = false ∧ isCompleting st = false
      ∧ isMarathon (data s) ≠ Some true
      ∧ status (data s) = active
      ∧ duration (data s) * 60 ≤ timer st.
Proof.
  unfold autoComplete.
  destruct (session st) as [s|] eqn:Hs; [|by left].
  destruct (sessionId st) as [[|c sid']|] eqn:Hsid; [by left| |by left].
  destruct (hasAutoCompleted st) eqn:Ha; [by left|].
  destruct (isCompleting st) eqn:Hc; [by left|]. simpl.
  destruct (isMarathon (data s)) as [[]|] eqn:Hm; simpl; [by left|..].
  all: destruct (Z.leb_spec (duration (data s) * 60) (timer st));
    simpl; [|by left].
  all: case_bool_decide as Hact; simpl; [|by left].
  all: right; exists s, (String c sid'); split_and!; try done.
  all: by rewrite Hm.
Qed.

(** X17. A session is ended once.  After the host's confirmed end has
    written the outcome, neither a second press nor the automatic
    completion writes again, whatever the timer and the session on screen
    have become: outcome, reason and end time of the first end stay.  When
    the write fails because the document is gone, both latches are reset
    and the store is unchanged, so the end can be retried. *)
Theorem session_ended_once now1 now2 st st2 w sid s :
  hasAutoCompleted st = false → isCompleting st = false →
  sessionId st = Some sid → sid ≠ "" → session st = Some s →
  hasAutoCompleted st2 = hasAutoCompleted (endVoluntarily now1 st w).1 →
  isCompleting st2 = isCompleting (endVoluntarily now1 st w).1 →
  (∀ d, sessions w !! sid = Some d →
     endVoluntarily now2 st2 (endVoluntarily now1 st w).2
     = (st2, (endVoluntarily now1 st w).2)
     ∧ autoComplete now2 st2 (endVoluntarily now1 st w).2
       = (st2, (endVoluntarily now1 st w).2)
     ∧ endTime <$> sessions (endVoluntarily now1 st w).2 !! sid
       = Some (Some now1))
  ∧ (sessions w !! sid = None →
     endVoluntarily now1 st w = (set_latches false st, w)).
Proof.
  intros Hauto Hcompl Hsid Hne Hs Ha2 Hc2. split.
  - intros d Hd. rewrite (endVoluntarily_run now1 st w sid s d) in * by done.
    simpl in *. split_and!.
    + unfold endVoluntarily, handleEndSession. by rewrite Ha2.
    + unfold autoComplete. rewrite Ha2.
      by destruct (session st2), (sessionId st2) as [[|]|].
    + by rewrite lookup_insert_eq.
  - intros Hnone.
    unfold endVoluntarily, handleEndSession, onPressEndSession.
    rewrite Hauto, Hcompl, Hsid. simpl.
    destruct sid as [|c sid']; [done|].
    by rewrite endCall_None.
Qed.

Lemma session_ended_once_witness :
  endVoluntarily 3000 (set_timer 1500 (set_latches true demo_screen))
    (endVoluntarily 2000 demo_screen demo_world).2
  = (set_timer 1500 (set_latches true demo_screen),
     (endVoluntarily 2000 demo_screen demo_world).2).
Proof.
  destruct (session_ended_once 2000 3000 demo_screen
              (set_timer 1500 (set_latches true demo_screen)) demo_world "s1"
              {| id := "s1"; data := demo_session |})
    as [Hdone _];
    [reflexivity | reflexivity | reflexivity | discriminate | reflexivity
    | reflexivity | reflexivity |].
  destruct (Hdone demo_session) as (Hend & _); [reflexivity|exact Hend].
Defined.
End AutoComplete.

(** ** Absences *)

Section Presence.
Implicit Types (w : World) (st : ScreenState) (p : Presence)
  (s : Session) (sid uid : string) (d : SessionData).

Lemma terminateSession_Some now sid reason w d :
  sessions w !! sid = Some d →
  terminateSession now sid reason w =
  (inr (), set_sessions (insert sid (set_ended now failed (Some reason) d)) w).
Proof. apply updateDoc_session_Some. Qed.

Lemma reportAbsence_run serverNow iso sid uid secs w d :
  sessions w !! sid = Some d →
  reportAbsence serverNow iso sid uid secs w =
  let d1 :=
    set_violations
      (arrayUnion {| userId := uid; timestamp := iso; type_ := "app-switch";
                     durationSeconds := secs;
                     category := getViolationCategory secs |}
                  (violations d)) d in
  if bool_decide (300 ≤ secs) then
    set_sessions
      (insert sid
         (set_ended serverNow failed
            (Some ("Catastrophic violation by user ("
                   +:+ pretty (secs / 60) +:+ " minutes away)")) d1)) w
  else set_sessions (insert sid d1) w.
Proof.
  intros Hd. unfold reportAbsence.
  rewrite (addViolation_run _ _ _ _ _ _ _ Hd), catastrophic_iff. cbv zeta.
  case_bool_decide; [|done].
  erewrite terminateSession_Some by (simpl; apply lookup_insert_eq).
  simpl. by rewrite set_sessions_insert_insert.
Qed.

Lemma handleAppStateChange_back dateNow serverNow iso uid p st w t s sid :
  appState p = app_background ∨ appState p = app_inactive →
  backgroundTime p = Some t → t ≠ 0 →
  session st = Some s → status (data s) = active →
  sessionId st = Some sid → sid ≠ "" →
  (handleAppStateChange dateNow serverNow iso (Some uid) app_active p st w).2
  = if 5 <=? (dateNow - t) / 1000 then
      reportAbsence serverNow iso sid uid ((dateNow - t) / 1000) w
    else w.
Proof.
  intros Hp Ht Hne Hs Hact Hsid Hsne.
  unfold handleAppStateChange. rewrite Ht, Hs, Hsid.
  destruct sid as [|c sid']; [done|].
  destruct Hp as [-> | ->]; simpl; rewrite Hact; by destruct t.
Qed.

(** X18. A change of app state writes to the store only when the app
    comes back to the foreground from the background or from being
    inactive, a departure time was recorded at least 5 whole seconds
    before, the session on screen is active and a user is signed in; a
    shorter absence is not a violation. *)
Theorem handleAppStateChange_writes_only dateNow serverNow iso currentUser
    nextAppState p st w :
  (handleAppStateChange dateNow serverNow iso currentUser nextAppState
     p st w).2 = w
  ∨ ((appState p = app_background ∨ appState p = app_inactive)
     ∧ nextAppState = app_active
     ∧ (∃ t, backgroundTime p = Some t ∧ 5 ≤ (dateNow - t) / 1000)
     ∧ (∃ s, session st = Some s ∧ status (data s) = active)
     ∧ currentUser ≠ None).
Proof.
  unfold handleAppStateChange.
  destruct (decide (nextAppState = app_active)) as [->|Hnext].
  2: { left. rewrite (bool_decide_eq_false_2 (nextAppState = app_active))
         by done. by rewrite andb_false_r. }
  destruct (decide (appState p = app_background ∨ appState p = app_inactive))
    as [Hp|Hp].
  2: { left. destruct (appState p); try done; destruct Hp; auto. }
  assert (bool_decide (appState p = app_active) = false) as ->.
  { apply bool_decide_eq_false_2. destruct Hp as [-> | ->]; done. }
  assert ((bool_decide (appState p = app_background)
           || bool_decide (appState p = app_inactive)) = true) as ->.
  { destruct Hp as [-> | ->]; done. }
  simpl.
  destruct (backgroundTime p) as [t|]; [|by left].
  destruct currentUser as [uid|]; [|by left].
  destruct (sessionId st) as [[|c sid']|]; [by left| |by left].
  destruct (negb (t =? 0)); [|by left]. simpl.
  case_bool_decide as Hact; [|by left].
  destruct (Z.leb_spec 5 ((dateNow - t) / 1000)); [|by left].
  right. split_and!; [done..|by eexists| |done].
  destruct (session st) as [s|]; [|done]. exists s. split; [done|].
  simpl in Hact. congruence.
Qed.

(** X19. When a signed-in participant returns after 300 seconds or
    more, the absence is recorded as a catastrophic violation and the
    session is terminated at once: status [ended], outcome [failed], and
    a reason that names the whole minutes away, at least 5.  The departure
    time is cleared. *)
Theorem catastrophic_absence_terminates dateNow serverNow iso uid p st w
    t s sid d :
  appState p = app_background ∨ appState p = app_inactive →
  backgroundTime p = Some t → t ≠ 0 →
  session st = Some s → status (data s) = active →
  sessionId st = Some sid → sid ≠ "" →
  sessions w !! sid = Some d →
  300 ≤ (dateNow - t) / 1000 →
  ∃ d',
    sessions (handleAppStateChange dateNow serverNow iso (Some uid)
                app_active p st w).2 !! sid = Some d'
    ∧ status d' = ended ∧ outcome d' = Some failed
    ∧ endTime d' = Some serverNow
    ∧ failReason d'
      = Some ("Catastrophic violation by user ("
              +:+ pretty ((dateNow - t) / 1000 / 60) +:+ " minutes away)")
    ∧ 5 ≤ (dateNow - t) / 1000 / 60
    ∧ {| userId := uid; timestamp := iso; type_ := "app-switch";
         durationSeconds := (dateNow - t) / 1000;
         category := catastrophic |} ∈ violations d'
    ∧ (handleAppStateChange dateNow serverNow iso (Some uid)
         app_active p st w).1.1
      = {| appState := app_active; backgroundTime := None |}.
Proof.
  intros Hp Ht Hne Hs Hact Hsid Hsne Hd Hlong.
  rewrite (handleAppStateChange_back _ _ _ _ _ _ _ t s sid) by done.
  rewrite (proj2 (Z.leb_le 5 _)) by lia.
  rewrite (reportAbsence_run _ _ _ _ _ _ _ Hd). cbv zeta.
  rewrite bool_decide_eq_true_2 by done.
  eexists. simpl. rewrite lookup_insert_eq. split; [done|]. simpl.
  split_and!; try done.
  - apply Z.div_le_lower_bound; lia.
  - assert (getViolationCategory ((dateNow - t) / 1000) = catastrophic) as <-.
    { by apply getViolationCategory_catastrophic. }
    apply elem_of_arrayUnion.
  - unfold handleAppStateChange. by destruct Hp as [-> | ->].
Qed.

Lemma catastrophic_absence_terminates_witness :
  ∃ d',
    sessions (handleAppStateChange 1310000 2370 "2024-01-01T10:21:50.000Z"
                (Some "ben") app_active away_since done_screen demo_world).2
      !! "s1" = Some d'
    ∧ status d' = ended ∧ outcome d' = Some failed.
Proof.
  destruct (catastrophic_absence_terminates 1310000 2370
              "2024-01-01T10:21:50.000Z" "ben" away_since done_screen
              demo_world 1000000 {| id := "s1"; data := demo_session |}
              "s1" demo_session)
    as (d' & Hd' & Hst & Hout & _);
    [by left | reflexivity | discriminate | reflexivity | reflexivity
    | reflexivity | discriminate | reflexivity | by vm_compute |].
  by exists d'.
Defined.

(** X20. When a signed-in participant returns after at least 5 and
    fewer than 300 seconds, exactly the violation is added to the session
    (with its category) and the session is not ended: every other field
    of the document stays. *)
Theorem absence_recorded dateNow serverNow iso uid p st w t s sid d :
  appState p = app_background ∨ appState p = app_inactive →
  backgroundTime p = Some t → t ≠ 0 →
  session st = Some s → status (data s) = active →
  sessionId st = Some sid → sid ≠ "" →
  sessions w !! sid = Some d →
  5 ≤ (dateNow - t) / 1000 < 300 →
  (handleAppStateChange dateNow serverNow iso (Some uid)
     app_active p st w).2
  = set_sessions
      (insert sid
         (set_violations
            (arrayUnion
               {| userId := uid; timestamp := iso; type_ := "app-switch";
                  durationSeconds := (dateNow - t) / 1000;
                  category := getViolationCategory ((dateNow - t) / 1000) |}
               (violations d)) d)) w
  ∧ getViolationCategory ((dateNow - t) / 1000) ≠ catastrophic.
Proof.
  intros Hp Ht Hne Hs Hact Hsid Hsne Hd Hsecs.
  rewrite (handleAppStateChange_back _ _ _ _ _ _ _ t s sid) by done.
  rewrite (proj2 (Z.leb_le 5 _)) by lia.
  rewrite (reportAbsence_run _ _ _ _ _ _ _ Hd). cbv zeta.
  rewrite bool_decide_eq_false_2 by lia. split; [done|].
  intros Hcat%getViolationCategory_catastrophic. lia.
Qed.

Lemma absence_recorded_witness :
  violations
    <$> sessions (handleAppStateChange 1040000 2100 "2024-01-01T10:17:20.000Z"
                    (Some "ben") app_active away_since done_screen
                    demo_world).2 !! "s1"
  = Some [{| userId := "ben"; timestamp := "2024-01-01T10:17:20.000Z";
             type_ := "app-switch"; durationSeconds := 40;
             category := medium |}].
Proof.
  destruct (absence_recorded 1040000 2100 "2024-01-01T10:17:20.000Z" "ben"
              away_since done_screen demo_world 1000000
              {| id := "s1"; data := demo_session |} "s1" demo_session)
    as [Hw _];
    [by left | reflexivity | discriminate | reflexivity | reflexivity
    | reflexivity | discriminate | reflexivity | by vm_compute |].
  rewrite Hw. reflexivity.
Defined.

(** X21. The absence is measured from the first event that took the
    app out of the foreground.  When the app goes inactive, then to the
    background, then comes back, neither of the first two events writes
    anything, and the return reports the seconds since the first of them
    (if they are 5 or more). *)
Theorem absence_since_first_departure t1 t2 t3 serverNow iso uid p st w s sid :
  appState p = app_active → t1 ≠ 0 →
  session st = Some s → status (data s) = active →
  sessionId st = Some sid → sid ≠ "" →
  let r1 := handleAppStateChange t1 serverNow iso (Some uid) app_inactive
              p st w in
  let r2 := handleAppStateChange t2 serverNow iso (Some uid) app_background
              r1.1.1 r1.1.2 r1.2 in
  let r3 := handleAppStateChange t3 serverNow iso (Some uid) app_active
              r2.1.1 r2.1.2 r2.2 in
  r2 = ({| appState := app_background; backgroundTime := Some t1 |}, st, w)
  ∧ r3.2 = (if 5 <=? (t3 - t1) / 1000 then
              reportAbsence serverNow iso sid uid ((t3 - t1) / 1000) w
            else w)
  ∧ r3.1.1 = {| appState := app_active; backgroundTime := None |}.
Proof.
  intros Hp Ht1 Hs Hact Hsid Hne r1 r2 r3.
  assert (r2 = ({| appState := app_background; backgroundTime := Some t1 |},
                st, w)) as Hr2.
  { subst r1 r2. unfold handleAppStateChange. by rewrite Hp. }
  split; [done|]. subst r3. rewrite Hr2. split.
  - apply (handleAppStateChange_back t3 serverNow iso uid
             {| appState := app_background; backgroundTime := Some t1 |}
             st w t1 s sid); auto.
  - reflexivity.
Qed.

Lemma absence_since_first_departure_witness :
  (handleAppStateChange 1040000 2100 "2024-01-01T10:17:20.000Z" (Some "ben")
     app_active
     {| appState := app_background; backgroundTime := Some 1000000 |}
     done_screen demo_world).2
  = reportAbsence 2100 "2024-01-01T10:17:20.000Z" "s1" "ben" 40 demo_world.
Proof.
  destruct (absence_since_first_departure 1000000 1000400 1040000 2100
              "2024-01-01T10:17:20.000Z" "ben"
              {| appState := app_active; backgroundTime := None |}
              done_screen demo_world
              {| id := "s1"; data := demo_session |} "s1")
    as (Hr2 & Hr3 & _);
    [reflexivity | discriminate | reflexivity | reflexivity | reflexivity
    | discriminate |].
  rewrite Hr2 in Hr3. exact Hr3.
Defined.
End Presence.

(** ** Two long absences *)

Section Cumulative.
Implicit Types (w : World) (st : ScreenState) (sid uid : string)
  (d : SessionData).

(** X22. Two absences of one participant, each under 300 seconds but
    300 or more together, do not terminate the session when they are
    reported: it stays [active].  But the verdict is then a failure, and
    when the duration is reached the automatic completion ends the session
    as [failed] with reason "Total violations exceeded 5 minute limit". *)
Theorem cumulative_absences_fail now now1 now2 iso1 iso2 sid uid w d a b :
  sessions w !! sid = Some d →
  status d = active → isMarathon d ≠ Some true → uid ∈ participants d →
  Forall (λ v, 0 ≤ durationSeconds v
               ∧ timestamp v ≠ iso1 ∧ timestamp v ≠ iso2) (violations d) →
  iso1 ≠ iso2 →
  5 ≤ a < 300 → 5 ≤ b < 300 → 300 ≤ a + b →
  ∃ d2,
    sessions (reportAbsence now2 iso2 sid uid b
                (reportAbsence now1 iso1 sid uid a w)) !! sid = Some d2
    ∧ status d2 = active ∧ outcome d2 = outcome d
    ∧ length (violations d2) = S (S (length (violations d)))
    ∧ isSessionSuccessful (violations d2) (participants d2) = false
    ∧ ∀ st, hasAutoCompleted st = false → isCompleting st = false →
            sessionId st = Some sid → sid ≠ "" →
            session st = Some {| id := sid; data := d2 |} →
            duration d2 * 60 ≤ timer st →
            sessions (autoComplete now st
                        (reportAbsence now2 iso2 sid uid b
                           (reportAbsence now1 iso1 sid uid a w))).2 !! sid
            = Some (set_ended now failed
                      (Some "Total violations exceeded 5 minute limit") d2).
Proof.
  intros Hd Hact Hm Hp Hold Hiso Ha Hb Hab.
  set (v1 := {| userId := uid; timestamp := iso1; type_ := "app-switch";
                durationSeconds := a; category := getViolationCategory a |}).
  set (v2 := {| userId := uid; timestamp := iso2; type_ := "app-switch";
                durationSeconds := b; category := getViolationCategory b |}).
  assert (v1 ∉ violations d) as Hv1.
  { intros Hin. rewrite Forall_forall in Hold.
    destruct (Hold _ Hin) as (_ & Hne & _). by apply Hne. }
  assert (v2 ∉ violations d ++ [v1]) as Hv2.
  { intros [Hin|Hin%list_elem_of_singleton]%elem_of_app.
    - rewrite Forall_forall in Hold.
      destruct (Hold _ Hin) as (_ & _ & Hne). by apply Hne.
    - by injection Hin. }
  rewrite (reportAbsence_run _ _ _ _ _ _ _ Hd). cbv zeta.
  rewrite bool_decide_eq_false_2 by lia.
  erewrite reportAbsence_run by (simpl; apply lookup_insert_eq). cbv zeta.
  rewrite bool_decide_eq_false_2 by lia.
  rewrite set_sessions_insert_insert. simpl.
  fold v1 v2. rewrite (arrayUnion_new v1), (arrayUnion_new v2) by done.
  assert (isSessionSuccessful ((violations d ++ [v1]) ++ [v2]) (participants d)
          = false) as Hfail.
  { apply not_true_is_false.
    rewrite isSessionSuccessful_Forall, Forall_forall. intros Hall.
    specialize (Hall uid Hp).
    rewrite !getUserTotalViolationTime_app, !getUserTotalViolationTime_cons,
      getUserTotalViolationTime_nil in Hall.
    simpl in Hall. rewrite !decide_True in Hall by done.
    assert (0 ≤ getUserTotalViolationTime (violations d) uid).
    { apply getUserTotalViolationTime_nonneg.
      eapply Forall_impl; [exact Hold|]. by intros v (? & _). }
    lia. }
  eexists. split; [apply lookup_insert_eq|]. simpl.
  split_and!; [done|done| |done|].
  - rewrite !length_app. simpl. lia.
  - intros st Hauto Hcompl Hsid Hne Hs Hreach.
    unfold autoComplete. rewrite Hs, Hsid, Hauto, Hcompl. simpl.
    destruct sid as [|c sid']; [done|].
    rewrite (truthy_false _ Hm). simpl in Hreach.
    rewrite (proj2 (Z.leb_le _ _) Hreach), bool_decide_eq_true_2 by done.
    simpl. rewrite Hfail.
    erewrite endSession_Some by (simpl; apply lookup_insert_eq).
    simpl. by rewrite lookup_insert_eq.
Qed.

Lemma cumulative_absences_fail_witness :
  ∃ d2,
    sessions (reportAbsence 2200 "2024-01-01T10:14:00.000Z" "s1" "ben" 150
                (reportAbsence 2000 "2024-01-01T10:08:00.000Z" "s1" "ben" 200
                   demo_world)) !! "s1" = Some d2
    ∧ status d2 = active
    ∧ isSessionSuccessful (violations d2) (participants d2) = false.
Proof.
  destruct (cumulative_absences_fail 2560 2000 2200
              "2024-01-01T10:08:00.000Z" "2024-01-01T10:14:00.000Z"
              "s1" "ben" demo_world demo_session 200 150)
    as (d2 & Hd2 & Hst & _ & _ & Hfail & _);
    [reflexivity | reflexivity | discriminate
    | simpl; rewrite !elem_of_cons; auto | constructor | discriminate
    | lia | lia | lia |].
  by exists d2.
Defined.
End Cumulative.

(** ** Entering a room code *)

Section RoomCodeInput.
Implicit Types (s text code : string) (n : nat).

Lemma removeNonDigits_allDigits s : allDigits (removeNonDigits s) = true.
Proof.
  induction s as [|c s IH]; [done|]. simpl.
  destruct (isDigit c) eqn:Hc; [|done]. simpl. by rewrite Hc.
Qed.

Lemma removeNonDigits_id s : allDigits s = true → removeNonDigits s = s.
Proof.
  induction s as [|c s IH]; [done|]. simpl.
  intros [-> Hs]%andb_true_iff. by rewrite IH.
Qed.

Lemma sliceTo_allDigits n s : allDigits s = true → allDigits (sliceTo n s) = true.
Proof.
  revert s. induction n as [|n IH]; intros [|c s]; simpl; try done.
  intros [-> Hs]%andb_true_iff. by apply IH.
Qed.

Lemma sliceTo_length n s : (String.length (sliceTo n s) ≤ n)%nat.
Proof.
  revert s. induction n as [|n IH]; intros [|c s]; simpl; try lia.
  specialize (IH s). lia.
Qed.

Lemma sliceTo_id n s : (String.length s ≤ n)%nat → sliceTo n s = s.
Proof.
  revert s. induction n as [|n IH]; intros [|c s]; simpl; try done; try lia.
  intros Hlen. rewrite IH; [done|lia].
Qed.

(** X23. Whatever is typed or pasted into the join screen, the room
    code kept is made of decimal digits only and has at most 6 of them;
    cleaning is idempotent and leaves a six-digit code as it is. *)
Theorem handleRoomCodeChange_spec text :
  allDigits (handleRoomCodeChange text) = true
  ∧ (String.length (handleRoomCodeChange text) ≤ 6)%nat
  ∧ handleRoomCodeChange (handleRoomCodeChange text) = handleRoomCodeChange text
  ∧ (sixDigits text → handleRoomCodeChange text = text).
Proof.
  unfold handleRoomCodeChange.
  assert (allDigits (sliceTo 6 (removeNonDigits text)) = true) as Hd.
  { apply sliceTo_allDigits, removeNonDigits_allDigits. }
  split_and!.
  - done.
  - apply sliceTo_length.
  - rewrite (removeNonDigits_id _ Hd). apply sliceTo_id, sliceTo_length.
  - intros [Hlen Hall]. rewrite removeNonDigits_id by done.
    apply sliceTo_id. lia.
Qed.

(** X24. The code as the lobby displays it, with a dash after the third
    digit, is turned back into the code by the join screen's input: a
    six-digit code copied from the lobby can be pasted as shown. *)
Theorem formattedRoomCode_roundtrip code :
  sixDigits code →
  String.length (formattedRoomCode (Some code)) = 7%nat
  ∧ handleRoomCodeChange (formattedRoomCode (Some code)) = code.
Proof.
  intros [Hlen Hall].
  destruct code as [|c1 [|c2 [|c3 [|c4 [|c5 [|c6 [|c7 code]]]]]]]; try done.
  simpl in Hall. repeat (apply andb_true_iff in Hall as [? Hall]).
  split; [done|]. unfold handleRoomCodeChange. simpl.
  by repeat match goal with H : isDigit _ = true |- _ => rewrite H; clear H end.
Qed.

Lemma formattedRoomCode_roundtrip_witness :
  handleRoomCodeChange (formattedRoomCode (Some "482913")) = "482913".
Proof.
  apply (formattedRoomCode_roundtrip "482913"). by split.
Defined.
End RoomCodeInput.

(** ** One live session per user *)

Section SingleLive.
Implicit Types (w : World) (sid uid code : string) (d : SessionData).

Lemma getUserActiveSession_run uid w :
  ∃ r, getUserActiveSession uid w = (inr r, w)
       ∧ match r with
         | Some s => sessions w !! id s = Some (data s)
                     ∧ activeSessionQuery uid (data s) = true
         | None => ∀ sid d, sessions w !! sid = Some d →
                            activeSessionQuery uid d = false
         end.
Proof.
  rewrite getUserActiveSession_eq.
  destruct (querySessions _ w) as [|[i d] r] eqn:Hq; eexists; (split; [done|]).
  - intros sid d Hd. apply not_true_is_false. intros Hq'.
    assert ((sid, d) ∈ querySessions (activeSessionQuery uid) w) as Hin.
    { by apply querySessions_elem. }
    rewrite Hq in Hin. by apply elem_of_nil in Hin.
  - assert ((i, d) ∈ querySessions (activeSessionQuery uid) w) as Hin.
    { rewrite Hq. constructor. }
    by apply querySessions_elem in Hin.
Qed.

Lemma activeSessionQuery_other uid uid' d ps :
  uid' ≠ uid →
  activeSessionQuery uid' (set_participants (ps ++ [uid]) d) = true →
  uid' ∈ ps ∧ status_in_pending_active d = true.
Proof.
  intros Hne. unfold activeSessionQuery. simpl.
  rewrite andb_true_iff, bool_decide_eq_true, elem_of_app,
    list_elem_of_singleton.
  intros [[Hin|Heq] Hlive]; [done|by destruct Hne].
Qed.

Lemma joinSessionByCode_cases code uid w :
  (∃ e, joinSessionByCode code uid w = (inl e, w))
  ∨ (∃ s, sessions w !! id s = Some (data s) ∧ status (data s) = pending
          ∧ roomCode (data s) = code
          ∧ ((uid ∈ participants (data s)
              ∧ joinSessionByCode code uid w = (inr (id s), w))
             ∨ ((uid ∉ participants (data s))
                ∧ joinSessionByCode code uid w
                  = (inr (id s),
                     set_sessions
                       (insert (id s)
                          (set_participants
                             (participants (data s) ++ [uid]) (data s)))
                       w)))).
Proof.
  destruct (getSessionByRoomCode code w) as [[e|[s|]] w'] eqn:Hget.
  - rewrite getSessionByRoomCode_eq in Hget. by inversion Hget.
  - destruct (getSessionByRoomCode_found _ _ _ _ Hget)
      as (-> & Hd & Hc & Hst).
    rewrite (joinSessionByCode_found _ _ _ _ Hget).
    case_decide as Hact; [left; by eexists|].
    destruct Hst as [Hst|]; [|done].
    right. exists s. split_and!; [done..|].
    case_decide; [by left|by right].
  - left. unfold joinSessionByCode, await. rewrite Hget.
    rewrite getSessionByRoomCode_eq in Hget. injection Hget as _ <-.
    by eexists.
Qed.

(** X25. The join screen joins nothing unless the code has 6
    characters, a user is signed in and that user is in no pending or
    active session: otherwise the store is left as it is.  When it does
    join, the user is a participant of the returned session, which is
    pending and carries the code, and is in no other live session. *)
Theorem handleJoinSession_spec code currentUser w :
  (String.length code ≠ 6%nat →
   handleJoinSession code currentUser w = (join_invalid_code, w))
  ∧ (∀ existing,
       (handleJoinSession code currentUser w).1 = join_already_in existing →
       (handleJoinSession code currentUser w).2 = w
       ∧ sessions w !! id existing = Some (data existing)
       ∧ ∃ uid, currentUser = Some uid
                ∧ activeSessionQuery uid (data existing) = true)
  ∧ (∀ e, (handleJoinSession code currentUser w).1 = join_error e →
       (handleJoinSession code currentUser w).2 = w)
  ∧ (∀ sid, (handleJoinSession code currentUser w).1 = join_joined sid →
       String.length code = 6%nat
       ∧ ∃ uid d', currentUser = Some uid
           ∧ (∀ sid0 d0, sessions w !! sid0 = Some d0 →
                         activeSessionQuery uid d0 = false)
           ∧ sessions (handleJoinSession code currentUser w).2 !! sid = Some d'
           ∧ uid ∈ participants d' ∧ status d' = pending
           ∧ roomCode d' = code
           ∧ ∀ sid1 d1,
               sessions (handleJoinSession code currentUser w).2 !! sid1
               = Some d1 →
               activeSessionQuery uid d1 = true → sid1 = sid).
Proof.
  unfold handleJoinSession.
  destruct (Nat.eqb_spec (String.length code) 6) as [Hlen|Hlen]; simpl.
  2: { split_and!; done. }
  split; [done|].
  destruct currentUser as [uid|]; [|by split_and!].
  destruct (getUserActiveSession_run uid w) as (r & -> & Hr).
  destruct r as [existing|].
  { split_and!; try done. intros ? [= <-]. destruct Hr.
    split_and!; [done..|]. by exists uid. }
  destruct (joinSessionByCode_cases code uid w)
    as [[e ->]|(s & Hd & Hst & Hc & [[Hin ->]|[Hnin ->]])]; simpl.
  - by split_and!.
  - split_and!; try done. intros sid [= <-]. split; [done|].
    exists uid, (data s). split_and!; try done.
    intros sid1 d1 Hd1 Hq. by rewrite (Hr _ _ Hd1) in Hq.
  - split_and!; try done. intros sid [= <-]. split; [done|].
    exists uid. eexists. split_and!; [done|done|apply lookup_insert_eq|..].
    + simpl. apply elem_of_app. right. constructor.
    + done.
    + done.
    + intros sid1 d1. rewrite lookup_insert. case_decide; [done|].
      intros Hd1 Hq. by rewrite (Hr _ _ Hd1) in Hq.
Qed.

Lemma cancelSession_live uid sid0 w sid d :
  (sessions (cancelSession sid0 w).2 !! sid = Some d
   ∧ activeSessionQuery uid d = true)
  ↔ (sid ≠ sid0 ∧ sessions w !! sid = Some d
     ∧ activeSessionQuery uid d = true).
Proof.
  simpl. rewrite lookup_delete. case_decide as Hsid.
  - subst sid. split; [by intros [[=] _]|]. intros [Hne _]. by destruct Hne.
  - split; [intros [Hd Hq]|intros (_ & Hd & Hq)]; by split_and!.
Qed.

Lemma leaveSession_live uid sid0 w sid d :
  (sessions (leaveSession sid0 uid w).2 !! sid = Some d
   ∧ activeSessionQuery uid d = true)
  ↔ (sid ≠ sid0 ∧ sessions w !! sid = Some d
     ∧ activeSessionQuery uid d = true).
Proof.
  destruct (sessions w !! sid0) as [d0|] eqn:Hd0.
  - rewrite (leaveSession_run _ _ _ _ Hd0). simpl.
    rewrite lookup_insert. case_decide as Hsid.
    + subst sid. split.
      * intros [[= <-] Hq].
        apply activeSessionQuery_true in Hq as [Hin _]. simpl in Hin.
        apply list_elem_of_filter in Hin as [Hne _]. by destruct Hne.
      * intros [Hne _]. by destruct Hne.
    + split; [intros [Hd Hq]|intros (_ & Hd & Hq)]; by split_and!.
  - unfold leaveSession, await, getDoc_session. rewrite Hd0. simpl. split.
    + intros [Hd Hq]. split_and!; [|done..]. intros ->. congruence.
    + by intros (_ & Hd & Hq).
Qed.

Lemma leaveSession_ok sid uid w : (leaveSession sid uid w).1 = inr ().
Proof.
  destruct (sessions w !! sid) as [d0|] eqn:Hd0.
  - by rewrite (leaveSession_run _ _ _ _ Hd0).
  - unfold leaveSession, await, getDoc_session. by rewrite Hd0.
Qed.

Lemma relinquish_live uid existing w sid d :
  (sessions (relinquish uid existing w).2 !! sid = Some d
   ∧ activeSessionQuery uid d = true)
  ↔ (sid ≠ id existing ∧ sessions w !! sid = Some d
     ∧ activeSessionQuery uid d = true).
Proof.
  unfold relinquish. case_decide.
  - apply cancelSession_live.
  - apply leaveSession_live.
Qed.

(** X26. The lobby's leave button does nothing without a session id or
    a signed-in user.  Otherwise it never fails on the store and takes
    the user out of the session: afterwards the user's pending or active
    sessions are those of before without this one, and no profile has
    changed.  When the session on screen names the user as host, the
    document is deleted for everyone, whatever its status; in every other
    case, also when the host leaves before the session has been loaded
    on the screen, the user is only removed from the participants and the
    session stays. *)
Theorem handleLeaveLobby_spec sessionId currentUser session w :
  (sessionId = None ∨ sessionId = Some "" ∨ currentUser = None →
   handleLeaveLobby sessionId currentUser session w = (leave_ignored, w))
  ∧ (∀ sid uid,
       sessionId = Some sid → sid ≠ "" → currentUser = Some uid →
       (handleLeaveLobby sessionId currentUser session w).1 = leave_home
       ∧ users (handleLeaveLobby sessionId currentUser session w).2
         = users w
       ∧ (∀ sid' d,
            (sessions (handleLeaveLobby sessionId currentUser session w).2
               !! sid' = Some d
             ∧ activeSessionQuery uid d = true)
            ↔ (sid' ≠ sid ∧ sessions w !! sid' = Some d
               ∧ activeSessionQuery uid d = true))
       ∧ ((∃ s, session = Some s ∧ hostId (data s) = uid) →
          sessions (handleLeaveLobby sessionId currentUser session w).2
          = delete sid (sessions w))
       ∧ (¬ (∃ s, session = Some s ∧ hostId (data s) = uid) →
          (∀ d, sessions w !! sid = Some d →
                sessions (handleLeaveLobby sessionId currentUser session w).2
                = <[sid := set_participants
                             (filter (λ i, i ≠ uid) (participants d)) d]>
                    (sessions w))
          ∧ (sessions w !! sid = None →
             (handleLeaveLobby sessionId currentUser session w).2 = w))).
Proof.
  split.
  - intros [-> | [-> | ->]]; [done|done|].
    unfold handleLeaveLobby. by destruct sessionId as [[|c rest]|].
  - intros sid uid -> Hne ->. destruct sid as [|c rest]; [done|].
    unfold handleLeaveLobby. cbv zeta.
    remember (String c rest) as sid eqn:Hsid. clear Hsid Hne c rest.
    case_bool_decide as Hhost.
    + assert (∃ s, session = Some s ∧ hostId (data s) = uid) as Hs.
      { destruct session as [s|]; [|done]. exists s. split; [done|].
        simpl in Hhost. congruence. }
      simpl. split_and!; [done|done| |done|].
      * intros sid' d. apply (cancelSession_live uid sid w sid' d).
      * intros Hnot. by destruct Hnot.
    + assert (¬ ∃ s, session = Some s ∧ hostId (data s) = uid) as Hs.
      { intros (s & -> & Hs). apply Hhost. simpl. by rewrite Hs. }
      pose proof (leaveSession_ok sid uid w) as Hok.
      destruct (leaveSession sid uid w) as [[e|tt0] w'] eqn:Hleave;
        [done|]. simpl.
      assert (w' = (leaveSession sid uid w).2) as Hw' by by rewrite Hleave.
      split_and!; [done| | | |].
      * rewrite Hw'. destruct (sessions w !! sid) as [d0|] eqn:Hd0.
        -- by rewrite (leaveSession_run _ _ _ _ Hd0).
        -- unfold leaveSession, await, getDoc_session. by rewrite Hd0.
      * intros sid' d. rewrite Hw'. apply leaveSession_live.
      * intros Hyes. by destruct Hs.
      * intros _. split.
        -- intros d Hd. rewrite Hw'.
           by rewrite (leaveSession_run _ _ _ _ Hd).
        -- intros Hd. rewrite Hw'.
           unfold leaveSession, await, getDoc_session. by rewrite Hd.
Qed.

(** The host of the sample lobby leaves before the session has arrived
    on the screen: the session stays, without its host among the
    participants. *)
Lemma handleLeaveLobby_spec_witness :
  sessions (handleLeaveLobby (Some "s1") (Some "ana") None lobby_world).2
  = <["s1" := set_participants ["ben"] lobby_session]> (sessions lobby_world)
  ∧ sessions
      (handleLeaveLobby (Some "s1") (Some "ana")
         (Some {| id := "s1"; data := lobby_session |}) lobby_world).2
    = delete "s1" (sessions lobby_world).
Proof.
  destruct (handleLeaveLobby_spec (Some "s1") (Some "ana") None lobby_world)
    as [_ Hnone].
  destruct (Hnone "s1" "ana") as (_ & _ & _ & _ & Hstay);
    [reflexivity | discriminate | reflexivity |].
  destruct Hstay as [Hstay _]; [by intros (s & [=] & _)|].
  destruct (handleLeaveLobby_spec (Some "s1") (Some "ana")
              (Some {| id := "s1"; data := lobby_session |}) lobby_world)
    as [_ Hhost].
  destruct (Hhost "s1" "ana") as (_ & _ & _ & Hgone & _);
    [reflexivity | discriminate | reflexivity |].
  split.
  - apply (Hstay lobby_session). reflexivity.
  - apply Hgone. by eexists.
Defined.
End SingleLive.

Section Cooperative.
Implicit Types (w : World) (sid uid u : string) (d : SessionData).

Lemma single_live_sessions w w' u :
  sessions w' = sessions w → single_live w u → single_live w' u.
Proof. unfold single_live. by intros ->. Qed.

Lemma single_live_none w u sid d :
  (∀ sid0 d0, sessions w !! sid0 = Some d0 → activeSessionQuery u d0 = false) →
  single_live (set_sessions (insert sid d) w) u.
Proof.
  intros Hnone sid1 sid2 d1 d2. simpl. rewrite !lookup_insert.
  repeat case_decide; subst; try done.
  - intros _ Hd2 _ Hq. by rewrite (Hnone _ _ Hd2) in Hq.
  - intros Hd1 _ Hq. by rewrite (Hnone _ _ Hd1) in Hq.
  - intros Hd1 _ Hq. by rewrite (Hnone _ _ Hd1) in Hq.
Qed.

Lemma single_live_dead w u sid d :
  activeSessionQuery u d = false →
  single_live w u → single_live (set_sessions (insert sid d) w) u.
Proof.
  intros Hdead Hw sid1 sid2 d1 d2. simpl. rewrite !lookup_insert.
  repeat case_decide; subst; try done.
  - intros [= <-] _ Hq. congruence.
  - intros _ [= <-] _ Hq. congruence.
  - apply Hw.
Qed.

Lemma single_live_shrink w u sid d d' :
  sessions w !! sid = Some d →
  (activeSessionQuery u d' = true → activeSessionQuery u d = true) →
  single_live w u → single_live (set_sessions (insert sid d') w) u.
Proof.
  intros Hd Hmono Hw sid1 sid2 d1 d2. simpl. rewrite !lookup_insert.
  repeat case_decide; subst; try done.
  - intros [= <-] Hd2 Hq1 Hq2. eapply Hw; eauto.
  - intros Hd1 [= <-] Hq1 Hq2. eapply Hw; eauto.
  - apply Hw.
Qed.

Lemma single_live_delete w u sid :
  single_live w u → single_live (set_sessions (delete sid) w) u.
Proof.
  intros Hw sid1 sid2 d1 d2. simpl. rewrite !lookup_delete.
  repeat case_decide; try done. apply Hw.
Qed.

Lemma handleJoinSession_world code currentUser w :
  (handleJoinSession code currentUser w).2 = w
  ∨ ∃ uid sid d,
      currentUser = Some uid
      ∧ (∀ sid0 d0, sessions w !! sid0 = Some d0 →
                    activeSessionQuery uid d0 = false)
      ∧ sessions w !! sid = Some d
      ∧ (handleJoinSession code currentUser w).2
        = set_sessions
            (insert sid (set_participants (participants d ++ [uid]) d)) w.
Proof.
  unfold handleJoinSession.
  destruct (negb _); [by left|].
  destruct currentUser as [uid|]; [|by left].
  destruct (getUserActiveSession_run uid w) as (r & -> & Hr).
  destruct r as [existing|]; [by left|].
  destruct (joinSessionByCode_cases code uid w)
    as [[e ->]|(s & Hd & Hst & Hc & [[Hin ->]|[Hnin ->]])];
    [by left|by left|].
  right. by exists uid, (id s), (data s).
Qed.

Lemma handleStartPress_world autoId now mode hours minutes currentUser w :
  sessions (handleStartPress autoId now mode hours minutes currentUser w).2
  = sessions w
  ∨ ∃ uid d,
      currentUser = Some uid
      ∧ (∀ sid0 d0, sessions w !! sid0 = Some d0 →
                    activeSessionQuery uid d0 = false)
      ∧ (handleStartPress autoId now mode hours minutes currentUser w).1
        = start_created autoId
      ∧ sessions (handleStartPress autoId now mode hours minutes
                    currentUser w).2
        = <[autoId := d]> (sessions w)
      ∧ hostId d = uid ∧ participants d = [uid] ∧ status d = pending
      ∧ ¬ reserved w (roomCode d)
      ∧ isMarathon d = Some (bool_decide (mode = marathon))
      ∧ duration d = (if bool_decide (mode = marathon) then 0
                      else hours * 60 + minutes)
      ∧ (mode = marathon ∨ 0 < hours * 60 + minutes).
Proof.
  unfold handleStartPress.
  destruct currentUser as [uid|]; [|by left].
  destruct (getUserActiveSession_run uid w) as (r & -> & Hr).
  destruct r as [existing|]; [by left|].
  destruct (negb _ && _) eqn:Hvalid; [by left|].
  destruct (createSession _ _ _ _ _ _ w) as [[e|sid] w'] eqn:Hcreate.
  - left. rewrite createSession_run in Hcreate. cbv zeta in Hcreate.
    destruct (generateRoomCode_run _ 10 0 w eq_refl) as (Hs & _).
    destruct (generateRoomCode 10 0 w).1; [|done].
    by injection Hcreate as _ <-.
  - right.
    apply createSession_ok
      in Hcreate as (code & _ & Hfree & -> & -> & Hs & _).
    exists uid. eexists. split_and!; [done..|simpl; by rewrite Hs| | | | | | |];
      try done.
    destruct mode; [right|by left]. simpl in Hvalid.
    destruct (Z.leb_spec (hours * 60 + minutes) 0); [done|lia].
Qed.

(** X27. The home screen creates a session only for a signed-in user
    who is in no pending or active session, and never a timed session of
    zero or negative length; otherwise no session document is written.
    The session it creates is pending, hosted by the user alone, with a
    room code no live session had, and it is then the only live session
    of that user; a marathon session is stored with duration 0, a timed
    one with [hours * 60 + minutes]. *)
Theorem handleStartPress_spec autoId now mode hours minutes currentUser w :
  (∀ sid, (handleStartPress autoId now mode hours minutes currentUser w).1
          = start_created sid →
     sid = autoId
     ∧ ∃ uid d,
         currentUser = Some uid
         ∧ (∀ sid0 d0, sessions w !! sid0 = Some d0 →
                       activeSessionQuery uid d0 = false)
         ∧ sessions (handleStartPress autoId now mode hours minutes
                       currentUser w).2 !! sid = Some d
         ∧ hostId d = uid ∧ participants d = [uid] ∧ status d = pending
         ∧ ¬ reserved w (roomCode d)
         ∧ ((mode = marathon ∧ isMarathon d = Some true ∧ duration d = 0)
            ∨ (mode = timed ∧ isMarathon d = Some false
               ∧ duration d = hours * 60 + minutes ∧ 0 < duration d))
         ∧ ∀ sid1 d1,
             sessions (handleStartPress autoId now mode hours minutes
                         currentUser w).2 !! sid1 = Some d1 →
             activeSessionQuery uid d1 = true → sid1 = sid)
  ∧ ((∀ sid, (handleStartPress autoId now mode hours minutes currentUser w).1
             ≠ start_created sid) →
     sessions (handleStartPress autoId now mode hours minutes currentUser w).2
     = sessions w)
  ∧ (mode = timed → hours * 60 + minutes ≤ 0 →
     ∀ sid, (handleStartPress autoId now mode hours minutes currentUser w).1
            ≠ start_created sid).
Proof.
  split_and!.
  - intros sid Hcreated.
    destruct (handleStartPress_world autoId now mode hours minutes
                currentUser w)
      as [Hsame|(uid & d & -> & Hnone & Hres & Hs & Hh & Hps & Hst & Hfree
                 & Hm & Hdur & Hvalid)].
    + exfalso. revert Hcreated Hsame. unfold handleStartPress.
      destruct currentUser as [uid|]; [|done].
      destruct (getUserActiveSession_run uid w) as (r & -> & Hr).
      destruct r as [existing|]; [done|].
      destruct (negb _ && _); [done|].
      destruct (createSession _ _ _ _ _ _ w) as [[e|sid'] w'] eqn:Hcreate;
        [done|].
      apply createSession_ok in Hcreate as (code & _ & _ & -> & -> & Hs & _).
      intros _ Heq. simpl in Heq. rewrite Hs in Heq.
      assert (<[autoId:=_]> (sessions w) !! autoId = sessions w !! autoId)
        as Hlook by by rewrite Heq.
      rewrite lookup_insert_eq in Hlook.
      destruct (generateRoomCode_run _ 10 0 w eq_refl) as (_ & _ & Hcases).
      symmetry in Hlook. specialize (Hr _ _ Hlook).
      unfold activeSessionQuery in Hr. simpl in Hr.
      rewrite bool_decide_eq_true_2 in Hr by left. done.
    + rewrite Hres in Hcreated. injection Hcreated as <-.
      split; [done|]. exists uid, d. rewrite Hs.
      split_and!; [done|done|apply lookup_insert_eq|done..| |].
      * rewrite Hm, Hdur. destruct mode; [right|left]; simpl.
        -- split_and!; [done..|]. by destruct Hvalid as [[=]|?].
        -- done.
      * intros sid1 d1. rewrite lookup_insert.
        destruct (decide (autoId = sid1)) as [<-|Hne]; [done|].
        intros Hd1 Hq. by rewrite (Hnone _ _ Hd1) in Hq.
  - intros Hnot.
    destruct (handleStartPress_world autoId now mode hours minutes
                currentUser w)
      as [Hsame|(uid & d & _ & _ & Hres & _)]; [done|].
    by destruct (Hnot autoId).
  - intros -> Hle sid. unfold handleStartPress.
    destruct currentUser as [uid|]; [|done].
    destruct (getUserActiveSession_run uid w) as (r & -> & Hr).
    destruct r as [existing|]; [done|]. simpl.
    by rewrite (proj2 (Z.leb_le _ _) Hle).
Qed.

(** X28. If a user is in at most one pending or active session, the
    join screen, the home screen and the cancel/leave buttons keep it so,
    for the acting user and for everybody else. *)
Theorem single_live_preserved u w :
  single_live w u →
  (∀ code currentUser,
     single_live (handleJoinSession code currentUser w).2 u)
  ∧ (∀ autoId now mode hours minutes currentUser,
       single_live
         (handleStartPress autoId now mode hours minutes currentUser w).2 u)
  ∧ (∀ uid existing, single_live (relinquish uid existing w).2 u).
Proof.
  intros Hw. split_and!.
  - intros code currentUser.
    destruct (handleJoinSession_world code currentUser w)
      as [->|(uid & sid & d & _ & Hnone & Hd & ->)]; [done|].
    destruct (decide (u = uid)) as [->|Hne].
    + by apply single_live_none.
    + apply (single_live_shrink _ _ _ d); [done| |done].
      intros [Hin Hlive]%(activeSessionQuery_other _ _ _ _ Hne).
      unfold activeSessionQuery. rewrite Hlive.
      by rewrite bool_decide_eq_true_2.
  - intros autoId now mode hours minutes currentUser.
    destruct (handleStartPress_world autoId now mode hours minutes
                currentUser w)
      as [Hs|(uid & d & _ & Hnone & _ & Hs & Hh & Hps & _)].
    + by apply (single_live_sessions w).
    + apply (single_live_sessions (set_sessions (insert autoId d) w));
        [done|].
      destruct (decide (u = uid)) as [->|Hne].
      * by apply single_live_none.
      * apply single_live_dead; [|done].
        unfold activeSessionQuery. rewrite Hps.
        rewrite bool_decide_eq_false_2; [done|].
        rewrite list_elem_of_singleton. done.
  - intros uid existing. unfold relinquish. case_decide.
    + by apply single_live_delete.
    + unfold leaveSession, await, getDoc_session.
      destruct (sessions w !! id existing) as [d|] eqn:Hd; [|done].
      rewrite (updateDoc_session_Some _ _ _ d) by done.
      apply (single_live_shrink _ _ _ d); [done| |done].
      unfold activeSessionQuery. simpl.
      rewrite !andb_true_iff, !bool_decide_eq_true, list_elem_of_filter.
      tauto.
Qed.

Lemma single_live_preserved_witness :
  single_live (handleJoinSession "482913" (Some "cy") lobby_world).2 "cy".
Proof.
  apply (single_live_preserved "cy" lobby_world).
  intros sid1 sid2 d1 d2 H1 H2 _ _.
  change (sessions lobby_world)
    with ({[ "s1" := lobby_session ]} : gmap string SessionData) in H1, H2.
  apply lookup_singleton_Some in H1 as [<- _].
  by apply lookup_singleton_Some in H2 as [<- _].
Defined.
End Cooperative.

(** ** Codes and the life of a session *)

Section CodeLife.
Implicit Types (w : World) (sid uid code : string) (d : SessionData).

Lemma joinSessionByCode_not_found code uid w :
  (∀ sid d, sessions w !! sid = Some d → roomCode d = code →
            status d = ended) →
  joinSessionByCode code uid w = (inl ERR_NOT_FOUND, w)
  ∧ ¬ reserved w code.
Proof.
  intros Hnone. split.
  - unfold joinSessionByCode, await. by rewrite getSessionByRoomCode_none.
  - intros (sid & d & Hd & Hc & Hs). specialize (Hnone _ _ Hd Hc).
    destruct Hs; congruence.
Qed.

(** X29. A room code admits new participants only while its session is
    pending.  For the pending session found by a code that is unique among
    live sessions: once the session is started, joining by the code fails
    with the already-started error; once it is ended or cancelled, joining
    fails with the not-found error and the code is free to be generated
    again. *)
Theorem room_code_closes code uid now w s :
  codes_unique w →
  getSessionByRoomCode code w = (inr (Some s), w) →
  status (data s) = pending →
  (joinSessionByCode code uid (startSession now (id s) w).2).1
  = inl ERR_ALREADY_STARTED
  ∧ (∀ o r,
       (joinSessionByCode code uid (endSession now (id s) o r w).2).1
       = inl ERR_NOT_FOUND
       ∧ ¬ reserved (endSession now (id s) o r w).2 code)
  ∧ (joinSessionByCode code uid (cancelSession (id s) w).2).1
    = inl ERR_NOT_FOUND
  ∧ ¬ reserved (cancelSession (id s) w).2 code.
Proof.
  intros Huniq Hget Hst.
  destruct (getSessionByRoomCode_found _ _ _ _ Hget) as (_ & Hd & Hc & Hlive).
  assert (∀ sid d, sid ≠ id s → sessions w !! sid = Some d →
                   roomCode d = code → status d = ended) as Hothers.
  { intros sid d Hne Hd' Hc'. destruct (status d) eqn:Hs; [| |done].
    - destruct Hne. apply (Huniq sid (id s) d (data s)); try done.
      + apply status_in_pending_active_true. by left.
      + apply status_in_pending_active_true. by left.
      + congruence.
    - destruct Hne. apply (Huniq sid (id s) d (data s)); try done.
      + apply status_in_pending_active_true. by right.
      + apply status_in_pending_active_true. by left.
      + congruence. }
  split_and!.
  - unfold startSession. rewrite (updateDoc_session_Some _ _ _ _ Hd). simpl.
    assert (roomCodeQuery code (set_started now (data s)) = true) as Hq.
    { apply roomCodeQuery_true. simpl. auto. }
    rewrite (joinSessionByCode_found _ _ _ _
               (getSessionByRoomCode_update _ _ _ (set_started now) Hget Hq)).
    reflexivity.
  - intros o r. rewrite (endSession_Some _ _ _ _ _ _ Hd). simpl.
    match goal with
    | |- context [joinSessionByCode code uid ?w1] =>
        destruct (joinSessionByCode_not_found code uid w1) as [-> Hfree]
    end; [|done].
    intros sid d. simpl. rewrite lookup_insert.
    case_decide; [by intros [= <-]|]. by apply Hothers.
  - match goal with
    | |- context [joinSessionByCode code uid ?w1] =>
        destruct (joinSessionByCode_not_found code uid w1) as [-> Hfree]
    end; [|done].
    intros sid d. simpl. rewrite lookup_delete.
    case_decide; [done|]. by apply Hothers.
  - apply (joinSessionByCode_not_found code uid).
    intros sid d. simpl. rewrite lookup_delete.
    case_decide; [done|]. by apply Hothers.
Qed.

Lemma room_code_closes_witness :
  (joinSessionByCode "482913" "cy" (startSession 1060 "s1" lobby_world).2).1
  = inl ERR_ALREADY_STARTED.
Proof.
  destruct (room_code_closes "482913" "cy" 1060 lobby_world
              {| id := "s1"; data := lobby_session |}) as [Hstart _].
  - intros sid1 sid2 d1 d2 H1 H2 _ _ _.
    change (sessions lobby_world)
      with ({[ "s1" := lobby_session ]} : gmap string SessionData) in H1, H2.
    apply lookup_singleton_Some in H1 as [<- _].
    by apply lookup_singleton_Some in H2 as [<- _].
  - reflexivity.
  - reflexivity.
  - exact Hstart.
Defined.

(** X30. After "Cancel It" or "Leave It" the retry is not held up
    again: for a user who was in exactly one pending or active session,
    giving that session up leaves the user in none, so the next attempt to
    join goes on to the room code instead of the dialog. *)
Theorem relinquish_then_retry code uid w existing :
  single_live w uid →
  (getUserActiveSession uid w).1 = inr (Some existing) →
  (getUserActiveSession uid (relinquish uid existing w).2).1 = inr None
  ∧ ∀ other,
      (handleJoinSession code (Some uid) (relinquish uid existing w).2).1
      ≠ join_already_in other.
Proof.
  intros Hsingle Hex.
  destruct (getUserActiveSession_run uid w) as (r & Hrun & Hr).
  rewrite Hrun in Hex. injection Hex as ->. destruct Hr as [Hd Hq].
  assert (∀ sid d, sessions (relinquish uid existing w).2 !! sid = Some d →
                   activeSessionQuery uid d = false) as Hnone.
  { intros sid d Hd'. apply not_true_is_false. intros Hq'.
    destruct (proj1 (relinquish_live uid existing w sid d) (conj Hd' Hq'))
      as (Hne & Hd0 & Hq0).
    destruct Hne. by apply (Hsingle sid (id existing) d (data existing)). }
  assert ((getUserActiveSession uid (relinquish uid existing w).2).1 = inr None)
    as Hfree.
  { destruct (getUserActiveSession_run uid (relinquish uid existing w).2)
      as (r & -> & Hr).
    destruct r as [s|]; [|done]. destruct Hr as [Hd' Hq'].
    by rewrite (Hnone _ _ Hd') in Hq'. }
  split; [done|]. intros other. unfold handleJoinSession.
  destruct (negb _); [done|].
  destruct (getUserActiveSession uid (relinquish uid existing w).2)
    as [[e|[s|]] w'] eqn:Hget; simpl in Hfree; try done.
  by destruct (joinSessionByCode code uid w') as [[?|?] ?].
Qed.

Lemma relinquish_then_retry_witness :
  (getUserActiveSession "ben"
     (relinquish "ben" {| id := "s1"; data := lobby_session |} lobby_world).2).1
  = inr None.
Proof.
  destruct (relinquish_then_retry "482913" "ben" lobby_world
              {| id := "s1"; data := lobby_session |}) as [Hfree _].
  - intros sid1 sid2 d1 d2 H1 H2 _ _.
    change (sessions lobby_world)
      with ({[ "s1" := lobby_session ]} : gmap string SessionData) in H1, H2.
    apply lookup_singleton_Some in H1 as [<- _].
    by apply lookup_singleton_Some in H2 as [<- _].
  - reflexivity.
  - exact Hfree.
Defined.
End CodeLife.
